(** * createModel.py: a shallow embedding of the model synthesiser

    The script reads five tab-delimited tables, writes an Antimony model
    text, converts it to SBML, annotates the SBML document and builds
    the observable formulas handed to AMICI.  Strings are Rocq strings
    whose characters are the code points below 256 (the species table is
    decoded as Latin-1); Python exceptions are the [Raise] results of a
    small error monad; the numeric library calls (float parsing,
    [np.genfromtxt], float arithmetic and float printing) are the
    variables of the section [CreateModel]. *)

From Stdlib Require Import String Ascii List ZArith Lia Bool.
From stdpp Require Import base option list strings gmap pretty.

Local Open Scope string_scope.
Local Open Scope list_scope.

(** ** Exceptions and the error monad *)

(** A constructor stands for the Python class and its subclasses:
    [OSError] for [FileNotFoundError], [ValueError] for
    [UnicodeDecodeError]. *)
Inductive exn : Type :=
  | OSError | IndexError | KeyError | ValueError | TypeError | NameError
  | AttributeError | ExternalError.

Inductive result (A : Type) : Type :=
  | Ok (a : A)
  | Raise (e : exn).
Arguments Ok {A} a.
Arguments Raise {A} e.

Definition bind {A B : Type} (r : result A) (k : A -> result B) : result B :=
  match r with
  | Ok a => k a
  | Raise e => Raise e
  end.

#[global] Instance result_ret : MRet result := fun A a => Ok a.
#[global] Instance result_bind : MBind result := fun A B k r => bind r k.

(** [o] or the exception [e]: indexing, parsing. *)
Definition or_raise {A : Type} (e : exn) (o : option A) : result A :=
  match o with
  | Some a => Ok a
  | None => Raise e
  end.

(** [l[i]] of a Python sequence, for a non-negative index. *)
Definition index {A : Type} (l : list A) (i : nat) : result A :=
  or_raise IndexError (l !! i).

(** A left-to-right loop whose body may raise. *)
Fixpoint for_each {A S : Type} (body : S -> A -> result S) (l : list A) (s : S)
  : result S :=
  match l with
  | [] => Ok s
  | a :: l' => s' ← body s a; for_each body l' s'
  end.

(** ** Python string primitives *)

Module Py.

(** [str.isspace] on one character, for the code points below 256. *)
Definition isspace (c : ascii) : bool :=
  let n := nat_of_ascii c in
  (((9 <=? n) && (n <=? 13)) || ((28 <=? n) && (n <=? 32))
   || (n =? 133) || (n =? 160))%nat.

(** [\d] of the [re] module, for the code points below 256. *)
Definition isdigit (c : ascii) : bool :=
  let n := nat_of_ascii c in ((48 <=? n) && (n <=? 57))%nat.

Fixpoint lstrip (s : string) : string :=
  match s with
  | String c s' => if isspace c then lstrip s' else s
  | EmptyString => EmptyString
  end.

Fixpoint rstrip (s : string) : string :=
  match s with
  | String c s' =>
      match rstrip s' with
      | EmptyString => if isspace c then EmptyString else String c EmptyString
      | r => String c r
      end
  | EmptyString => EmptyString
  end.

(** [s.strip()]. *)
Definition strip (s : string) : string := rstrip (lstrip s).

(** [s.split(sep)] for a one-character separator. *)
Fixpoint split (sep : ascii) (s : string) : list string :=
  match s with
  | String c s' =>
      if Ascii.eqb c sep then EmptyString :: split sep s'
      else match split sep s' with
           | f :: fs => String c f :: fs
           | [] => [String c EmptyString]
           end
  | EmptyString => [EmptyString]
  end.

(** [sep.join(l)]. *)
Definition join (sep : string) (l : list string) : string := String.concat sep l.

(** [c in s] for a one-character [c]. *)
Fixpoint contains (c : ascii) (s : string) : bool :=
  match s with
  | String c' s' => Ascii.eqb c' c || contains c s'
  | EmptyString => false
  end.

(** [s[:-1]]. *)
Fixpoint drop_last (s : string) : string :=
  match s with
  | String c EmptyString => EmptyString
  | String c s' => String c (drop_last s')
  | EmptyString => EmptyString
  end.

Fixpoint startswith (p s : string) : bool :=
  match p, s with
  | EmptyString, _ => true
  | String a p', String b s' => Ascii.eqb a b && startswith p' s'
  | String _ _, EmptyString => false
  end.

(** [s.replace(old, new)] for a non-empty [old]: every non-overlapping
    occurrence, leftmost first.  [skip] counts the characters of an
    occurrence that are still to be passed over. *)
Fixpoint replace_from (old new : string) (skip : nat) (s : string) : string :=
  match s with
  | String c s' =>
      match skip with
      | S k => replace_from old new k s'
      | O =>
          if startswith old s
          then new +:+ replace_from old new (String.length old - 1) s'
          else String c (replace_from old new 0 s')
      end
  | EmptyString => EmptyString
  end.

Definition replace (old new s : string) : string :=
  match old with
  | EmptyString => s
  | _ => replace_from old new 0 s
  end.

(** [str(n)] of a non-negative integer. *)
Definition str (n : nat) : string := pretty n.

End Py.

(** ** The two regular expressions of the rate-law templates

    Both patterns are sequences of literals and greedy starred character
    classes; [match_here] is the backtracking matcher of such a sequence
    at one position (longest repetition first, shorter ones on failure),
    [finditer] the left-to-right scan for non-overlapping matches. *)

Module Re.

Inductive atom : Type :=
  | Lit (c : ascii)
  | Star (cls : ascii -> bool).

Fixpoint match_here (r : list atom) (s : string) {struct r} : option string :=
  match r with
  | [] => Some EmptyString
  | Lit c :: r' =>
      match s with
      | String c' s' =>
          if Ascii.eqb c' c then String c' <$> match_here r' s' else None
      | EmptyString => None
      end
  | Star cls :: r' =>
      (fix star (s : string) : option string :=
         match s with
         | String c s' =>
             if cls c
             then match String c <$> star s' with
                  | Some m => Some m
                  | None => match_here r' s
                  end
             else match_here r' s
         | EmptyString => match_here r' s
         end) s
  end.

(** The matched texts of [finditer]; a match of these patterns starts
    with a literal, hence is never empty.  [skip] counts the characters
    of the last match still to be passed over. *)
Fixpoint finditer_from (r : list atom) (skip : nat) (s : string) : list string :=
  match s with
  | String c s' =>
      match skip with
      | S k => finditer_from r k s'
      | O =>
          match match_here r s with
          | Some m => m :: finditer_from r (String.length m - 1) s'
          | None => finditer_from r 0 s'
          end
      end
  | EmptyString => []
  end.

Definition finditer (r : list atom) (s : string) : list string :=
  finditer_from r 0 s.

Fixpoint lits (s : string) : list atom :=
  match s with
  | String c s' => Lit c :: lits s'
  | EmptyString => []
  end.

Definition nondigit (c : ascii) : bool := negb (Py.isdigit c).

(** The pattern "k\D*\d*" of the one-parameter branch. *)
Definition pattern : list atom := [Lit "k"; Star nondigit; Star Py.isdigit].

(** The pattern of the several-parameter branch: the same three atoms
    (the run of non-digits is a group there, which does not change what
    matches), then the literal "_" and the digits of [str(j)]. *)
Definition pattern1 (j : nat) : list atom :=
  [Lit "k"; Star nondigit; Star Py.isdigit] ++ lits ("_" +:+ Py.str j).

End Re.

(** ** Characters and fixed texts *)

Definition tab : ascii := ascii_of_nat 9.
Definition newline : ascii := ascii_of_nat 10.
Definition nl : string := String newline EmptyString.

(** [enumerate(l)], counting from [i]. *)
Fixpoint enumerate_from {A : Type} (i : nat) (l : list A) : list (nat * A) :=
  match l with
  | [] => []
  | a :: l' => (i, a) :: enumerate_from (S i) l'
  end.

Definition enumerate {A : Type} (l : list A) : list (nat * A) := enumerate_from 0 l.

(** Do all rows have the length of the first one? *)
Definition rectangular {A : Type} (g : list (list A)) : bool :=
  match g with
  | [] => true
  | r :: g' => forallb (fun r' => length r' =? length r)%nat g'
  end.

(** ** The tables and the outputs *)

(** The observable matrix as [pd.read_csv] returns it: the row labels
    and, per column, its name and its values. *)
Record ObsMat_t (num : Type) : Type := {
  ObsMat_index : list string;
  ObsMat_columns : list (string * list num)
}.
Arguments ObsMat_index {num} _.
Arguments ObsMat_columns {num} _.

(** A table file as the script meets it: it cannot be opened; or it
    opens, but its bytes are not text in the encoding it is read with;
    or iterating over it yields these lines. *)
Inductive file : Type :=
  | Missing
  | Undecodable
  | Lines (lines : list string).

(** The four table files and the outcome of reading the observable
    matrix.  The species table is read as Latin-1, in which every byte
    is a character: when it opens it has lines ([None]: it cannot be
    opened).  The other three are read in the default encoding. *)
Record inputs (num : Type) : Type := {
  Compartments_txt : file;
  Species_txt : option (list string);
  StoicMat_txt : file;
  Ratelaws_txt : file;
  Observables_txt : result (ObsMat_t num)
}.
Arguments Compartments_txt {num} _.
Arguments Species_txt {num} _.
Arguments StoicMat_txt {num} _.
Arguments Ratelaws_txt {num} _.
Arguments Observables_txt {num} _.

(** What the synthesis pass accumulates: the chunks written to
    [fileModel], in order, and the four parameter lists. *)
Record synth (num : Type) : Type := {
  fileModel : list string;
  paramnames : list string;
  paramvals : list num;
  paramrxns : list string;
  paramidxs : list nat
}.
Arguments fileModel {num} _.
Arguments paramnames {num} _.
Arguments paramvals {num} _.
Arguments paramrxns {num} _.
Arguments paramidxs {num} _.

(** The SBML document, as far as the annotator touches it: the
    annotation of each species and compartment, by identifier. *)
Record sbml_doc_t : Type := {
  doc_species : gmap string string;
  doc_compartments : gmap string string
}.



(** The tables the reaction loop reads. *)
Record reaction_tables : Type := {
  ratelaw_sheet : list (list string);
  stoic_columnnames : list string;
  stoic_rownames : list string;
  stoic_data : list (list string)
}.

(** The whole synthesis pass, up to closing [fileModel]: the sheets it
    loaded, the written text and parameter lists, and the frame
    exported to [ParamsAll.txt] (name, value, reaction, index). *)
Record synthesis (num : Type) : Type := {
  compartment_sheet : list (list string);
  species_sheet : list (list string);
  model : synth num;
  params_all : list (string * num * string * nat)
}.
Arguments compartment_sheet {num} _.
Arguments species_sheet {num} _.
Arguments model {num} _.
Arguments params_all {num} _.


(** ** A small interpretation of the numeric calls

    Integer-valued numbers with a NaN ([None]), enough to run the model
    on sample tables: decimal integers parse, ["nan"] is the NaN,
    anything else is a [ValueError]; [genfromtxt] skips empty fields
    and turns what does not parse into NaN (no field of the samples
    holds more than one value). *)

Module Sample.

Definition num : Type := option Z.

Fixpoint digits (s : string) (acc : Z) : option Z :=
  match s with
  | String c s' =>
      if Py.isdigit c
      then digits s' (10 * acc + Z.of_nat (nat_of_ascii c) - 48)%Z
      else None
  | EmptyString => Some acc
  end.

Definition py_int (s : string) : option Z :=
  match s with
  | EmptyString => None
  | String "-" EmptyString => None
  | String "-" s' => Z.opp <$> digits s' 0
  | _ => digits s 0
  end.

Definition py_float (s : string) : option num :=
  if String.eqb s "nan" then Some None else Some <$> py_int s.

Definition genfromtxt (fields : list string) : option (list num) :=
  Some (map py_int (filter (fun s => s <> EmptyString) fields)).

Definition isnan (x : num) : bool :=
  match x with Some _ => false | None => true end.

Definition float_str (x : num) : string :=
  match x with Some z => pretty z | None => "nan" end.

Definition fdiv (x y : num) : num :=
  match x, y with Some a, Some b => Some (a / b)%Z | _, _ => None end.

Definition fmul (x y : num) : num :=
  match x, y with Some a, Some b => Some (a * b)%Z | _, _ => None end.

Definition gt0 (x : num) : bool :=
  match x with Some z => (0 <? z)%Z | None => false end.

(** A line of a table file: the fields, tab-separated, and the
    terminator. *)
Definition line (fields : list string) : string :=
  Py.join (String tab EmptyString) fields +:+ nl.

(** A sample network: species [S1] (cytoplasm) and [S2] (nucleus);
    [R1: S1 => ] is mass action, [R2: 2 S1 => S2] has a two-parameter
    template, [R3] has an all-zero stoichiometry column and a
    one-parameter template. *)
Definition T : reaction_tables := {|
  ratelaw_sheet :=
    [["rxn"; "comp"; "law"; "p1"; "p2"];
     ["R1"; "Cytoplasm"; "2"];
     ["R2"; "Nucleus"; "k1_1*S1/(k1_2+S1)"; "3"; "4"];
     ["R3"; "Nucleus"; "k1*S1"; "5"]];
  stoic_columnnames := ["R1"; "R2"; "R3"];
  stoic_rownames := ["S1"; "S2"];
  stoic_data := [["-1"; "-2"; "0"]; ["0"; "1"; "0"]]
|}.

Definition ratelaw_data : list (list string) :=
  [["Cytoplasm"; "2"];
   ["Nucleus"; "k1_1*S1/(k1_2+S1)"; "3"; "4"];
   ["Nucleus"; "k1*S1"; "5"]].

Definition inp : inputs num := {|
  Compartments_txt :=
    Lines [line ["name"; "volume"; "annotation"];
          line ["Cytoplasm"; "5"; "GO:0005737"];
          line ["Nucleus"; "15"; "GO:0005634"]];
  Species_txt :=
    Some [line ["name"; "compartment"; "ic"; "extra"; "hgnc"; "uniprot"];
          line ["S1"; "Cytoplasm"; "100"; "x"; "HGNC:1"; "P1"];
          line ["S2"; "Nucleus"; "0"; "y"; "HGNC:2"; "nan"]];
  StoicMat_txt :=
    Lines [line [""; "R1"; "R2"; "R3"];
          line ["S1"; "-1"; "-2"; "0"];
          line ["S2"; "0"; "1"; "0"]];
  Ratelaws_txt :=
    Lines [line ["rxn"; "comp"; "law"; "p1"; "p2"];
          line ["R1"; "Cytoplasm"; "2"];
          line ["R2"; "Nucleus"; "k1_1*S1/(k1_2+S1)"; "3"; "4"];
          line ["R3"; "Nucleus"; "k1*S1"; "5"]];
  Observables_txt :=
    Ok {| ObsMat_index := ["S1"; "S2"];
          ObsMat_columns := [("total", [Some 1; Some 2]%Z);
                             ("none", [Some 0; Some 0]%Z)] |}
|}.

(** The sheets of the sample, as loaded. *)
Definition sheets : synthesis num := {|
  compartment_sheet :=
    [["name"; "volume"; "annotation"];
     ["Cytoplasm"; "5"; "GO:0005737"];
     ["Nucleus"; "15"; "GO:0005634"]];
  species_sheet :=
    [["name"; "compartment"; "ic"; "extra"; "hgnc"; "uniprot"];
     ["S1"; "Cytoplasm"; "100"; "x"; "HGNC:1"; "P1"];
     ["S2"; "Nucleus"; "0"; "y"; "HGNC:2"; "nan"]];
  model := {| fileModel := []; paramnames := []; paramvals := [];
              paramrxns := []; paramidxs := [] |};
  params_all := []
|}.

(** The document the converter produced for it, not yet annotated. *)
Definition doc : sbml_doc_t := {|
  doc_species := {[ "S1" := EmptyString; "S2" := EmptyString ]};
  doc_compartments := {[ "Cytoplasm" := EmptyString; "Nucleus" := EmptyString ]}
|}.

End Sample.

Section CreateModel.

(** The float64 values and the numeric library calls. *)
Variable num : Type.
(** [float(s)], [np.double(s)] and [int(s)]; [None] is a [ValueError]. *)
Variable py_float : string -> option num.
Variable np_double : string -> option num.
Variable py_int : string -> option Z.
(** [np.genfromtxt(fields, float)]: the values of the fields it keeps,
    in order; [None] is the [ValueError] it raises when the fields do
    not all hold the same number of values. *)
Variable genfromtxt : list string -> option (list num).
Variable isnan : num -> bool.
(** ["%.6e" % x] and [str(x)]. *)
Variable fmt_6e : num -> string.
Variable float_str : num -> string.
(** [x / y], [x * y] and [x > 0]. *)
Variable fdiv : num -> num -> num.
Variable fmul : num -> num -> num.
Variable gt0 : num -> bool.
(** Does [np.array] build an array of arrays from rows of different
    lengths (NumPy before 1.24), or raise (from 1.24 on)? *)
Variable numpy_ragged : bool.

Local Abbreviation synth := (synth num).
Local Abbreviation inputs := (inputs num).
Local Abbreviation synthesis := (synthesis num).

(** *** Table loader *)

Definition np_array {A : Type} (g : list (list A)) : result (list (list A)) :=
  if rectangular g || numpy_ragged then Ok g else Raise ValueError.

(** [for line in open(f)]: [open] raises on a file that cannot be
    opened, the iteration on bytes that do not decode. *)
Definition open_file (f : file) : result (list string) :=
  match f with
  | Missing => Raise OSError
  | Undecodable => Raise ValueError
  | Lines lines => Ok lines
  end.

(** A file read with [encoding='latin-1']. *)
Definition latin_1 (f : option (list string)) : file :=
  match f with
  | Some lines => Lines lines
  | None => Missing
  end.

(** [np.array([np.array(line.strip().split("\t")) for line in open(f)])] *)
Definition load_table (f : file) : result (list (list string)) :=
  lines ← open_file f;
  np_array (map (fun line => Py.split tab (Py.strip line)) lines).

(** *** Model-text synthesiser *)

Definition write (s : string) (st : synth) : synth :=
  {| fileModel := fileModel st ++ [s];
     paramnames := paramnames st; paramvals := paramvals st;
     paramrxns := paramrxns st; paramidxs := paramidxs st |}.

(** The four [append]s of one parameter. *)
Definition add_param (name : string) (v : num) (rxn : string) (idx : nat)
    (st : synth) : synth :=
  {| fileModel := fileModel st;
     paramnames := paramnames st ++ [name]; paramvals := paramvals st ++ [v];
     paramrxns := paramrxns st ++ [rxn]; paramidxs := paramidxs st ++ [idx] |}.

(** [paramnames[-1]] *)
Definition last_paramname (st : synth) : string :=
  default EmptyString (last (paramnames st)).

Definition start : synth :=
  {| fileModel := []; paramnames := []; paramvals := [];
     paramrxns := []; paramidxs := [] |}.


(** One pass of the inner loop over the species rows of a reaction's
    stoichiometry column. *)
Definition stoic_step (T : reaction_tables) (rowNum : nat)
    (acc : list string * list string * string) (x : nat * string)
  : result (list string * list string * string) :=
  let '(reactants, products, formula) := acc in
  let '(i, stoic_rowname) := x in
  line ← index (stoic_data T) i;
  cell ← index line rowNum;
  stoic_value ← or_raise ValueError (py_int cell);
  if (stoic_value <? 0)%Z then
    Ok (Nat.iter (Z.to_nat (stoic_value * -1))
          (fun '(r, p, f) => (r ++ [stoic_rowname], p, f +:+ stoic_rowname +:+ "*"))
          (reactants, products, formula))
  else if (stoic_value >? 0)%Z then
    Ok (Nat.iter (Z.to_nat stoic_value)
          (fun '(r, p, f) => (r, p ++ [stoic_rowname], f))
          (reactants, products, formula))
  else Ok acc.

Definition expand_stoic (T : reaction_tables) (rowNum : nat)
  : result (list string * list string * string) :=
  for_each (stoic_step T rowNum) (enumerate (stoic_rownames T))
    ([], [], "k" +:+ Py.str (rowNum + 1) +:+ "*").

(** [ratelaw_sheet[rowNum+1][0]] *)
Definition rxn_name (T : reaction_tables) (rowNum : nat) : result string :=
  line ← index (ratelaw_sheet T) (rowNum + 1); index line 0.

(** [for ematch in matches: formula = formula.replace(ematch.group(), name)] *)
Definition substitute (matches : list string) (name formula : string) : string :=
  fold_left (fun f m => Py.replace m name f) matches formula.

(** One pass of the loop over the parameters of a templated rate law;
    the state is the formula, the lists and the counter [j]. *)
Definition param_step (T : reaction_tables) (rowNum : nat) (ratelaw : list string)
    (acc : string * synth * nat) (x : nat * num) : result (string * synth * nat) :=
  let '(formula, st, j) := acc in
  let '(q, _) := x in
  cell ← index ratelaw (j + 1);
  v ← or_raise ValueError (py_float cell);
  rxn ← rxn_name T rowNum;
  let st := add_param ("k" +:+ Py.str (rowNum + 1) +:+ "_" +:+ Py.str j) v rxn q st in
  let matches1 := Re.finditer (Re.pattern1 j) formula in
  Ok (substitute matches1 (last_paramname st) formula, st, j + 1).

(** The rate-law branch of a reaction row: the formula and the
    parameters it allocates. *)
Definition rate_law (T : reaction_tables) (rowNum : nat) (ratelaw : list string)
    (formula : string) (st : synth) : result (string * synth) :=
  field ← index ratelaw 1;
  if negb (Py.contains "k" field) then
    let formula := Py.drop_last formula in
    v ← or_raise ValueError (np_double field);
    rxn ← rxn_name T rowNum;
    Ok (formula, add_param ("k" +:+ Py.str (rowNum + 1)) v rxn 0 st)
  else
    let formula := field in
    let j := 1 in
    params ← or_raise ValueError (genfromtxt (drop 2 ratelaw));
    let params := filter (fun p => negb (isnan p)) params in
    if (length params =? 1)%nat then
      cell ← index ratelaw (j + 1);
      v ← or_raise ValueError (py_float cell);
      rxn ← rxn_name T rowNum;
      let st := add_param ("k" +:+ Py.str (rowNum + 1) +:+ "_" +:+ Py.str j) v rxn 0 st in
      let matches := Re.finditer Re.pattern formula in
      Ok (substitute matches (last_paramname st) formula, st)
    else
      '(formula, st, _) ← for_each (param_step T rowNum ratelaw) (enumerate params)
                            (formula, st, j);
      Ok (formula, st).

(** ["  %s: %s => %s; (%s)*%s;\n"] *)
Definition reaction_line (name : string) (reactants products : list string)
    (formula comp : string) : string :=
  "  " +:+ name +:+ ": " +:+ Py.join " + " reactants +:+ " => "
  +:+ Py.join " + " products +:+ "; (" +:+ formula +:+ ")*" +:+ comp +:+ ";" +:+ nl.

Definition both_empty (reactants products : list string) : bool :=
  match products, reactants with
  | [], [] => true
  | _, _ => false
  end.

(** The body of the reaction loop. *)
Definition reaction_row (T : reaction_tables) (st : synth) (x : nat * list string)
  : result synth :=
  let '(rowNum, ratelaw) := x in
  '(reactants, products, formula) ← expand_stoic T rowNum;
  '(formula, st) ← rate_law T rowNum ratelaw formula st;
  if both_empty reactants products then Ok st
  else
    name ← index (stoic_columnnames T) rowNum;
    comp ← index ratelaw 0;
    Ok (write (reaction_line name reactants products formula comp) st).



Definition constantVars : list string :=
  ["Cytoplasm"; "Extracellular"; "Nucleus"; "Mitochondrion"].

(** [pd.DataFrame({'value': .., 'rxn': .., 'idx': ..}, index=paramnames)] *)
Definition DataFrame (st : synth) : list (string * num * string * nat) :=
  zip (zip (zip (paramnames st) (paramvals st)) (paramrxns st)) (paramidxs st).

(** ["  %s = %.6e;\n"] *)
Definition init_line (name : string) (v : num) : string :=
  "  " +:+ name +:+ " = " +:+ fmt_6e v +:+ ";" +:+ nl.

(** Header, compartment and species declarations (source lines 52-97). *)
Definition declarations (inp : inputs)
  : result (list (list string) * list (list string)
            * list string * list string * synth) :=
  let st := write ("# PanCancer Model by Birtwistle Lab " +:+ nl) start in
  let st := write ("model SPARCED()" +:+ nl) st in
  compartment_sheet ← load_table (Compartments_txt inp);
  '(compartments, volumes) ←
    for_each (fun '(cs, vs) row =>
                c ← index row 0; v ← index row 1; Ok (cs ++ [c], vs ++ [v]))
      (tail compartment_sheet) ([], []);
  let st := write (nl +:+ "  # Compartments and Species:" +:+ nl) st in
  let st := fold_left (fun st compName =>
                         write ("  Compartment " +:+ compName +:+ "; ") st)
              compartments st in
  let st := write nl st in
  species_sheet ← load_table (latin_1 (Species_txt inp));
  species_compartments ←
    for_each (fun cs row => c ← index row 1; Ok (cs ++ [c]))
      (tail species_sheet) [];
  let st := write nl st in
  st ← for_each (fun st '(idx, val) =>
                   let st := write "  Species " st in
                   name ← index val 0;
                   comp ← index species_compartments idx;
                   let st := write (name +:+ " in " +:+ comp) st in
                   Ok (write (";" +:+ nl) st))
          (enumerate (tail species_sheet)) st;
  Ok (compartment_sheet, species_sheet, compartments, volumes, st).

(** The stoichiometry and rate-law tables (source lines 103-112): the
    tables of the reaction loop and [ratelaw_data]. *)
Definition load_reactions (inp : inputs)
  : result (reaction_tables * list (list string)) :=
  stoic_sheet ← load_table (StoicMat_txt inp);
  ratelaw_sheet ← load_table (Ratelaws_txt inp);
  ratelaw_data ← np_array (map (drop 1) (tail ratelaw_sheet));
  stoic_columnnames ← index stoic_sheet 0;
  stoic_rownames ← for_each (fun ns line => n ← index line 0; Ok (ns ++ [n]))
                     (tail stoic_sheet) [];
  stoic_data ← np_array (map (drop 1) (tail stoic_sheet));
  Ok ({| ratelaw_sheet := ratelaw_sheet;
         stoic_columnnames := stoic_columnnames;
         stoic_rownames := stoic_rownames;
         stoic_data := stoic_data |}, ratelaw_data).

(** The reaction loop (source lines 115-175). *)
Definition reactions (T : reaction_tables) (ratelaw_data : list (list string))
    (st : synth) : result synth :=
  for_each (reaction_row T) (enumerate ratelaw_data) st.

(** Initial values of compartments, species and parameters (source
    lines 184-199). *)
Definition initializations (compartments volumes : list string)
    (species_sheet : list (list string)) (st : synth) : result synth :=
  let st := write (nl +:+ "  # Compartment initializations:" +:+ nl) st in
  st ← for_each (fun st '(c, v) =>
                   x ← or_raise ValueError (np_double v);
                   let st := write (init_line c x) st in
                   Ok (write ("  " +:+ c +:+ " has volume;" +:+ nl) st))
          (zip compartments volumes) st;
  let st := write (nl +:+ "  # Species initializations:" +:+ nl) st in
  st ← for_each (fun st val =>
                   name ← index val 0;
                   ic ← index val 2;
                   x ← or_raise ValueError (np_double ic);
                   Ok (write (init_line name x) st))
          (tail species_sheet) st;
  let st := write (nl +:+ "  # Parameter initializations:" +:+ nl) st in
  for_each (fun st '(count, param) =>
              v ← index (paramvals st) count;
              Ok (write (init_line param v) st))
    (enumerate (paramnames st)) st.

(** Constant compartments, unit definitions and the end of the model
    (source lines 202-220). *)
Definition closing (st : synth) : synth :=
  let st := write (nl +:+ "  # Other declarations:" +:+ nl) st in
  let st := write "  const" st in
  let st := fold_left (fun st constVar => write ("  " +:+ constVar +:+ ",") st)
              (removelast constantVars) st in
  let st := write ("  " +:+ List.last constantVars EmptyString +:+ ";" +:+ nl) st in
  let st := write (nl +:+ "  # Unit definitions:") st in
  let st := write (nl +:+ "  unit time_unit = second;") st in
  let st := write (nl +:+ "  unit volume = litre;") st in
  let st := write (nl +:+ "  unit substance = 1e-9 mole;") st in
  let st := write (nl +:+ "  unit nM = 1e-9 mole / litre;") st in
  let st := write nl st in
  write (nl +:+ "end") st.

Definition synthesize (inp : inputs) : result synthesis :=
  '(compartment_sheet, species_sheet, compartments, volumes, st) ← declarations inp;
  let st := write (nl +:+ nl +:+ "  # Reactions:" +:+ nl) st in
  '(T, ratelaw_data) ← load_reactions inp;
  st ← reactions T ratelaw_data st;
  let params_all := DataFrame st in
  st ← initializations compartments volumes species_sheet st;
  let st := closing st in
  Ok {| compartment_sheet := compartment_sheet; species_sheet := species_sheet;
        model := st; params_all := params_all |}.

(** *** Annotator *)

(** The loop over the columns [range(4, len(row))] of a species row;
    [cols] are the columns from the current one on. *)
Fixpoint annot_loop (cols : list string) (Annot : string) : string :=
  match cols with
  | [] => Annot
  | c :: cols' =>
      let aa := Py.strip c in
      if String.eqb aa "nan" || String.eqb aa EmptyString then Annot
      else annot_loop cols' (Annot +:+ " " +:+ c)
  end.

Definition species_annotation (row : list string) : string :=
  annot_loop (drop 4 row) EmptyString.

(** [sbml_model.getSpecies(row[0]).setAnnotation(Annot)]: a species
    that is not in the document is [None], which has no such method. *)
Definition annotate_species (doc : sbml_doc_t) (row : list string) : result sbml_doc_t :=
  let Annot := species_annotation row in
  id ← index row 0;
  _ ← or_raise AttributeError (doc_species doc !! id);
  Ok {| doc_species := <[id := Annot]> (doc_species doc);
        doc_compartments := doc_compartments doc |}.

(** [sbml_model.getCompartment(row[0]).setAnnotation(row[2])] *)
Definition annotate_compartment (doc : sbml_doc_t) (row : list string) : result sbml_doc_t :=
  id ← index row 0;
  _ ← or_raise AttributeError (doc_compartments doc !! id);
  a ← index row 2;
  Ok {| doc_species := doc_species doc;
        doc_compartments := <[id := a]> (doc_compartments doc) |}.

(** Both annotation loops; the result is what [writeSBML] writes back. *)
Definition annotate (syn : synthesis) (doc : sbml_doc_t) : result sbml_doc_t :=
  doc ← for_each annotate_species (tail (species_sheet syn)) doc;
  for_each annotate_compartment (tail (compartment_sheet syn)) doc.

(** *** Observable formula builder *)

(** [sheet[sheet[:,0]==name, 1]]: the second column of the rows whose
    first column is [name].  The slice needs a two-dimensional array. *)
Definition select_volume (sheet : list (list string)) (name : string)
  : result (list string) :=
  match sheet with
  | [] => Raise IndexError
  | r :: _ =>
      if negb (rectangular sheet) then Raise IndexError
      else if (length r <? 2)%nat then Raise IndexError
      else Ok (omap (fun row => row !! 1)
                 (filter (fun row => row !! 0 = Some name) sheet))
  end.

(** [float(a)] of an array: only an array of one element converts. *)
Definition float_of_array (a : list string) : result num :=
  match a with
  | [x] => or_raise ValueError (py_float x)
  | _ => Raise TypeError
  end.

(** [Vr*ObsMat.loc[:,obs].values], a series times an array: position
    by position when the lengths agree; an array of one element is
    broadcast over the series; any other difference in length is a
    [ValueError] (of NumPy, or of the series built on the index of
    [Vr]). *)
Definition series_times (Vr col : list num) : result (list num) :=
  if (length Vr =? length col)%nat then Ok (zip_with fmul Vr col)
  else
    match col with
    | [w] => Ok (map (fun v => fmul v w) Vr)
    | _ => Raise ValueError
    end.

(** The species contributing to one observable column: the row label
    and the entry of [Vf] at each position [np.nonzero(col > 0)].  A
    position is beyond [Vf] only when [Vf] has no entry at all (no
    species, and a column of one element broadcast over it); the index
    of that series is not one of strings, the lookup is by label and
    raises [KeyError]. *)
Fixpoint contributors (labels : list string) (Vf col : list num)
  : result (list (string * num)) :=
  match labels, col with
  | l :: labels', w :: col' =>
      if gt0 w then
        match Vf with
        | v :: _ => rest ← contributors labels' (tail Vf) col'; Ok ((l, v) :: rest)
        | [] => Raise KeyError
        end
      else contributors labels' (tail Vf) col'
  | _, _ => Ok []
  end.

(** [sp_obs[j]+'*'+str(Vf[sp_obs_id][j])] *)
Definition term (c : string * num) : string :=
  fst c +:+ "*" +:+ float_str (snd c).

(** The three branches that assign [formula_i]; with no contributor
    none of them runs and the variable keeps what it had. *)
Definition build_formula (sp : list (string * num)) (formula_i : option string)
  : option string :=
  match sp with
  | [] => formula_i
  | [a] => Some (term a)
  | [a; b] => Some (term a +:+ "+" +:+ term b)
  | _ =>
      let formula_i := EmptyString in
      let formula_i :=
        fold_left (fun f c => f +:+ term c +:+ "+") (removelast sp) formula_i in
      Some (formula_i +:+
            match last sp with Some c => term c | None => EmptyString end)
  end.

(** The body of the loop over the observable columns; the state is
    [formula_obs] and the variable [formula_i] ([None]: not yet bound).
    [Vf[sp_obs_id]] is evaluated in the three branches only. *)
Definition obs_step (labels : list string) (Vol_species : list num) (Vc : num)
    (acc : list string * option string) (obs : string * list num)
  : result (list string * option string) :=
  let '(formula_obs, formula_i) := acc in
  let col := snd obs in
  let Vr := map (fun v => fdiv v Vc) Vol_species in
  Vf ← series_times Vr col;
  sp ← contributors labels Vf col;
  let formula_i := build_formula sp formula_i in
  f ← or_raise NameError formula_i;
  Ok (formula_obs ++ [f], formula_i).

(** The observable stage: [Vc], [Vol_species], the formula loop and the
    dictionary handed to the compiler (a later column of the same name
    replaces an earlier one). *)
Definition build_observables (syn : synthesis) (ObsMat : ObsMat_t num)
  : result (list string * gmap string string) :=
  vc ← select_volume (compartment_sheet syn) "Cytoplasm";
  Vc ← float_of_array vc;
  species_names ← for_each (fun ns row => n ← index row 0; Ok (ns ++ [n]))
                    (tail (species_sheet syn)) [];
  Vol_names ← for_each (fun ns row => n ← index row 1; Ok (ns ++ [n]))
                (tail (species_sheet syn)) [];
  Vol_species ← for_each (fun vs name =>
                            a ← select_volume (compartment_sheet syn) name;
                            x ← index a 0;
                            v ← or_raise ValueError (py_float x);
                            Ok (vs ++ [v]))
                  Vol_names [];
  '(formula_obs, _) ← for_each (obs_step (ObsMat_index ObsMat) Vol_species Vc)
                        (ObsMat_columns ObsMat) ([], None);
  let obs_names := map fst (ObsMat_columns ObsMat) in
  Ok (formula_obs,
      fold_left (fun d '(n, f) => <[n := f]> d) (zip obs_names formula_obs) ∅).

(** *** The whole run *)




(** *** Statement-side definitions

    What the theorems below compare the loops with. *)

(** The parsed stoichiometry column of reaction [rowNum]: entry [i] is
    [int(stoic_data[i][rowNum])]. *)
Definition stoic_entry (T : reaction_tables) (rowNum i : nat) (v : Z) : Prop :=
  exists line cell,
    stoic_data T !! i = Some line /\ line !! rowNum = Some cell
    /\ py_int cell = Some v.

Definition is_column (T : reaction_tables) (rowNum : nat) (col : list Z) : Prop :=
  length col = length (stoic_rownames T)
  /\ forall i v, col !! i = Some v -> stoic_entry T rowNum i v.

(** One token per unit of negative (reactants) or positive (products)
    multiplicity, species by species. *)
Definition reactants_of (names : list string) (col : list Z) : list string :=
  concat (zip_with (fun name v => repeat name (Z.to_nat (- v))) names col).

Definition products_of (names : list string) (col : list Z) : list string :=
  concat (zip_with (fun name v => repeat name (Z.to_nat v)) names col).

(** Each token followed by ["*"]. *)
Fixpoint stars (tokens : list string) : string :=
  match tokens with
  | [] => EmptyString
  | t :: tokens' => t +:+ "*" +:+ stars tokens'
  end.


(** One row of the parameter frame: name, value, reaction, index. *)
Definition param : Type := string * num * string * nat.
Definition pname (p : param) : string := p.1.1.1.
Definition pval (p : param) : num := p.1.1.2.
Definition prxn (p : param) : string := p.1.2.
Definition pidx (p : param) : nat := p.2.

(** [st'] is [st] with the chunks [out] written and the parameters [ps]
    appended. *)
Definition grows (st st' : synth) (out : list string) (ps : list param) : Prop :=
  fileModel st' = fileModel st ++ out
  /\ paramnames st' = paramnames st ++ map pname ps
  /\ paramvals st' = paramvals st ++ map pval ps
  /\ paramrxns st' = paramrxns st ++ map prxn ps
  /\ paramidxs st' = paramidxs st ++ map pidx ps.

(** The parameters a reaction row allocates.  A mass-action row: one,
    [k<rowNum+1>], index 0, the value of the field.  A templated row
    with [n] values that [genfromtxt] keeps and that are not NaN: [n]
    parameters [k<rowNum+1>_<q+1>] with index [q], whose value is the
    float of the trailing column at position [q]. *)
Definition allocates (T : reaction_tables) (rowNum : nat) (ratelaw : list string)
    (ps : list param) : Prop :=
  exists field, ratelaw !! 1 = Some field /\
    if Py.contains "k" field then
      (exists kept,
         genfromtxt (drop 2 ratelaw) = Some kept
         /\ length ps = length (filter (fun p => negb (isnan p)) kept))
      /\ forall q p, ps !! q = Some p ->
           exists cell v rxn,
             ratelaw !! (q + 2) = Some cell /\ py_float cell = Some v
             /\ rxn_name T rowNum = Ok rxn
             /\ p = ("k" +:+ Py.str (rowNum + 1) +:+ "_" +:+ Py.str (q + 1), v, rxn, q)
    else
      exists v rxn,
        np_double field = Some v /\ rxn_name T rowNum = Ok rxn
        /\ ps = [("k" +:+ Py.str (rowNum + 1), v, rxn, 0)].

(** What processing one reaction row does: the chunks it writes and the
    parameters it allocates. *)
Definition row_effect (T : reaction_tables) (x : nat * list string)
    (eff : list string * list param) : Prop :=
  exists reactants products formula0,
    expand_stoic T x.1 = Ok (reactants, products, formula0)
    /\ allocates T x.1 x.2 eff.2
    /\ ((reactants = [] /\ products = [] /\ eff.1 = [])
        \/ (~ (reactants = [] /\ products = [])
            /\ exists name formula comp,
                 stoic_columnnames T !! x.1 = Some name
                 /\ x.2 !! 0 = Some comp
                 /\ eff.1 = [reaction_line name reactants products formula comp])).

(** The synthesis pass, cut at the reaction row [rowNum]: the loop
    reaches the row in the state [st] and leaves it in the state [st'],
    goes on to the state [st1], and the pass ends with [syn]. *)
Definition pass_at (inp : inputs) (T : reaction_tables)
    (ratelaw_data : list (list string)) (rowNum : nat) (ratelaw : list string)
    (st st' st1 : synth) (syn : synthesis) : Prop :=
  exists compartment_sheet species_sheet compartments volumes st0 st2,
    declarations inp
    = Ok (compartment_sheet, species_sheet, compartments, volumes, st0)
    /\ for_each (reaction_row T) (take rowNum (enumerate ratelaw_data))
         (write (nl +:+ nl +:+ "  # Reactions:" +:+ nl) st0) = Ok st
    /\ reaction_row T st (rowNum, ratelaw) = Ok st'
    /\ for_each (reaction_row T) (drop (S rowNum) (enumerate ratelaw_data)) st'
       = Ok st1
    /\ initializations compartments volumes species_sheet st1 = Ok st2
    /\ syn = {| compartment_sheet := compartment_sheet;
                species_sheet := species_sheet;
                model := closing st2; params_all := DataFrame st1 |}.

(** The names the row with index [i] can allocate. *)
Definition from_row (i : nat) (name : string) : Prop :=
  name = "k" +:+ Py.str i \/ exists j, name = "k" +:+ Py.str i +:+ "_" +:+ Py.str j.


(** [st'] is [st] with some more chunks written and the parameter lists
    untouched. *)
Definition writes_only (st st' : synth) : Prop := exists out, grows st st' out [].

(** The rows of an observable column with a strictly positive weight:
    label, volume of the species at that position, weight. *)
Definition positive_rows (labels : list string) (Vol_species col : list num)
  : list (string * num * num) :=
  filter (fun x => gt0 x.2) (zip (zip labels Vol_species) col).

(** The term of one contributing species: its label, ["*"], and the
    text of (volume / cytoplasm volume) * weight. *)
Definition per_species (Vc : num) (x : string * num * num) : string :=
  x.1.1 +:+ "*" +:+ float_str (fmul (fdiv x.1.2 Vc) x.2).

(** Following the specification's words (its sections 3, 4.5 and 8):
    the term of a contributing species is the species, times the ratio
    of "the species' compartment volume" to the cytoplasm volume, times
    the weight.  The species is the one the row label names: its row of
    the species table is looked up by name. *)
Definition spec_species_row (syn : synthesis) (label : string)
  : option (list string) :=
  List.find (fun row => bool_decide (row !! 0 = Some label))
    (tail (species_sheet syn)).

Definition spec_per_species (syn : synthesis) (Vc : num) (label : string)
    (w : num) : result string :=
  row ← or_raise KeyError (spec_species_row syn label);
  comp ← index row 1;
  a ← select_volume (compartment_sheet syn) comp;
  x ← index a 0;
  v ← or_raise ValueError (py_float x);
  Ok (label +:+ "*" +:+ float_str (fmul (fdiv v Vc) w)).

(** Following the specification's words (its section 4.1): the loader
    "strips line terminators, splits on the field delimiter, returns a
    rectangular grid of strings including the header row" and "fails if
    a referenced file is missing or a row has fewer fields than the
    header". *)
Definition is_terminator (c : ascii) : bool :=
  Ascii.eqb c newline || Ascii.eqb c (ascii_of_nat 13).

Fixpoint strip_terminators (s : string) : string :=
  match s with
  | String c s' =>
      match strip_terminators s' with
      | EmptyString => if is_terminator c then EmptyString else String c EmptyString
      | r => String c r
      end
  | EmptyString => EmptyString
  end.

Definition spec_load_table (f : file) : result (list (list string)) :=
  lines ← open_file f;
  let grid := map (fun line => Py.split tab (strip_terminators line)) lines in
  match grid with
  | [] => Ok grid
  | header :: rows =>
      if forallb (fun row => length header <=? length row)%nat rows
      then Ok grid else Raise ValueError
  end.

(** Following the specification's words (its sections 4.4 and 6): the
    species annotation is built from the columns after name,
    compartment and initial value. *)
Definition spec_species_annotation (row : list string) : string :=
  annot_loop (drop 3 row) EmptyString.

(** Is a text whitespace only; its first and its last character. *)
Fixpoint all_space (s : string) : bool :=
  match s with
  | String c s' => Py.isspace c && all_space s'
  | EmptyString => true
  end.

Definition head_char (s : string) : option ascii :=
  match s with
  | String c _ => Some c
  | EmptyString => None
  end.

Fixpoint last_char (s : string) : option ascii :=
  match s with
  | String c EmptyString => Some c
  | String _ s' => last_char s'
  | EmptyString => None
  end.

(** The columns of a species row that make up its annotation: from the
    fifth on, up to the first one that is empty or ["nan"] once
    stripped. *)
Fixpoint annotation_columns (cols : list string) : list string :=
  match cols with
  | [] => []
  | c :: cols' =>
      if String.eqb (Py.strip c) "nan" || String.eqb (Py.strip c) EmptyString
      then [] else c :: annotation_columns cols'
  end.


(** The volume the observable stage uses for the species of a row of
    the species table: the float of the second column of the first row
    of the compartment table whose first column is the row's
    compartment. *)
Definition species_volume (syn : synthesis) (row : list string) (v : num) : Prop :=
  exists comp cells x,
    row !! 1 = Some comp
    /\ select_volume (compartment_sheet syn) comp = Ok cells
    /\ cells !! 0 = Some x
    /\ py_float x = Some v.

(** Does a text neither begin nor end with whitespace? *)
Definition trimmed (s : string) : bool :=
  match head_char s, last_char s with
  | Some a, Some b => negb (Py.isspace a) && negb (Py.isspace b)
  | _, _ => true
  end.

(** The chunks the synthesis pass writes for one row of a table. *)
Definition compartment_decl (row : list string) (chunk : string) : Prop :=
  exists c, row !! 0 = Some c /\ chunk = "  Compartment " +:+ c +:+ "; ".

Definition species_decl (row chunks : list string) : Prop :=
  exists n c,
    row !! 0 = Some n /\ row !! 1 = Some c
    /\ chunks = ["  Species "; n +:+ " in " +:+ c; ";" +:+ nl].

Definition compartment_init (row chunks : list string) : Prop :=
  exists c v x,
    row !! 0 = Some c /\ row !! 1 = Some v /\ np_double v = Some x
    /\ chunks = [init_line c x; "  " +:+ c +:+ " has volume;" +:+ nl].

Definition species_init (row : list string) (chunk : string) : Prop :=
  exists n ic x,
    row !! 0 = Some n /\ row !! 2 = Some ic /\ np_double ic = Some x
    /\ chunk = init_line n x.

(** The fixed end of every model text. *)
Definition trailer : list string :=
  [nl +:+ "  # Other declarations:" +:+ nl;
   "  const"; "  Cytoplasm,"; "  Extracellular,"; "  Nucleus,";
   "  Mitochondrion;" +:+ nl;
   nl +:+ "  # Unit definitions:";
   nl +:+ "  unit time_unit = second;";
   nl +:+ "  unit volume = litre;";
   nl +:+ "  unit substance = 1e-9 mole;";
   nl +:+ "  unit nM = 1e-9 mole / litre;";
   nl;
   nl +:+ "end"].

(** The model text, section by section. *)
Definition model_layout (comp_decls : list string) (species_decls : list (list string))
    (rxn_lines : list string) (comp_inits : list (list string))
    (species_inits : list string) (ps : list param) : list string :=
  ["# PanCancer Model by Birtwistle Lab " +:+ nl;
   "model SPARCED()" +:+ nl;
   nl +:+ "  # Compartments and Species:" +:+ nl]
  ++ comp_decls ++ [nl; nl] ++ concat species_decls
  ++ [nl +:+ nl +:+ "  # Reactions:" +:+ nl] ++ rxn_lines
  ++ [nl +:+ "  # Compartment initializations:" +:+ nl] ++ concat comp_inits
  ++ [nl +:+ "  # Species initializations:" +:+ nl] ++ species_inits
  ++ [nl +:+ "  # Parameter initializations:" +:+ nl]
  ++ map (fun p => init_line (pname p) (pval p)) ps
  ++ trailer.

(** The exceptions of a cell that is missing or does not parse. *)
Definition cell_error (e : exn) : Prop := e = IndexError \/ e = ValueError.

(** Is a text made of decimal digits only? *)
Fixpoint all_digits (s : string) : bool :=
  match s with
  | String c s' => Py.isdigit c && all_digits s'
  | EmptyString => true
  end.
(** ** Properties *)

(** *** The error monad and the loops *)

Lemma bind_Ok {A B : Type} (r : result A) (k : A -> result B) (b : B) :
  r ≫= k = Ok b <-> exists a, r = Ok a /\ k a = Ok b.
Proof.
  destruct r as [a|e]; simpl; split.
  - intros H. exists a. auto.
  - intros (a' & Ha & Hk). injection Ha as ->. exact Hk.
  - discriminate.
  - intros (a' & Ha & _). discriminate.
Qed.

Lemma bind_ret {A B : Type} (a : A) (k : A -> result B) : Ok a ≫= k = k a.
Proof. reflexivity. Qed.

Lemma for_each_cons {A S : Type} (body : S -> A -> result S) (a : A) (l : list A)
    (s : S) :
  for_each body (a :: l) s = body s a ≫= for_each body l.
Proof. reflexivity. Qed.

Lemma index_Ok {A : Type} (l : list A) (i : nat) (a : A) :
  index l i = Ok a <-> l !! i = Some a.
Proof.
  unfold index, or_raise. destruct (l !! i); split; intros H; congruence.
Qed.

Lemma or_raise_Ok {A : Type} (e : exn) (o : option A) (a : A) :
  or_raise e o = Ok a <-> o = Some a.
Proof. unfold or_raise. destruct o; split; intros H; congruence. Qed.

Lemma for_each_app {A S : Type} (body : S -> A -> result S) (l1 l2 : list A) (s : S) :
  for_each body (l1 ++ l2) s = for_each body l1 s ≫= for_each body l2.
Proof.
  revert s. induction l1 as [|a l1 IH]; intros s; simpl; [reflexivity|].
  destruct (body s a) as [s'|e]; simpl; [apply IH | reflexivity].
Qed.

(** A relation that every pass of the body establishes between the
    states before and after holds across the whole loop. *)
Lemma for_each_rel {A S : Type} (R : S -> S -> Prop) (body : S -> A -> result S) :
  (forall s, R s s) ->
  (forall s1 s2 s3, R s1 s2 -> R s2 s3 -> R s1 s3) ->
  forall l : list A,
  (forall s a s', a ∈ l -> body s a = Ok s' -> R s s') ->
  forall s s', for_each body l s = Ok s' -> R s s'.
Proof.
  intros Hrefl Htrans l. induction l as [|a l IH]; intros Hbody s s' H; simpl in H.
  - injection H as <-. apply Hrefl.
  - apply bind_Ok in H as (s1 & H1 & H2).
    apply Htrans with s1.
    + apply (Hbody s a s1); [left | exact H1].
    + apply IH; [|exact H2]. intros s0 a0 s0' Hin. apply Hbody. now right.
Qed.

Lemma enumerate_from_app {A : Type} (i : nat) (l1 l2 : list A) :
  enumerate_from i (l1 ++ l2)
  = enumerate_from i l1 ++ enumerate_from (i + length l1) l2.
Proof.
  revert i. induction l1 as [|a l1 IH]; intros i; simpl.
  - now rewrite Nat.add_0_r.
  - rewrite IH. do 3 f_equal. lia.
Qed.

Lemma elem_of_enumerate_from {A : Type} (i : nat) (l : list A) (j : nat) (a : A) :
  (j, a) ∈ enumerate_from i l <-> i <= j /\ l !! (j - i) = Some a.
Proof.
  revert i. induction l as [|b l IH]; intros i; simpl.
  - rewrite elem_of_nil. split; [tauto | intros [_ H]; discriminate].
  - rewrite elem_of_cons, IH. split.
    + intros [H | [Hle H]].
      * injection H as -> ->. split; [lia|]. now rewrite Nat.sub_diag.
      * split; [lia|]. replace (j - i) with (S (j - S i)) by lia. exact H.
    + intros [Hle H]. destruct (decide (j = i)) as [->|Hne].
      * left. rewrite Nat.sub_diag in H. simpl in H. congruence.
      * right. split; [lia|]. replace (j - i) with (S (j - S i)) in H by lia.
        exact H.
Qed.

(** *** Strings *)

Lemma app_nil_l_s (a : string) : EmptyString +:+ a = a.
Proof. reflexivity. Qed.

Lemma app_cons_s (x : ascii) (a b : string) : String x a +:+ b = String x (a +:+ b).
Proof. reflexivity. Qed.

Lemma app_assoc_s (a b c : string) : (a +:+ b) +:+ c = a +:+ (b +:+ c).
Proof.
  induction a as [|x a IH]; [reflexivity|].
  change (String x ((a +:+ b) +:+ c) = String x (a +:+ (b +:+ c))).
  now f_equal.
Qed.

Lemma app_nil_r_s (a : string) : a +:+ EmptyString = a.
Proof.
  induction a as [|x a IH]; [reflexivity|].
  change (String x (a +:+ EmptyString) = String x a). now f_equal.
Qed.

Lemma drop_last_snoc (s : string) (c : ascii) :
  Py.drop_last (s +:+ String c EmptyString) = s.
Proof.
  induction s as [|x s IH]; simpl; [reflexivity|].
  rewrite IH. destruct s; reflexivity.
Qed.

Lemma stars_app (a b : list string) : stars (a ++ b) = stars a +:+ stars b.
Proof.
  induction a as [|t a IH]; simpl; [reflexivity|].
  now rewrite IH, !app_assoc_s.
Qed.

Lemma stars_snoc (a : list string) (t : string) :
  stars (a ++ [t]) = stars a +:+ t +:+ "*".
Proof. rewrite stars_app. reflexivity. Qed.

Lemma repeat_snoc {A : Type} (x : A) (n : nat) :
  repeat x (S n) = repeat x n ++ [x].
Proof. induction n as [|n IH]; simpl; [reflexivity | now f_equal]. Qed.

(** The mass-action formula before its last character is cut off: the
    tokens joined by ["*"], and one more ["*"]. *)
Lemma join_stars (k : string) (tokens : list string) :
  k +:+ "*" +:+ stars tokens = Py.join "*" (k :: tokens) +:+ "*".
Proof.
  revert k. induction tokens as [|t tokens IH]; intros k; simpl.
  - reflexivity.
  - simpl in IH. rewrite IH. now rewrite !app_assoc_s.
Qed.

(** *** Expansion of a stoichiometry column *)

Lemma iter_reactants (name : string) (n : nat) (r p : list string) (f : string) :
  Nat.iter n (fun '(r, p, f) => (r ++ [name], p, f +:+ name +:+ "*")) (r, p, f)
  = (r ++ repeat name n, p, f +:+ stars (repeat name n)).
Proof.
  induction n as [|n IH].
  - simpl. now rewrite app_nil_r, app_nil_r_s.
  - rewrite Nat.iter_succ, IH, repeat_snoc, stars_snoc.
    now rewrite app_assoc, !app_assoc_s.
Qed.

Lemma iter_products (name : string) (n : nat) (r p : list string) (f : string) :
  Nat.iter n (fun '(r, p, f) => (r, p ++ [name], f)) (r, p, f)
  = (r, p ++ repeat name n, f).
Proof.
  induction n as [|n IH].
  - simpl. now rewrite app_nil_r.
  - rewrite Nat.iter_succ, IH, repeat_snoc. now rewrite app_assoc.
Qed.

Lemma stoic_step_entry (T : reaction_tables) (rowNum i : nat) (name : string)
    (v : Z) (r p : list string) (f : string) :
  stoic_entry T rowNum i v ->
  stoic_step T rowNum (r, p, f) (i, name)
  = Ok (r ++ repeat name (Z.to_nat (- v)), p ++ repeat name (Z.to_nat v),
        f +:+ stars (repeat name (Z.to_nat (- v)))).
Proof.
  intros (line & cell & Hl & Hc & Hv). unfold stoic_step, index.
  rewrite Hl. simpl. rewrite Hc. simpl. rewrite Hv. simpl.
  destruct (Z.ltb_spec v 0) as [Hneg|Hge].
  - rewrite iter_reactants.
    replace (v * -1)%Z with (- v)%Z by lia.
    replace (Z.to_nat v) with 0 by lia. simpl. now rewrite app_nil_r.
  - destruct (Z.gtb_spec v 0) as [Hpos|Hz].
    + rewrite iter_products. replace (Z.to_nat (- v)) with 0 by lia.
      simpl. now rewrite app_nil_r, app_nil_r_s.
    + replace v with 0%Z by lia. simpl. now rewrite !app_nil_r, app_nil_r_s.
Qed.

Lemma expand_from (T : reaction_tables) (rowNum : nat) (names : list string) :
  forall (col : list Z) (i : nat) (r p : list string) (f : string),
  length col = length names ->
  (forall j v, col !! j = Some v -> stoic_entry T rowNum (i + j) v) ->
  for_each (stoic_step T rowNum) (enumerate_from i names) (r, p, f)
  = Ok (r ++ reactants_of names col, p ++ products_of names col,
        f +:+ stars (reactants_of names col)).
Proof.
  induction names as [|name names IH]; intros col i r p f Hlen Hcol.
  - destruct col; [|discriminate]. simpl.
    now rewrite !app_nil_r, app_nil_r_s.
  - destruct col as [|v col]; [discriminate|].
    cbn [enumerate_from]. rewrite for_each_cons.
    rewrite (stoic_step_entry T rowNum i name v).
    + rewrite bind_ret, (IH col (S i)).
      * unfold reactants_of, products_of. cbn [zip_with concat].
        now rewrite stars_app, !app_assoc, !app_assoc_s.
      * simpl in Hlen. lia.
      * intros j w Hj. replace (S i + j) with (i + S j) by lia.
        apply Hcol. exact Hj.
    + replace i with (i + 0) at 1 by lia. apply Hcol. reflexivity.
Qed.

(** The inner loop expands a parsed column into the reactant and
    product lists and extends the formula by one factor per reactant. *)
Lemma expand_stoic_column (T : reaction_tables) (rowNum : nat) (col : list Z) :
  is_column T rowNum col ->
  expand_stoic T rowNum
  = Ok (reactants_of (stoic_rownames T) col, products_of (stoic_rownames T) col,
        "k" +:+ Py.str (rowNum + 1) +:+ "*"
        +:+ stars (reactants_of (stoic_rownames T) col)).
Proof.
  intros [Hlen Hcol]. unfold expand_stoic, enumerate.
  rewrite (expand_from T rowNum (stoic_rownames T) col 0 [] []);
    [| exact Hlen | intros j v; apply Hcol].
  cbn [app]. now rewrite !app_assoc_s.
Qed.

(** *** Mass-action rows *)

Lemma rate_law_mass_action (T : reaction_tables) (st : synth) (rowNum : nat)
    (comp field : string) (rest : list string) (v : num) (rxn : string)
    (tokens : list string) :
  Py.contains "k" field = false ->
  np_double field = Some v ->
  rxn_name T rowNum = Ok rxn ->
  rate_law T rowNum (comp :: field :: rest)
    ("k" +:+ Py.str (rowNum + 1) +:+ "*" +:+ stars tokens) st
  = Ok (Py.join "*" (("k" +:+ Py.str (rowNum + 1)) :: tokens),
        add_param ("k" +:+ Py.str (rowNum + 1)) v rxn 0 st).
Proof.
  intros Hk Hv Hrxn. unfold rate_law.
  change (index (comp :: field :: rest) 1) with (Ok field).
  rewrite bind_ret, Hk. cbn [negb].
  rewrite Hv. cbn [or_raise]. rewrite bind_ret, Hrxn, bind_ret.
  do 2 f_equal.
  change ("k" +:+ Py.str (rowNum + 1) +:+ "*" +:+ stars tokens)
    with (("k" +:+ Py.str (rowNum + 1)) +:+ "*" +:+ stars tokens).
  rewrite join_stars. apply drop_last_snoc.
Qed.

(** C1.  A reaction row whose rate-law field contains no ["k"] is
    plain mass action.  When the field parses as the number [v] and the
    stoichiometry column parses as [col], the row is processed without
    an exception; it appends exactly one parameter, named
    [k<rowNum+1>], with value [v], the row's reaction name and index 0;
    and the formula of the reaction line it writes is that name and the
    expanded reactant tokens (one per unit of negative multiplicity)
    joined by ["*"]. *)
Theorem mass_action_row (T : reaction_tables) (st : synth) (rowNum : nat)
    (comp field : string) (rest : list string) (v : num) (rxn : string)
    (col : list Z) :
  Py.contains "k" field = false ->
  np_double field = Some v ->
  rxn_name T rowNum = Ok rxn ->
  is_column T rowNum col ->
  let reactants := reactants_of (stoic_rownames T) col in
  let products := products_of (stoic_rownames T) col in
  let k := "k" +:+ Py.str (rowNum + 1) in
  let formula := Py.join "*" (k :: reactants) in
  exists st1,
    paramnames st1 = paramnames st ++ [k]
    /\ paramvals st1 = paramvals st ++ [v]
    /\ paramrxns st1 = paramrxns st ++ [rxn]
    /\ paramidxs st1 = paramidxs st ++ [0]
    /\ fileModel st1 = fileModel st
    /\ reaction_row T st (rowNum, comp :: field :: rest)
       = if both_empty reactants products then Ok st1
         else name ← index (stoic_columnnames T) rowNum;
              Ok (write (reaction_line name reactants products formula comp) st1).
Proof.
  intros Hk Hv Hrxn Hcol reactants products k formula.
  exists (add_param k v rxn 0 st). repeat split.
  unfold reaction_row. rewrite (expand_stoic_column T rowNum col Hcol), bind_ret.
  cbv beta iota.
  rewrite (rate_law_mass_action T st rowNum comp field rest v rxn _ Hk Hv Hrxn).
  rewrite bind_ret. cbv beta iota. fold reactants products k formula.
  destruct (both_empty reactants products); reflexivity.
Qed.

(** *** What a reaction row does to the accumulated state *)

Lemma grows_refl (st : synth) : grows st st [] [].
Proof. unfold grows. simpl. now rewrite !app_nil_r. Qed.

Lemma grows_trans (st1 st2 st3 : synth) (o1 o2 : list string) (p1 p2 : list param) :
  grows st1 st2 o1 p1 -> grows st2 st3 o2 p2 -> grows st1 st3 (o1 ++ o2) (p1 ++ p2).
Proof.
  intros (a1 & b1 & c1 & d1 & e1) (a2 & b2 & c2 & d2 & e2). unfold grows.
  rewrite a2, b2, c2, d2, e2, a1, b1, c1, d1, e1, !map_app, !app_assoc.
  repeat split.
Qed.

Lemma grows_write (s : string) (st : synth) : grows st (write s st) [s] [].
Proof. unfold grows. simpl. now rewrite !app_nil_r. Qed.

Lemma grows_add_param (name : string) (v : num) (rxn : string) (idx : nat)
    (st : synth) :
  grows st (add_param name v rxn idx st) [] [(name, v, rxn, idx)].
Proof. unfold grows. simpl. now rewrite app_nil_r. Qed.

Lemma last_paramname_add (name : string) (v : num) (rxn : string) (idx : nat)
    (st : synth) :
  last_paramname (add_param name v rxn idx st) = name.
Proof. unfold last_paramname. simpl. now rewrite last_snoc. Qed.

(** The loop over the parameters of a templated rate law. *)
Lemma param_loop_effect (T : reaction_tables) (rowNum : nat) (ratelaw : list string)
    (params : list num) :
  forall (q j : nat) (f : string) (st : synth) (f' : string) (st' : synth) (j' : nat),
  for_each (param_step T rowNum ratelaw) (enumerate_from q params) (f, st, j)
  = Ok (f', st', j') ->
  exists ps,
    grows st st' [] ps /\ length ps = length params
    /\ forall m p, ps !! m = Some p ->
         exists cell v rxn,
           ratelaw !! (j + m + 1) = Some cell /\ py_float cell = Some v
           /\ rxn_name T rowNum = Ok rxn
           /\ p = ("k" +:+ Py.str (rowNum + 1) +:+ "_" +:+ Py.str (j + m), v, rxn,
                   q + m).
Proof.
  induction params as [|x params IH]; intros q j f st f' st' j' H.
  - injection H as <- <- <-. exists []. split; [apply grows_refl|].
    split; [reflexivity|]. intros m p Hm. discriminate.
  - cbn [enumerate_from] in H. rewrite for_each_cons in H.
    apply bind_Ok in H as ([[f1 st1] j1] & Hstep & Hrest).
    unfold param_step in Hstep.
    apply bind_Ok in Hstep as (cell & Hcell & Hstep). apply index_Ok in Hcell.
    apply bind_Ok in Hstep as (v & Hv & Hstep). apply or_raise_Ok in Hv.
    apply bind_Ok in Hstep as (rxn & Hrxn & Hstep).
    injection Hstep as <- <- <-.
    apply IH in Hrest as (ps & Hg & Hlen & Hps).
    exists (("k" +:+ Py.str (rowNum + 1) +:+ "_" +:+ Py.str j, v, rxn, q) :: ps).
    split; [|split].
    + apply (grows_trans _ _ _ [] [] [_] ps (grows_add_param _ v rxn q st) Hg).
    + simpl. now rewrite Hlen.
    + intros [|m] p Hm.
      * injection Hm as <-. exists cell, v, rxn.
        rewrite !Nat.add_0_r. auto.
      * apply Hps in Hm as (cell' & v' & rxn' & Hc & Hf & Hr & ->).
        exists cell', v', rxn'.
        replace (j + S m) with (j + 1 + m) by lia.
        replace (q + S m) with (S q + m) by lia. auto.
Qed.

(** The rate-law branch writes nothing and appends the parameters the
    row allocates. *)
Lemma rate_law_effect (T : reaction_tables) (rowNum : nat) (ratelaw : list string)
    (f : string) (st : synth) (f' : string) (st' : synth) :
  rate_law T rowNum ratelaw f st = Ok (f', st') ->
  exists ps, allocates T rowNum ratelaw ps /\ grows st st' [] ps.
Proof.
  unfold rate_law. intros H.
  apply bind_Ok in H as (field & Hfield & H). apply index_Ok in Hfield.
  destruct (Py.contains "k" field) eqn:Hk; cbn [negb] in H.
  - apply bind_Ok in H as (kept & Hkept & H). apply or_raise_Ok in Hkept.
    destruct (length (filter _ kept) =? 1)%nat eqn:Hone.
    + apply Nat.eqb_eq in Hone.
      apply bind_Ok in H as (cell & Hcell & H). apply index_Ok in Hcell.
      apply bind_Ok in H as (v & Hv & H). apply or_raise_Ok in Hv.
      apply bind_Ok in H as (rxn & Hrxn & H). injection H as <- <-.
      exists [("k" +:+ Py.str (rowNum + 1) +:+ "_" +:+ Py.str 1, v, rxn, 0)].
      split; [|apply grows_add_param].
      exists field. split; [exact Hfield|]. rewrite Hk. split.
      * exists kept. split; [exact Hkept | now rewrite Hone].
      * intros [|q] p Hq; [|discriminate]. injection Hq as <-.
        exists cell, v, rxn. auto.
    + apply bind_Ok in H as ([[f1 st1] j1] & Hloop & H). injection H as <- <-.
      apply param_loop_effect in Hloop as (ps & Hg & Hlen & Hps).
      exists ps. split; [|exact Hg].
      exists field. split; [exact Hfield|]. rewrite Hk.
      split; [exists kept; split; [exact Hkept | exact Hlen]|].
      intros q p Hq. apply Hps in Hq as (cell & v & rxn & Hc & Hv & Hr & ->).
      exists cell, v, rxn. simpl.
      replace (q + 2) with (1 + q + 1) by lia.
      replace (q + 1) with (1 + q) by lia. auto.
  - apply bind_Ok in H as (v & Hv & H). apply or_raise_Ok in Hv.
    apply bind_Ok in H as (rxn & Hrxn & H). injection H as <- <-.
    exists [("k" +:+ Py.str (rowNum + 1), v, rxn, 0)].
    split; [|apply grows_add_param].
    exists field. split; [exact Hfield|]. rewrite Hk. eauto.
Qed.

Lemma both_empty_true (reactants products : list string) :
  both_empty reactants products = true <-> reactants = [] /\ products = [].
Proof.
  destruct reactants, products; simpl; split; try tauto; try discriminate;
    intros [? ?]; discriminate.
Qed.

(** One pass of the reaction loop. *)
Lemma reaction_row_effect (T : reaction_tables) (st : synth) (x : nat * list string)
    (st' : synth) :
  reaction_row T st x = Ok st' ->
  exists eff, row_effect T x eff /\ grows st st' eff.1 eff.2.
Proof.
  destruct x as [rowNum ratelaw]. unfold reaction_row. intros H.
  apply bind_Ok in H as ([[reactants products] f0] & Hexp & H).
  apply bind_Ok in H as ([f st1] & Hrate & H).
  apply rate_law_effect in Hrate as (ps & Hall & Hg).
  destruct (both_empty reactants products) eqn:Hbe.
  - injection H as <-. apply both_empty_true in Hbe as [-> ->].
    exists ([], ps). split; [|exact Hg].
    exists [], [], f0. simpl. split; [exact Hexp|]. split; [exact Hall|].
    left. auto.
  - apply bind_Ok in H as (name & Hname & H). apply index_Ok in Hname.
    apply bind_Ok in H as (comp & Hcomp & H). apply index_Ok in Hcomp.
    injection H as <-.
    exists ([reaction_line name reactants products f comp], ps). split.
    + exists reactants, products, f0. simpl. split; [exact Hexp|].
      split; [exact Hall|]. right. split.
      * intros Hboth. apply both_empty_true in Hboth. congruence.
      * exists name, f, comp. auto.
    + simpl. rewrite <- (app_nil_r ps).
      apply (grows_trans _ _ _ [] [_] ps [] Hg (grows_write _ st1)).
Qed.

(** The whole reaction loop: row by row, the chunks written and the
    parameters appended. *)
Lemma reaction_loop_effect (T : reaction_tables) (rows : list (nat * list string)) :
  forall (st st' : synth),
  for_each (reaction_row T) rows st = Ok st' ->
  exists effs,
    Forall2 (row_effect T) rows effs
    /\ grows st st' (concat effs.*1) (concat effs.*2).
Proof.
  induction rows as [|x rows IH]; intros st st' H.
  - injection H as <-. exists []. split; [constructor | apply grows_refl].
  - rewrite for_each_cons in H. apply bind_Ok in H as (st1 & Hrow & Hrest).
    apply reaction_row_effect in Hrow as (eff & Heff & Hg).
    apply IH in Hrest as (effs & Heffs & Hgs).
    exists (eff :: effs). split; [now constructor|].
    simpl. eapply grows_trans; eassumption.
Qed.

(** *** Which rows reach the model text *)

Lemma enumerate_from_lookup {A : Type} (n : nat) (l : list A) (i : nat) :
  enumerate_from n l !! i = (fun a => (n + i, a)) <$> l !! i.
Proof.
  revert n i. induction l as [|a l IH]; intros n [|i]; simpl; try reflexivity.
  - now rewrite Nat.add_0_r.
  - rewrite IH. destruct (l !! i); simpl; [|reflexivity].
    do 2 f_equal. lia.
Qed.

Lemma enumerate_from_length {A : Type} (n : nat) (l : list A) :
  length (enumerate_from n l) = length l.
Proof. revert n. induction l as [|a l IH]; intros n; simpl; [|rewrite IH]; reflexivity. Qed.

(** C4.  When the reaction loop runs through, the text it adds to the
    model is, row by row in order, nothing for a row whose expanded
    reactant and product lists are both empty, and exactly one reaction
    line (carrying the row's column name and its two lists) for every
    other row: a line is written if and only if the lists are not both
    empty. *)
Theorem reaction_line_iff_nonempty (T : reaction_tables)
    (ratelaw_data : list (list string)) (st st' : synth) :
  reactions T ratelaw_data st = Ok st' ->
  exists outs : list (list string),
    fileModel st' = fileModel st ++ concat outs
    /\ length outs = length ratelaw_data
    /\ forall rowNum out, outs !! rowNum = Some out ->
         exists reactants products formula0,
           expand_stoic T rowNum = Ok (reactants, products, formula0)
           /\ (out = [] <-> reactants = [] /\ products = [])
           /\ (out <> [] ->
               exists name formula comp,
                 stoic_columnnames T !! rowNum = Some name
                 /\ out = [reaction_line name reactants products formula comp]).
Proof.
  unfold reactions, enumerate. intros H.
  apply reaction_loop_effect in H as (effs & Heffs & Hg).
  exists effs.*1. split; [apply Hg|]. split.
  - rewrite length_fmap, <- (Forall2_length _ _ _ Heffs).
    apply enumerate_from_length.
  - intros rowNum out Hout.
    rewrite list_lookup_fmap in Hout.
    destruct (effs !! rowNum) as [eff|] eqn:Heff; [|discriminate].
    injection Hout as <-.
    destruct (Forall2_lookup_r _ _ _ _ _ Heffs Heff) as (x & Hx & Hrow).
    rewrite enumerate_from_lookup in Hx.
    destruct (ratelaw_data !! rowNum) as [ratelaw|]; [|discriminate].
    injection Hx as <-.
    destruct Hrow as (re & pr & f0 & Hexp & _ & Hcase). simpl in Hexp, Hcase.
    exists re, pr, f0. split; [exact Hexp|].
    destruct Hcase as [(-> & -> & ->) | (Hne & name & f & comp & Hn & _ & ->)].
    + split; [tauto|]. intros Hc. now contradiction Hc.
    + split.
      * split; [discriminate | intros Hboth; now contradiction Hne].
      * intros _. exists name, f, comp. auto.
Qed.

(** *** Parameter names *)

Lemma contains_app (c : ascii) (a b : string) :
  Py.contains c (a +:+ b) = Py.contains c a || Py.contains c b.
Proof.
  induction a as [|x a IH]; [reflexivity|].
  change (Py.contains c (String x a +:+ b))
    with (Ascii.eqb x c || Py.contains c (a +:+ b)).
  rewrite IH. cbn [Py.contains]. now rewrite orb_assoc.
Qed.

Lemma pretty_N_char_digit (d : N) : Ascii.eqb (pretty_N_char d) "_" = false.
Proof. unfold pretty_N_char. repeat case_match; reflexivity. Qed.

Lemma pretty_N_go_no_underscore (x : N) :
  forall s, Py.contains "_" s = false -> Py.contains "_" (pretty_N_go x s) = false.
Proof.
  induction (N.lt_wf_0 x) as [x _ IH]. intros s Hs.
  destruct (decide (x = 0)%N) as [->|Hx].
  - now rewrite pretty_N_go_0.
  - rewrite pretty_N_go_step by lia. apply IH.
    + apply N.div_lt; lia.
    + cbn [Py.contains]. now rewrite pretty_N_char_digit, Hs.
Qed.

(** The decimal text of a number has no underscore. *)
Lemma str_no_underscore (n : nat) : Py.contains "_" (Py.str n) = false.
Proof.
  unfold Py.str, pretty, pretty_nat, pretty, pretty_N.
  case_decide; [reflexivity|]. now apply pretty_N_go_no_underscore.
Qed.

Lemma str_inj (n m : nat) : Py.str n = Py.str m -> n = m.
Proof. unfold Py.str. apply pretty_nat_inj. Qed.

(** Two texts cut at their first underscore. *)
Lemma underscore_split (a a' b b' : string) :
  Py.contains "_" a = false -> Py.contains "_" a' = false ->
  a +:+ "_" +:+ b = a' +:+ "_" +:+ b' -> a = a' /\ b = b'.
Proof.
  revert a'. induction a as [|x a IH]; intros [|x' a'] Ha Ha' H;
    rewrite ?app_cons_s, ?app_nil_l_s in H.
  - injection H as ->. auto.
  - injection H as <- _. cbn [Py.contains] in Ha'. discriminate.
  - injection H as -> _. cbn [Py.contains] in Ha. discriminate.
  - injection H as -> H. cbn [Py.contains] in Ha, Ha'.
    apply orb_false_elim in Ha as [_ Ha]. apply orb_false_elim in Ha' as [_ Ha'].
    destruct (IH a' Ha Ha' H) as [-> ->]. auto.
Qed.

Lemma k_plain_indexed (i i' j : nat) :
  "k" +:+ Py.str i <> "k" +:+ Py.str i' +:+ "_" +:+ Py.str j.
Proof.
  intros H. rewrite !app_cons_s, !app_nil_l_s in H. injection H as H.
  pose proof (str_no_underscore i) as Hi. rewrite H, contains_app in Hi.
  apply orb_false_elim in Hi as [_ Hi]. cbn [Py.contains] in Hi.
  discriminate.
Qed.

Lemma k_indexed_inj (i i' j j' : nat) :
  "k" +:+ Py.str i +:+ "_" +:+ Py.str j = "k" +:+ Py.str i' +:+ "_" +:+ Py.str j' ->
  i = i' /\ j = j'.
Proof.
  intros H. rewrite !(app_cons_s "k"), !app_nil_l_s in H. injection H as H.
  apply underscore_split in H as [Hi Hj]; try apply str_no_underscore.
  split; now apply str_inj.
Qed.

Lemma from_row_inj (i i' : nat) (name : string) :
  from_row i name -> from_row i' name -> i = i'.
Proof.
  intros [-> | [j ->]] [H | [j' H]].
  - rewrite !app_cons_s, !app_nil_l_s in H. injection H as H. now apply str_inj.
  - now apply k_plain_indexed in H.
  - symmetry in H. now apply k_plain_indexed in H.
  - now apply k_indexed_inj in H.
Qed.

(** The names one row allocates are its own and pairwise distinct. *)
Lemma allocates_names (T : reaction_tables) (rowNum : nat) (ratelaw : list string)
    (ps : list param) :
  allocates T rowNum ratelaw ps ->
  NoDup (map pname ps) /\ forall name, name ∈ map pname ps -> from_row (rowNum + 1) name.
Proof.
  intros (field & _ & H). destruct (Py.contains "k" field).
  - destruct H as [_ Hps]. split.
    + apply NoDup_alt. intros q q' name Hq Hq'.
      rewrite list_lookup_fmap in Hq, Hq'.
      destruct (ps !! q) as [p|] eqn:Hp; [|discriminate].
      destruct (ps !! q') as [p'|] eqn:Hp'; [|discriminate].
      apply Hps in Hp as (? & ? & ? & _ & _ & _ & ->).
      apply Hps in Hp' as (? & ? & ? & _ & _ & _ & ->).
      unfold pname in Hq, Hq'. cbn [fst] in Hq, Hq'.
      rewrite <- Hq' in Hq. apply (inj Some) in Hq.
      apply k_indexed_inj in Hq. lia.
    + intros name Hin. apply list_elem_of_fmap in Hin as (p & -> & Hin).
      apply list_elem_of_lookup in Hin as [q Hq].
      apply Hps in Hq as (? & ? & ? & _ & _ & _ & ->).
      right. eexists. reflexivity.
  - destruct H as (v & rxn & _ & _ & ->). split.
    + simpl. apply NoDup_singleton.
    + intros name Hin. apply list_elem_of_singleton in Hin as ->. now left.
Qed.

(** Across the rows of the loop no name is allocated twice. *)
Lemma loop_names (T : reaction_tables) (rows : list (list string)) :
  forall (n : nat) (effs : list (list string * list param)),
  Forall2 (row_effect T) (enumerate_from n rows) effs ->
  NoDup (map pname (concat effs.*2))
  /\ forall name, name ∈ map pname (concat effs.*2) ->
       exists i, n <= i /\ from_row (i + 1) name.
Proof.
  induction rows as [|row rows IH]; intros n effs H.
  - inversion H; subst. simpl. split; [constructor|].
    intros name Hin. now apply elem_of_nil in Hin.
  - cbn [enumerate_from] in H. inversion H as [|x eff xs effs' Hrow Hrest]; subst.
    destruct Hrow as (_ & _ & _ & _ & Hall & _). cbn [fst snd] in Hall.
    apply allocates_names in Hall as [Hnd Hfrom].
    apply IH in Hrest as [Hnd' Hfrom'].
    cbn [fmap list_fmap concat]. rewrite map_app. split.
    + apply NoDup_app. split; [exact Hnd|]. split; [|exact Hnd'].
      intros name Hin Hin'. apply Hfrom in Hin.
      apply Hfrom' in Hin' as (i & Hle & Hi).
      pose proof (from_row_inj _ _ _ Hin Hi). lia.
    + intros name Hin. apply elem_of_app in Hin as [Hin|Hin].
      * exists n. split; [lia|]. now apply Hfrom.
      * apply Hfrom' in Hin as (i & Hle & Hi). exists i. split; [lia | exact Hi].
Qed.

(** *** The stages around the reaction loop only write *)

Lemma writes_only_refl (st : synth) : writes_only st st.
Proof. exists []. apply grows_refl. Qed.

Lemma writes_only_trans (st1 st2 st3 : synth) :
  writes_only st1 st2 -> writes_only st2 st3 -> writes_only st1 st3.
Proof.
  intros [o1 H1] [o2 H2]. exists (o1 ++ o2).
  apply (grows_trans _ _ _ o1 o2 [] [] H1 H2).
Qed.

Lemma writes_only_write (s : string) (st : synth) : writes_only st (write s st).
Proof. exists [s]. apply grows_write. Qed.

Lemma writes_only_fold {A : Type} (g : A -> string) (l : list A) (st : synth) :
  writes_only st (fold_left (fun st x => write (g x) st) l st).
Proof.
  revert st. induction l as [|a l IH]; intros st; simpl.
  - apply writes_only_refl.
  - eapply writes_only_trans; [apply writes_only_write | apply IH].
Qed.

Lemma writes_only_params (st st' : synth) :
  writes_only st st' ->
  paramnames st' = paramnames st /\ paramvals st' = paramvals st
  /\ paramrxns st' = paramrxns st /\ paramidxs st' = paramidxs st.
Proof.
  intros (out & _ & Hn & Hv & Hr & Hi). simpl in *.
  rewrite app_nil_r in Hn, Hv, Hr, Hi. auto.
Qed.

Lemma writes_only_keeps (st st' : synth) (s : string) :
  writes_only st st' -> s ∈ fileModel st -> s ∈ fileModel st'.
Proof. intros (out & -> & _) Hin. apply elem_of_app. now left. Qed.

Ltac step H :=
  let x := fresh "x" in
  let Hx := fresh "Hx" in
  apply bind_Ok in H as (x & Hx & H).

Lemma declarations_writes (inp : inputs) cs ss comps vols (st : synth) :
  declarations inp = Ok (cs, ss, comps, vols, st) -> writes_only start st.
Proof.
  unfold declarations. intros H.
  step H. step H. destruct x0 as [compartments volumes]. step H. step H.
  step H. injection H as _ _ _ _ <-.
  apply for_each_rel with (R := writes_only) in Hx3;
    [| apply writes_only_refl | apply writes_only_trans |].
  - eapply writes_only_trans; [|exact Hx3].
    repeat (eapply writes_only_trans;
            [|first [apply writes_only_write | apply writes_only_fold]]).
    apply writes_only_refl.
  - intros s [idx val] s' _ Hb.
    step Hb. step Hb. injection Hb as <-.
    repeat (eapply writes_only_trans; [|apply writes_only_write]).
    apply writes_only_refl.
Qed.

Lemma closing_writes (st : synth) : writes_only st (closing st).
Proof.
  unfold closing.
  repeat (eapply writes_only_trans;
          [|first [apply writes_only_write
                  | apply (writes_only_fold (fun c => "  " +:+ c +:+ ","))]]).
  apply writes_only_refl.
Qed.

(** The loop over the parameter names writes one initialisation per
    parameter, with the value at the same position. *)
Lemma param_inits (names : list string) :
  forall (n : nat) (st st' : synth),
  for_each (fun st '(count, param) =>
              v ← index (paramvals st) count;
              Ok (write (init_line param v) st))
    (enumerate_from n names) st = Ok st' ->
  writes_only st st'
  /\ forall i name, names !! i = Some name ->
       exists v, paramvals st !! (n + i) = Some v
                 /\ init_line name v ∈ fileModel st'.
Proof.
  induction names as [|name names IH]; intros n st st' H.
  - injection H as <-. split; [apply writes_only_refl|].
    intros i name Hi. discriminate.
  - cbn [enumerate_from] in H. rewrite for_each_cons in H.
    apply bind_Ok in H as (st1 & Hb & H).
    apply bind_Ok in Hb as (v & Hv & Hb). apply index_Ok in Hv.
    injection Hb as <-.
    apply IH in H as [Hw Hrest]. split.
    + eapply writes_only_trans; [apply writes_only_write | exact Hw].
    + intros [|i] name' Hi.
      * injection Hi as <-. exists v. rewrite Nat.add_0_r. split; [exact Hv|].
        apply (writes_only_keeps _ _ _ Hw). simpl.
        apply elem_of_app. right. now left.
      * apply Hrest in Hi as (v' & Hv' & Hin). exists v'.
        replace (n + S i) with (S n + i) by lia. auto.
Qed.

Lemma initializations_effect (compartments volumes : list string)
    (species_sheet : list (list string)) (st st' : synth) :
  initializations compartments volumes species_sheet st = Ok st' ->
  writes_only st st'
  /\ forall i name, paramnames st !! i = Some name ->
       exists v, paramvals st !! i = Some v /\ init_line name v ∈ fileModel st'.
Proof.
  unfold initializations. intros H.
  step H. step H.
  assert (Hw1 : writes_only st x).
  { apply for_each_rel with (R := writes_only) in Hx;
      [| apply writes_only_refl | apply writes_only_trans |].
    - eapply writes_only_trans; [apply writes_only_write | exact Hx].
    - intros s [c v] s' _ Hb. step Hb. injection Hb as <-.
      eapply writes_only_trans; apply writes_only_write. }
  assert (Hw2 : writes_only x x0).
  { apply for_each_rel with (R := writes_only) in Hx0;
      [| apply writes_only_refl | apply writes_only_trans |].
    - eapply writes_only_trans; [apply writes_only_write | exact Hx0].
    - intros s val s' _ Hb. step Hb. step Hb. step Hb. injection Hb as <-.
      apply writes_only_write. }
  assert (Hw : writes_only st
                 (write (nl +:+ "  # Parameter initializations:" +:+ nl) x0)).
  { eapply writes_only_trans; [exact Hw1|].
    eapply writes_only_trans; [exact Hw2 | apply writes_only_write]. }
  apply param_inits in H as [Hw3 Hinit].
  destruct (writes_only_params _ _ Hw) as (Hn & Hv & _).
  split; [eapply writes_only_trans; eassumption|].
  intros i name Hi. rewrite Hn in Hinit. apply Hinit in Hi as (v & Hv' & Hin).
  exists v. simpl in Hv'. rewrite <- Hv. auto.
Qed.

(** *** The whole synthesis pass *)

Lemma zip_projections (ps : list param) :
  zip (zip (zip (map pname ps) (map pval ps)) (map prxn ps)) (map pidx ps) = ps.
Proof.
  induction ps as [|[[[n v] r] i] ps IH]; [reflexivity|].
  simpl. now rewrite IH.
Qed.

(** The shape of a successful pass: the reaction loop contributes, row
    by row, the chunks [effs.*1] to the text and the parameters
    [effs.*2] to the four lists, to the exported frame and to the
    parameter initialisations; nothing else touches the lists. *)
Lemma synthesize_structure (inp : inputs) (syn : synthesis) :
  synthesize inp = Ok syn ->
  exists T ratelaw_data effs pre post,
    load_reactions inp = Ok (T, ratelaw_data)
    /\ Forall2 (row_effect T) (enumerate ratelaw_data) effs
    /\ fileModel (model syn) = pre ++ concat effs.*1 ++ post
    /\ paramnames (model syn) = map pname (concat effs.*2)
    /\ paramvals (model syn) = map pval (concat effs.*2)
    /\ params_all syn = concat effs.*2
    /\ forall p, p ∈ concat effs.*2 ->
         init_line (pname p) (pval p) ∈ fileModel (model syn).
Proof.
  unfold synthesize. intros H.
  apply bind_Ok in H as ([[[[cs ss] comps] vols] st0] & Hdecl & H).
  apply bind_Ok in H as ([T data] & Hload & H).
  apply bind_Ok in H as (st1 & Hloop & H).
  apply bind_Ok in H as (st2 & Hinit & H). injection H as <-.
  apply declarations_writes in Hdecl.
  assert (Hw0 : writes_only start
                  (write (nl +:+ nl +:+ "  # Reactions:" +:+ nl) st0)).
  { eapply writes_only_trans; [exact Hdecl | apply writes_only_write]. }
  destruct (writes_only_params _ _ Hw0) as (Hn0 & Hv0 & Hr0 & Hi0).
  unfold reactions in Hloop.
  apply reaction_loop_effect in Hloop as (effs & Heffs & Hf & Hn & Hv & Hr & Hi).
  rewrite Hn0 in Hn. rewrite Hv0 in Hv. rewrite Hr0 in Hr. rewrite Hi0 in Hi.
  cbn [start paramnames paramvals paramrxns paramidxs app] in Hn, Hv, Hr, Hi.
  apply initializations_effect in Hinit as [Hw2 Hlines].
  pose proof (writes_only_trans _ _ _ Hw2 (closing_writes st2)) as Hw3.
  destruct (writes_only_params _ _ Hw3) as (Hn3 & Hv3 & _).
  destruct Hw3 as (post & Hpost & _).
  exists T, data, effs, (fileModel (write (nl +:+ nl +:+ "  # Reactions:" +:+ nl) st0)), post.
  cbn [model params_all].
  split; [exact Hload|]. split; [exact Heffs|]. split.
  { rewrite Hpost, Hf. now rewrite <- app_assoc. }
  split; [now rewrite Hn3|]. split; [now rewrite Hv3|]. split.
  { unfold DataFrame. rewrite Hn, Hv, Hr, Hi. apply zip_projections. }
  intros p Hp. apply list_elem_of_lookup in Hp as [i Hp].
  destruct (Hlines i (pname p)) as (v & Hv' & Hin).
  { rewrite Hn, list_lookup_fmap, Hp. reflexivity. }
  rewrite Hv, list_lookup_fmap, Hp in Hv'. injection Hv' as <-.
  apply (writes_only_keeps _ _ _ (closing_writes st2)). exact Hin.
Qed.

(** C5.  Whatever the input tables, when the synthesis pass runs
    through, the list [paramnames] it has accumulated (names
    [k<i>] and [k<i>_<j>]) contains no name twice. *)
Theorem paramnames_unique (inp : inputs) (syn : synthesis) :
  synthesize inp = Ok syn -> NoDup (paramnames (model syn)).
Proof.
  intros H.
  apply synthesize_structure in H
    as (T & data & effs & pre & post & _ & Heffs & _ & -> & _).
  now apply (loop_names T data 0 effs).
Qed.

(** C9.  A reaction row whose expanded reactant and product lists are
    both empty writes no reaction line: the pass of the loop over that
    row leaves the model text as it found it.  Yet the parameters the
    row allocates are appended to the four lists in that same pass and
    are recorded like all others: they are in the name and value lists
    of the finished model, in the frame exported to [ParamsAll.txt],
    and each has its initialisation line in the model text. *)
Theorem empty_row_params_recorded (inp : inputs) (syn : synthesis)
    (T : reaction_tables) (ratelaw_data : list (list string))
    (rowNum : nat) (ratelaw : list string) (formula0 : string) :
  synthesize inp = Ok syn ->
  load_reactions inp = Ok (T, ratelaw_data) ->
  ratelaw_data !! rowNum = Some ratelaw ->
  expand_stoic T rowNum = Ok ([], [], formula0) ->
  exists (st st' st1 : synth) (ps : list param),
    pass_at inp T ratelaw_data rowNum ratelaw st st' st1 syn
    /\ fileModel st' = fileModel st
    /\ paramnames st' = paramnames st ++ map pname ps
    /\ paramvals st' = paramvals st ++ map pval ps
    /\ paramrxns st' = paramrxns st ++ map prxn ps
    /\ paramidxs st' = paramidxs st ++ map pidx ps
    /\ allocates T rowNum ratelaw ps
    /\ forall p, p ∈ ps ->
         pname p ∈ paramnames (model syn)
         /\ pval p ∈ paramvals (model syn)
         /\ p ∈ params_all syn
         /\ init_line (pname p) (pval p) ∈ fileModel (model syn).
Proof.
  intros Hsyn Hload Hrow Hexp. unfold synthesize in Hsyn.
  apply bind_Ok in Hsyn as ([[[[cs ss] comps] vols] st0] & Hdecl & H).
  rewrite Hload, bind_ret in H.
  apply bind_Ok in H as (st1 & Hloop & H).
  apply bind_Ok in H as (st2 & Hinit & H). injection H as <-.
  assert (Hx : enumerate ratelaw_data !! rowNum = Some (rowNum, ratelaw)).
  { unfold enumerate. now rewrite enumerate_from_lookup, Hrow. }
  unfold reactions in Hloop.
  rewrite <- (take_drop_middle _ _ _ Hx), for_each_app in Hloop.
  apply bind_Ok in Hloop as (st & Hbefore & Hloop).
  rewrite for_each_cons in Hloop. apply bind_Ok in Hloop as (st' & Hpass & Hafter).
  (* the row *)
  destruct (reaction_row_effect _ _ _ _ Hpass) as ([out ps] & Hre & Hg).
  destruct Hre as (re & pr & f0 & Hexp' & Halloc & Hcase).
  cbn [fst snd] in Hexp', Halloc, Hcase, Hg. rewrite Hexp in Hexp'.
  injection Hexp' as <- <- <-.
  destruct Hcase as [(_ & _ & ->) | [Hne _]]; [|now contradiction Hne].
  (* the lists of the whole loop *)
  apply declarations_writes in Hdecl as Hw0.
  assert (HwH : writes_only start
                  (write (nl +:+ nl +:+ "  # Reactions:" +:+ nl) st0)).
  { eapply writes_only_trans; [exact Hw0 | apply writes_only_write]. }
  destruct HwH as (outH & HgH).
  apply reaction_loop_effect in Hbefore as Hb. destruct Hb as (effs_b & _ & Hgb).
  apply reaction_loop_effect in Hafter as Ha. destruct Ha as (effs_a & _ & Hga).
  pose proof (grows_trans _ _ _ _ _ _ _
                (grows_trans _ _ _ _ _ _ _
                   (grows_trans _ _ _ _ _ _ _ HgH Hgb) Hg) Hga) as Hall.
  cbn [app] in Hall.
  set (all := (concat effs_b.*2 ++ ps) ++ concat effs_a.*2) in Hall.
  destruct Hall as (_ & Hn & Hv & Hr & Hi).
  cbn [start paramnames paramvals paramrxns paramidxs app] in Hn, Hv, Hr, Hi.
  apply initializations_effect in Hinit as Hie. destruct Hie as [Hw2 Hlines].
  pose proof (writes_only_trans _ _ _ Hw2 (closing_writes st2)) as Hw3.
  destruct (writes_only_params _ _ Hw3) as (Hn3 & Hv3 & _).
  exists st, st', st1, ps.
  split.
  { exists cs, ss, comps, vols, st0, st2. repeat split; assumption. }
  destruct Hg as (Hgf & Hgn & Hgv & Hgr & Hgi).
  split; [now rewrite Hgf, app_nil_r|].
  split; [exact Hgn|]. split; [exact Hgv|]. split; [exact Hgr|].
  split; [exact Hgi|]. split; [exact Halloc|].
  intros p Hp. cbn [model params_all].
  assert (Hin : p ∈ all).
  { unfold all. apply elem_of_app. left. apply elem_of_app. now right. }
  split; [rewrite Hn3, Hn; now apply list_elem_of_fmap_2|].
  split; [rewrite Hv3, Hv; now apply list_elem_of_fmap_2|].
  split.
  { unfold DataFrame. rewrite Hn, Hv, Hr, Hi, zip_projections. exact Hin. }
  apply list_elem_of_lookup in Hin as [i Hin].
  destruct (Hlines i (pname p)) as (v & Hv' & Hline).
  { rewrite Hn, list_lookup_fmap, Hin. reflexivity. }
  rewrite Hv, list_lookup_fmap, Hin in Hv'. injection Hv' as <-.
  apply (writes_only_keeps _ _ _ (closing_writes st2)). exact Hline.
Qed.

(** *** Observable formulas *)

(** With equal lengths, or with a column of one element broadcast over
    the volumes, the contributors are the positive-weight rows. *)
Lemma contributors_positive (Vc : num) (labels : list string) :
  forall (Vol_species col Vf : list num) (sp : list (string * num)),
  series_times (map (fun v => fdiv v Vc) Vol_species) col = Ok Vf ->
  contributors labels Vf col = Ok sp ->
  sp = map (fun x => (x.1.1, fmul (fdiv x.1.2 Vc) x.2))
         (positive_rows labels Vol_species col).
Proof.
  unfold series_times, positive_rows. intros Vol_species col Vf sp.
  rewrite length_map.
  destruct (Nat.eqb_spec (length Vol_species) (length col)) as [Hlen|Hlen].
  - intros HVf. injection HVf as <-.
    revert Vol_species col sp Hlen.
    induction labels as [|l labels IH]; intros [|v Vol] [|w col] sp Hlen H;
      try discriminate; try (injection H as <-; reflexivity).
    cbn [map zip_with contributors zip tail] in *. rewrite filter_cons. cbn [snd].
    injection Hlen as Hlen. destruct (gt0 w).
    + apply bind_Ok in H as (rest & Hrest & H). injection H as <-.
      rewrite (IH Vol col rest Hlen Hrest). reflexivity.
    + rewrite (IH Vol col sp Hlen H). reflexivity.
  - destruct col as [|w [|w' col]]; try discriminate.
    intros HVf. injection HVf as <-.
    destruct labels as [|l labels]; [intros H; injection H as <-; reflexivity|].
    cbn [contributors zip]. destruct Vol_species as [|v Vol].
    + cbn [map zip zip_with filter]. destruct (gt0 w); [discriminate|].
      destruct labels; intros H; injection H as <-; reflexivity.
    + cbn [map tail zip zip_with]. rewrite filter_cons. cbn [snd].
      replace (zip_with pair (zip_with pair labels Vol) []) with
        ([] : list (string * num * num)) by now destruct (zip_with pair labels Vol).
      destruct (gt0 w).
      * destruct labels; intros H; injection H as <-; reflexivity.
      * destruct labels; intros H; injection H as <-; reflexivity.
Qed.

(** With equal lengths the contributors are found. *)
Lemma contributors_found (Vc : num) (labels : list string) :
  forall Vol_species col : list num,
  length Vol_species = length col ->
  contributors labels (zip_with fmul (map (fun v => fdiv v Vc) Vol_species) col) col
  = Ok (map (fun x => (x.1.1, fmul (fdiv x.1.2 Vc) x.2))
          (positive_rows labels Vol_species col)).
Proof.
  unfold positive_rows.
  induction labels as [|l labels IH]; intros [|v Vol] [|w col] Hlen;
    try discriminate; try reflexivity.
  cbn [map zip_with contributors zip tail]. rewrite filter_cons. cbn [snd].
  injection Hlen as Hlen. rewrite (IH Vol col Hlen).
  destruct (gt0 w); reflexivity.
Qed.

Lemma join_cons2 (sep a b : string) (l : list string) :
  Py.join sep (a :: b :: l) = a +:+ sep +:+ Py.join sep (b :: l).
Proof. reflexivity. Qed.

(** The loop of the general branch: the terms so far, each followed by
    ["+"], and then the last term. *)
Lemma fold_terms (l : list (string * num)) :
  forall (acc : string) (x : string * num),
  fold_left (fun f c => f +:+ term c +:+ "+") l acc +:+ term x
  = acc +:+ Py.join "+" (map term (l ++ [x])).
Proof.
  induction l as [|c l IH]; intros acc x.
  - reflexivity.
  - cbn [fold_left]. rewrite IH.
    destruct l as [|c' l]; cbn [app map]; rewrite join_cons2;
      now rewrite !app_assoc_s.
Qed.

(** Whichever of the three branches runs, the formula is the terms of
    the contributors joined by ["+"]. *)
Lemma build_formula_join (sp : list (string * num)) (formula_i : option string) :
  sp <> [] -> build_formula sp formula_i = Some (Py.join "+" (map term sp)).
Proof.
  intros Hne. destruct sp as [|a [|b [|c sp]]]; [congruence | reflexivity..|].
  destruct (exists_last (l := b :: c :: sp)) as (l & x & Hl); [discriminate|].
  unfold build_formula.
  change (removelast (a :: b :: c :: sp)) with (a :: removelast (b :: c :: sp)).
  change (last (a :: b :: c :: sp)) with (last (b :: c :: sp)).
  rewrite Hl, removelast_last, last_snoc.
  rewrite (fold_terms (a :: l) EmptyString x). reflexivity.
Qed.

Lemma obs_step_formula (labels : list string) (Vol_species col : list num)
    (Vc : num) (formula_obs : list string) (formula_i : option string)
    (name : string) :
  length Vol_species = length col ->
  obs_step labels Vol_species Vc (formula_obs, formula_i) (name, col)
  = f ← or_raise NameError
          (build_formula
             (map (fun x => (x.1.1, fmul (fdiv x.1.2 Vc) x.2))
                (positive_rows labels Vol_species col)) formula_i);
    Ok (formula_obs ++ [f],
        build_formula
          (map (fun x => (x.1.1, fmul (fdiv x.1.2 Vc) x.2))
             (positive_rows labels Vol_species col)) formula_i).
Proof.
  intros Hlen. unfold obs_step, series_times. cbn [snd].
  rewrite length_map, Hlen, Nat.eqb_refl, bind_ret.
  now rewrite contributors_found, bind_ret.
Qed.

(** A step that goes through has built its formula from the
    positive-weight rows, also when the column was broadcast. *)
Lemma obs_step_Ok (labels : list string) (Vol_species col : list num)
    (Vc : num) (formula_obs : list string) (formula_i : option string)
    (name : string) (formula_obs' : list string) (formula_i' : option string) :
  obs_step labels Vol_species Vc (formula_obs, formula_i) (name, col)
  = Ok (formula_obs', formula_i') ->
  formula_i'
  = build_formula
      (map (fun x => (x.1.1, fmul (fdiv x.1.2 Vc) x.2))
         (positive_rows labels Vol_species col)) formula_i
  /\ exists f, formula_i' = Some f /\ formula_obs' = formula_obs ++ [f].
Proof.
  unfold obs_step. cbn [snd]. intros H.
  apply bind_Ok in H as (Vf & HVf & H). apply bind_Ok in H as (sp & Hsp & H).
  apply bind_Ok in H as (f & Hf & H). apply or_raise_Ok in Hf.
  injection H as <- <-.
  rewrite (contributors_positive Vc labels Vol_species col Vf sp HVf Hsp) in *.
  split; [reflexivity | eauto].
Qed.

(** A column with a positive weight: the step appends the terms of the
    positive-weight rows joined by ["+"]. *)
Lemma obs_step_positive (labels : list string) (Vol_species col : list num)
    (Vc : num) (formula_obs : list string) (formula_i : option string)
    (name : string) :
  length Vol_species = length col ->
  positive_rows labels Vol_species col <> [] ->
  let formula :=
    Py.join "+" (map (per_species Vc) (positive_rows labels Vol_species col)) in
  obs_step labels Vol_species Vc (formula_obs, formula_i) (name, col)
  = Ok (formula_obs ++ [formula], Some formula)
  /\ (forall x, positive_rows labels Vol_species col = [x] ->
        formula = per_species Vc x).
Proof.
  intros Hlen Hne formula. split.
  - rewrite obs_step_formula by exact Hlen.
    rewrite build_formula_join.
    + rewrite map_map. reflexivity.
    + intros Hnil. apply map_eq_nil in Hnil. contradiction.
  - intros x Hx. unfold formula. rewrite Hx. reflexivity.
Qed.

Lemma obs_step_last (labels : list string) (Vol_species : list num) (Vc : num)
    (formula_obs : list string) (formula_i : option string)
    (obs : string * list num) (formula_obs' : list string)
    (formula_i' : option string) :
  obs_step labels Vol_species Vc (formula_obs, formula_i) obs
  = Ok (formula_obs', formula_i') ->
  exists f, formula_obs' = formula_obs ++ [f] /\ formula_i' = Some f.
Proof.
  destruct obs as [name col]. intros H.
  apply obs_step_Ok in H as (_ & f & -> & ->). eauto.
Qed.

(** After a loop over at least one column, [formula_i] holds the
    formula appended last. *)
Lemma obs_loop_last (labels : list string) (Vol_species : list num) (Vc : num)
    (cols : list (string * list num)) :
  forall (acc : list string * option string) (formula_obs : list string)
         (formula_i : option string),
  cols <> [] ->
  for_each (obs_step labels Vol_species Vc) cols acc = Ok (formula_obs, formula_i) ->
  exists f, last formula_obs = Some f /\ formula_i = Some f.
Proof.
  induction cols as [|obs cols IH]; intros [fo fi] formula_obs formula_i Hne H;
    [congruence|].
  rewrite for_each_cons in H. apply bind_Ok in H as ([fo1 fi1] & Hstep & H).
  destruct cols as [|obs' cols].
  - injection H as <- <-.
    apply obs_step_last in Hstep as (f & -> & ->). exists f.
    now rewrite last_snoc.
  - apply (IH (fo1, fi1)); [discriminate | exact H].
Qed.

(** C10.  For an observable column without any species of strictly
    positive weight no branch assigns [formula_i].  If it is the first
    column processed, the loop stops with a [NameError]; after any
    earlier columns, the formula appended for the preceding column is
    appended once more. *)
Theorem empty_observable_column (labels : list string) (Vol_species col : list num)
    (Vc : num) (name : string) :
  length Vol_species = length col ->
  positive_rows labels Vol_species col = [] ->
  (forall rest,
     for_each (obs_step labels Vol_species Vc) ((name, col) :: rest) ([], None)
     = Raise NameError)
  /\ (forall before formula_obs formula_i,
        before <> [] ->
        for_each (obs_step labels Vol_species Vc) before ([], None)
        = Ok (formula_obs, formula_i) ->
        exists f,
          last formula_obs = Some f
          /\ for_each (obs_step labels Vol_species Vc) (before ++ [(name, col)])
               ([], None)
             = Ok (formula_obs ++ [f], Some f)).
Proof.
  intros Hlen Hnil. split.
  - intros rest. rewrite for_each_cons, obs_step_formula by exact Hlen.
    rewrite Hnil. reflexivity.
  - intros before formula_obs formula_i Hne H.
    destruct (obs_loop_last _ _ _ _ _ _ _ Hne H) as (f & Hlast & ->).
    exists f. split; [exact Hlast|].
    rewrite for_each_app, H, bind_ret.
    cbn [for_each]. rewrite obs_step_formula by exact Hlen.
    rewrite Hnil. reflexivity.
Qed.

(** A loop that appends one computed element per pass. *)
Lemma for_each_collect {A B : Type} (g : A -> result B)
    (body : list B -> A -> result (list B)) :
  (forall acc a, body acc a = g a ≫= fun b => Ok (acc ++ [b])) ->
  forall (l : list A) (acc out : list B),
  for_each body l acc = Ok out ->
  exists bs, out = acc ++ bs /\ Forall2 (fun a b => g a = Ok b) l bs.
Proof.
  intros Hbody l. induction l as [|a l IH]; intros acc out H.
  - injection H as <-. exists []. split; [now rewrite app_nil_r | constructor].
  - rewrite for_each_cons, Hbody in H.
    apply bind_Ok in H as (acc1 & Hb & H). apply bind_Ok in Hb as (b & Hg & Hb).
    injection Hb as <-. apply IH in H as (bs & -> & Hbs).
    exists (b :: bs). split; [now rewrite <- app_assoc | now constructor].
Qed.

Lemma Forall2_compose {A B C : Type} (P : A -> B -> Prop) (Q : B -> C -> Prop)
    (R : A -> C -> Prop) (l : list A) :
  (forall a b c, P a b -> Q b c -> R a c) ->
  forall (k : list B) (m : list C), Forall2 P l k -> Forall2 Q k m -> Forall2 R l m.
Proof.
  intros HR. induction l as [|a l IH]; intros k m HP HQ.
  - inversion HP; subst. inversion HQ; subst. constructor.
  - inversion HP as [|? b ? k' Hab Hrest]; subst.
    inversion HQ as [|? c ? m' Hbc Hrest']; subst.
    constructor; [eapply HR; eassumption | eapply IH; eassumption].
Qed.

(** The loop over the observable columns appends one formula per
    column; for a column with a positive weight it is the joined terms. *)
Lemma obs_loop_formulas (labels : list string) (Vol_species : list num) (Vc : num)
    (cols : list (string * list num)) :
  forall (fo : list string) (fi : option string) (fo' : list string)
         (fi' : option string),
  for_each (obs_step labels Vol_species Vc) cols (fo, fi) = Ok (fo', fi') ->
  exists fs,
    fo' = fo ++ fs /\ length fs = length cols
    /\ forall j name col,
         cols !! j = Some (name, col) ->
         positive_rows labels Vol_species col <> [] ->
         fs !! j
         = Some (Py.join "+"
                   (map (per_species Vc) (positive_rows labels Vol_species col))).
Proof.
  induction cols as [|[name0 col0] cols IH]; intros fo fi fo' fi' H.
  - injection H as <- <-. exists []. split; [now rewrite app_nil_r|].
    split; [reflexivity|]. intros j name col Hj. discriminate.
  - rewrite for_each_cons in H. apply bind_Ok in H as ([fo1 fi1] & Hstep & H).
    destruct (obs_step_Ok _ _ _ _ _ _ _ _ _ Hstep) as (Hfi & f & -> & ->).
    apply IH in H as (fs & -> & Hfs & Hcols).
    exists (f :: fs). split; [now rewrite <- app_assoc|].
    split; [simpl; now rewrite Hfs|].
    intros [|j] name col Hj Hpos.
    + injection Hj as <- <-.
      rewrite build_formula_join, map_map in Hfi.
      * injection Hfi as ->. reflexivity.
      * intros Hnil. apply map_eq_nil in Hnil. contradiction.
    + now apply (Hcols j name col).
Qed.

Lemma positive_rows_lookup (labels : list string) (Vol_species col : list num)
    (label : string) (v w : num) :
  (label, v, w) ∈ positive_rows labels Vol_species col ->
  gt0 w = true
  /\ exists i, labels !! i = Some label /\ Vol_species !! i = Some v
               /\ col !! i = Some w.
Proof.
  unfold positive_rows. intros H.
  apply list_elem_of_filter in H as [Hw H]. cbn [snd] in Hw.
  split; [now apply Is_true_true|].
  apply list_elem_of_lookup in H as [i H].
  apply lookup_zip_with_Some in H as ([l v'] & w' & Heq & Hlv & Hw').
  injection Heq as <- <- <-.
  apply lookup_zip_with_Some in Hlv as (l' & v'' & Heq & Hl & Hv).
  injection Heq as <- <-. eauto.
Qed.

(** C3, as the code has it.  When the observable stage runs through,
    the formula of every observable column that has a row of strictly
    positive weight is the per-row terms
    [label*str((volume/cytoplasmVolume)*weight)] of the positive-weight
    rows joined by ["+"], whichever of the three branches (one, two,
    more contributors) built it: a single such row gives that one term,
    several give the sum of the same terms.  The label is the row label
    of the observable matrix; the volume is that of the compartment of
    the species in the same position of the species table, whatever
    its name; the cytoplasm volume is that of the one row named
    [Cytoplasm]. *)
Theorem observable_formula (syn : synthesis) (ObsMat : ObsMat_t num)
    (formula_obs : list string) (observables : gmap string string) :
  build_observables syn ObsMat = Ok (formula_obs, observables) ->
  exists x Vc Vol_species,
    select_volume (compartment_sheet syn) "Cytoplasm" = Ok [x]
    /\ py_float x = Some Vc
    /\ Forall2 (species_volume syn) (tail (species_sheet syn)) Vol_species
    /\ length formula_obs = length (ObsMat_columns ObsMat)
    /\ forall j name col,
         ObsMat_columns ObsMat !! j = Some (name, col) ->
         let rows := positive_rows (ObsMat_index ObsMat) Vol_species col in
         rows <> [] ->
         formula_obs !! j = Some (Py.join "+" (map (per_species Vc) rows))
         /\ (forall r, rows = [r] -> formula_obs !! j = Some (per_species Vc r))
         /\ (forall label v w, (label, v, w) ∈ rows ->
               gt0 w = true
               /\ exists i row,
                    ObsMat_index ObsMat !! i = Some label /\ col !! i = Some w
                    /\ tail (species_sheet syn) !! i = Some row
                    /\ species_volume syn row v).
Proof.
  unfold build_observables. intros H.
  apply bind_Ok in H as (vc & Hvc & H). apply bind_Ok in H as (Vc & HVc & H).
  apply bind_Ok in H as (species_names & _ & H).
  apply bind_Ok in H as (Vol_names & Hnames & H).
  apply bind_Ok in H as (Vol_species & Hvols & H).
  apply bind_Ok in H as ([fo fi] & Hloop & H). injection H as <- _.
  destruct vc as [|x [|? ?]]; try discriminate.
  cbn [float_of_array] in HVc. apply or_raise_Ok in HVc.
  apply (for_each_collect (fun row => index row 1)) in Hnames
    as (names & -> & Hnames); [|reflexivity].
  apply (for_each_collect
           (fun name => a ← select_volume (compartment_sheet syn) name;
                        x ← index a 0; or_raise ValueError (py_float x)))
    in Hvols as (vols & -> & Hvols).
  2:{ intros acc a. destruct (select_volume (compartment_sheet syn) a) as [c|];
        [|reflexivity].
      cbn. destruct (index c 0) as [y|]; [|reflexivity].
      cbn. destruct (py_float y); reflexivity. }
  cbn [app] in *.
  apply obs_loop_formulas in Hloop as (fs & -> & Hlen & Hcols). cbn [app].
  assert (HF : Forall2 (species_volume syn) (tail (species_sheet syn)) vols).
  { eapply Forall2_compose; [|exact Hnames|exact Hvols].
    intros row name v Hrow Hv. cbv beta in Hrow, Hv.
    apply index_Ok in Hrow.
    apply bind_Ok in Hv as (cells & Hcells & Hv).
    apply bind_Ok in Hv as (y & Hy & Hv). apply index_Ok in Hy.
    apply or_raise_Ok in Hv. exists name, cells, y. auto. }
  exists x, Vc, vols. split; [exact Hvc|]. split; [exact HVc|].
  split; [exact HF|]. split; [exact Hlen|].
  cbv zeta. intros j name col Hj Hpos. split; [now apply (Hcols j name col)|].
  split.
  - intros r Hr. rewrite (Hcols j name col Hj Hpos), Hr. reflexivity.
  - intros label v w Hin.
    apply positive_rows_lookup in Hin as (Hw & i & Hl & Hv & Hc).
    split; [exact Hw|].
    destruct (Forall2_lookup_r _ _ _ _ _ HF Hv) as (row & Hrow & Hsv).
    exists i, row. auto.
Qed.

(** *** The table loader *)

Lemma lstrip_spec (s : string) :
  exists pre, s = pre +:+ Py.lstrip s /\ all_space pre = true
              /\ forall c, head_char (Py.lstrip s) = Some c -> Py.isspace c = false.
Proof.
  induction s as [|x s (pre & Hs & Hpre & Hhead)].
  - exists EmptyString. repeat split. discriminate.
  - cbn [Py.lstrip]. destruct (Py.isspace x) eqn:Hx.
    + exists (String x pre). rewrite app_cons_s, <- Hs. repeat split.
      * cbn [all_space]. now rewrite Hx, Hpre.
      * exact Hhead.
    + exists EmptyString. repeat split. intros c Hc. injection Hc as <-. exact Hx.
Qed.

Lemma rstrip_spec (s : string) :
  exists post, s = Py.rstrip s +:+ post /\ all_space post = true
               /\ forall c, last_char (Py.rstrip s) = Some c -> Py.isspace c = false.
Proof.
  induction s as [|x s (post & Hs & Hpost & Hlast)].
  - exists EmptyString. repeat split. discriminate.
  - cbn [Py.rstrip]. destruct (Py.rstrip s) as [|y r] eqn:Hr.
    + rewrite app_nil_l_s in Hs. subst post.
      destruct (Py.isspace x) eqn:Hx.
      * exists (String x s). repeat split; [|discriminate].
        cbn [all_space]. now rewrite Hx, Hpost.
      * exists s. repeat split; [exact Hpost|].
        intros c Hc. injection Hc as <-. exact Hx.
    + exists post. rewrite app_cons_s, <- Hs. repeat split; [exact Hpost|].
      intros c Hc. apply Hlast. exact Hc.
Qed.

Lemma head_char_app (a b : string) (c : ascii) :
  head_char a = Some c -> head_char (a +:+ b) = Some c.
Proof. destruct a; [discriminate | intros H; exact H]. Qed.

(** [strip] takes whitespace, and nothing else, off both ends. *)
Lemma strip_spec (s : string) :
  exists pre post,
    s = pre +:+ Py.strip s +:+ post
    /\ all_space pre = true /\ all_space post = true
    /\ (forall c, head_char (Py.strip s) = Some c -> Py.isspace c = false)
    /\ (forall c, last_char (Py.strip s) = Some c -> Py.isspace c = false).
Proof.
  unfold Py.strip.
  destruct (lstrip_spec s) as (pre & Hs & Hpre & Hhead).
  destruct (rstrip_spec (Py.lstrip s)) as (post & Hl & Hpost & Hlast).
  exists pre, post. split; [|repeat split; auto].
  - rewrite <- Hl. exact Hs.
  - intros c Hc. apply Hhead. rewrite Hl. now apply head_char_app.
Qed.

Lemma split_nonempty (sep : ascii) (s : string) : Py.split sep s <> [].
Proof.
  induction s as [|x s IH]; [discriminate|].
  cbn [Py.split]. destruct (Ascii.eqb x sep); [discriminate|].
  destruct (Py.split sep s); [contradiction | discriminate].
Qed.

(** Joining the fields with the separator gives the text back. *)
Lemma join_split (sep : ascii) (s : string) :
  Py.join (String sep EmptyString) (Py.split sep s) = s.
Proof.
  induction s as [|x s IH]; [reflexivity|].
  cbn [Py.split]. destruct (Ascii.eqb_spec x sep) as [->|Hne].
  - pose proof (split_nonempty sep s) as Hn.
    destruct (Py.split sep s) as [|f fs]; [contradiction|].
    rewrite join_cons2, IH. reflexivity.
  - pose proof (split_nonempty sep s) as Hn.
    destruct (Py.split sep s) as [|f fs]; [contradiction|].
    destruct fs as [|g fs].
    + unfold Py.join in *. cbn [String.concat] in *. now rewrite IH.
    + rewrite join_cons2 in *. rewrite app_cons_s, IH. reflexivity.
Qed.

Lemma np_array_Ok {A : Type} (g g' : list (list A)) :
  np_array g = Ok g' -> g' = g /\ (numpy_ragged = false -> rectangular g = true).
Proof.
  unfold np_array. destruct (rectangular g); cbn [orb].
  - intros H. injection H as <-. auto.
  - destruct numpy_ragged; [|discriminate].
    intros H. injection H as <-. split; [reflexivity | discriminate].
Qed.

(** No field that [split] returns contains the separator. *)
Lemma split_fields (sep : ascii) (s : string) :
  Forall (fun field => Py.contains sep field = false) (Py.split sep s).
Proof.
  induction s as [|x s IH]; [repeat constructor|].
  cbn [Py.split]. destruct (Ascii.eqb x sep) eqn:Hx.
  - constructor; [reflexivity | exact IH].
  - destruct (Py.split sep s) as [|g gs]; [repeat constructor; cbn; now rewrite Hx|].
    inversion IH as [|? ? Hg Hgs]; subst.
    constructor; [cbn [Py.contains]; now rewrite Hx | exact Hgs].
Qed.

(** C6, as the code has it.  The loader raises when the file cannot be
    opened or does not decode.  Otherwise it takes all leading and
    trailing whitespace (line terminators, but also blanks and tabs,
    hence leading and trailing empty fields) off each line and splits
    the rest at the tabs.  It returns a grid exactly when the rows so
    obtained have one length or NumPy accepts ragged rows.  The grid
    has one row per line, the header line included; each row is the
    fields of the stripped line: it is not empty, no field contains a
    tab, and joined by tabs it is the stripped line; the stripped line
    is the line without a whitespace-only prefix and suffix, and
    neither begins nor ends with whitespace.  Rows may differ in
    length; the grid is rectangular whenever NumPy refuses ragged
    input. *)
Theorem load_table_strips_whitespace (f : file)
    (lines : list string) (grid : list (list string)) :
  load_table Missing = Raise OSError
  /\ load_table Undecodable = Raise ValueError
  /\ (f = Lines lines ->
      ((exists g, load_table f = Ok g)
       <-> (numpy_ragged = true
            \/ exists n, Forall (fun line =>
                                   length (Py.split tab (Py.strip line)) = n) lines))
      /\ (load_table f = Ok grid ->
          length grid = length lines
          /\ (numpy_ragged = false -> rectangular grid = true)
          /\ forall i line, lines !! i = Some line ->
               exists row pre post,
                 grid !! i = Some row /\ row <> []
                 /\ Forall (fun field => Py.contains tab field = false) row
                 /\ Py.join (String tab EmptyString) row = Py.strip line
                 /\ line = pre +:+ Py.strip line +:+ post
                 /\ all_space pre = true /\ all_space post = true
                 /\ (forall c, head_char (Py.strip line) = Some c ->
                       Py.isspace c = false)
                 /\ (forall c, last_char (Py.strip line) = Some c ->
                       Py.isspace c = false))).
Proof.
  split; [reflexivity|]. split; [reflexivity|]. intros ->. split.
  - unfold load_table, np_array. cbn [open_file]. rewrite bind_ret.
    set (g := map (fun line => Py.split tab (Py.strip line)) lines).
    split.
    + intros [g' H]. destruct numpy_ragged; [now left|]. right.
      rewrite orb_false_r in H.
      destruct (rectangular g) eqn:Hr; [|discriminate]. subst g.
      destruct lines as [|l0 lines].
      * exists 0. constructor.
      * exists (length (Py.split tab (Py.strip l0))).
        constructor; [reflexivity|]. cbn [map rectangular] in Hr.
        rewrite forallb_forall in Hr. apply Forall_forall. intros l Hl.
        apply Nat.eqb_eq, Hr.
        apply (in_map (fun line => Py.split tab (Py.strip line))).
        now apply list_elem_of_In.
    + intros [Hn | (n & Hall)].
      * exists g. now rewrite Hn, orb_true_r.
      * exists g. replace (rectangular g) with true; [reflexivity|].
        symmetry. subst g. destruct lines as [|l0 lines]; [reflexivity|].
        cbn [map rectangular]. apply forallb_forall. intros r Hr.
        apply in_map_iff in Hr as (l & <- & Hl). apply Nat.eqb_eq.
        inversion Hall as [|? ? H0 Hrest]; subst.
        rewrite Forall_forall in Hrest. apply Hrest. now apply list_elem_of_In.
  - intros H. unfold load_table in H.
    cbn [open_file] in H. rewrite bind_ret in H.
    apply np_array_Ok in H as [-> Hrect].
    split; [apply length_map|]. split; [exact Hrect|].
    intros i line Hi.
    destruct (strip_spec line) as (pre & post & Hline & Hpre & Hpost & Hh & Hl).
    exists (Py.split tab (Py.strip line)), pre, post.
    split; [now rewrite list_lookup_fmap, Hi|].
    split; [apply split_nonempty|]. split; [apply split_fields|].
    split; [apply join_split|]. auto.
Qed.

(** *** The annotator *)

Lemma annot_loop_columns (cols : list string) :
  forall Annot,
  annot_loop cols Annot
  = Annot +:+ Py.join EmptyString (map (fun c => " " +:+ c) (annotation_columns cols)).
Proof.
  induction cols as [|c cols IH]; intros Annot.
  - cbn. now rewrite app_nil_r_s.
  - cbn [annot_loop annotation_columns].
    destruct (String.eqb (Py.strip c) "nan" || String.eqb (Py.strip c) EmptyString).
    + cbn. now rewrite app_nil_r_s.
    + rewrite IH. cbn [map].
      destruct (annotation_columns cols) as [|c' cs].
      * cbn. now rewrite !app_nil_r_s.
      * cbn [map]. rewrite join_cons2. now rewrite !app_assoc_s.
Qed.

Lemma annotate_species_lookup (doc doc' : sbml_doc_t) (row : list string) :
  annotate_species doc row = Ok doc' ->
  doc_compartments doc' = doc_compartments doc
  /\ forall id,
       doc_species doc' !! id
       = if decide (row !! 0 = Some id) then Some (species_annotation row)
         else doc_species doc !! id.
Proof.
  unfold annotate_species. intros H.
  apply bind_Ok in H as (id0 & Hid & H). apply index_Ok in Hid.
  apply bind_Ok in H as (old & _ & H). injection H as <-. cbn.
  split; [reflexivity|]. intros id. rewrite Hid.
  destruct (decide (Some id0 = Some id)) as [Heq|Hne].
  - injection Heq as ->. apply lookup_insert_eq.
  - apply lookup_insert_ne. congruence.
Qed.

Lemma annotate_compartment_lookup (doc doc' : sbml_doc_t) (row : list string) :
  annotate_compartment doc row = Ok doc' ->
  doc_species doc' = doc_species doc
  /\ forall id,
       doc_compartments doc' !! id
       = if decide (row !! 0 = Some id) then row !! 2
         else doc_compartments doc !! id.
Proof.
  unfold annotate_compartment. intros H.
  apply bind_Ok in H as (id0 & Hid & H). apply index_Ok in Hid.
  apply bind_Ok in H as (old & _ & H).
  apply bind_Ok in H as (a & Ha & H). apply index_Ok in Ha.
  injection H as <-. cbn.
  split; [reflexivity|]. intros id. rewrite Hid, Ha.
  destruct (decide (Some id0 = Some id)) as [Heq|Hne].
  - injection Heq as ->. apply lookup_insert_eq.
  - apply lookup_insert_ne. congruence.
Qed.

(** Rows that do not name [id] leave its species annotation alone. *)
Lemma species_loop_other (rows : list (list string)) (id : string) :
  forall doc doc',
  for_each annotate_species rows doc = Ok doc' ->
  doc_compartments doc' = doc_compartments doc
  /\ (Forall (fun r => r !! 0 <> Some id) rows ->
      doc_species doc' !! id = doc_species doc !! id).
Proof.
  induction rows as [|row rows IH]; intros doc doc' H.
  - injection H as <-. auto.
  - rewrite for_each_cons in H. apply bind_Ok in H as (doc1 & Hrow & H).
    apply annotate_species_lookup in Hrow as [Hc Hs].
    apply IH in H as [Hc' Hs']. split; [congruence|].
    intros Hall. inversion Hall as [|? ? Hne Hrest]; subst.
    rewrite (Hs' Hrest), Hs. now rewrite decide_False.
Qed.

Lemma compartment_loop_other (rows : list (list string)) (id : string) :
  forall doc doc',
  for_each annotate_compartment rows doc = Ok doc' ->
  doc_species doc' = doc_species doc
  /\ (Forall (fun r => r !! 0 <> Some id) rows ->
      doc_compartments doc' !! id = doc_compartments doc !! id).
Proof.
  induction rows as [|row rows IH]; intros doc doc' H.
  - injection H as <-. auto.
  - rewrite for_each_cons in H. apply bind_Ok in H as (doc1 & Hrow & H).
    apply annotate_compartment_lookup in Hrow as [Hs Hc].
    apply IH in H as [Hs' Hc']. split; [congruence|].
    intros Hall. inversion Hall as [|? ? Hne Hrest]; subst.
    rewrite (Hc' Hrest), Hc. now rewrite decide_False.
Qed.

(** C7, as the code has it.  When the annotator runs through, every
    species named by a row of the species table carries as annotation
    the text built from that row (the last such row, should a name
    occur twice): the columns from the fifth on (the fourth column is
    passed over), each preceded by a blank, up to the first column that
    is empty or ["nan"] once stripped.  Every compartment named by a
    row of the compartment table carries the third column of that
    row.  The resulting document is the one written back. *)
Theorem annotations_from_rows (syn : synthesis) (doc doc' : sbml_doc_t) :
  annotate syn doc = Ok doc' ->
  (forall rows1 row rows2 id,
     tail (species_sheet syn) = rows1 ++ row :: rows2 ->
     row !! 0 = Some id ->
     Forall (fun r => r !! 0 <> Some id) rows2 ->
     doc_species doc' !! id
     = Some (Py.join EmptyString
               (map (fun c => " " +:+ c) (annotation_columns (drop 4 row)))))
  /\ (forall rows1 row rows2 id,
        tail (compartment_sheet syn) = rows1 ++ row :: rows2 ->
        row !! 0 = Some id ->
        Forall (fun r => r !! 0 <> Some id) rows2 ->
        exists a, row !! 2 = Some a /\ doc_compartments doc' !! id = Some a).
Proof.
  unfold annotate. intros H. apply bind_Ok in H as (doc1 & Hsp & Hco). split.
  - intros rows1 row rows2 id Hrows Hid Hlater.
    rewrite Hrows, for_each_app in Hsp.
    apply bind_Ok in Hsp as (d1 & _ & Hsp). rewrite for_each_cons in Hsp.
    apply bind_Ok in Hsp as (d2 & Hrow & Hsp).
    apply annotate_species_lookup in Hrow as [_ Hrow].
    destruct (species_loop_other rows2 id _ _ Hsp) as [_ Hsp'].
    destruct (compartment_loop_other _ id _ _ Hco) as [Hco' _].
    rewrite Hco', (Hsp' Hlater), Hrow, decide_True by exact Hid.
    unfold species_annotation. rewrite annot_loop_columns. reflexivity.
  - intros rows1 row rows2 id Hrows Hid Hlater.
    rewrite Hrows, for_each_app in Hco.
    apply bind_Ok in Hco as (d1 & _ & Hco). rewrite for_each_cons in Hco.
    apply bind_Ok in Hco as (d2 & Hrow & Hco).
    pose proof Hrow as Hrow'. unfold annotate_compartment in Hrow'.
    apply bind_Ok in Hrow' as (? & _ & Hrow'). apply bind_Ok in Hrow' as (? & _ & Hrow').
    apply bind_Ok in Hrow' as (a & Ha & _). apply index_Ok in Ha.
    apply annotate_compartment_lookup in Hrow as [_ Hrow].
    destruct (compartment_loop_other rows2 id _ _ Hco) as [_ Hco'].
    exists a. split; [exact Ha|].
    rewrite (Hco' Hlater), Hrow, decide_True by exact Hid. exact Ha.
Qed.

(** *** The whole run *)


(** *** Templated rate laws *)

(** C2, at a failing input.  Reaction row 1 with the one-parameter
    template [k1*S1/(k1+S1)]: the parameter [k1_1] is allocated, with
    index 0 and the value of the trailing column, but the formula that
    results is [k1_1_1*S1/(k1_1_1+S1)].  The loop runs [str.replace]
    once per match; the second run finds the token [k1] inside the two
    names the first run has put in and replaces it there again, so the
    formula names a parameter that does not exist. *)
Theorem templated_formula_twice_replaced (T : reaction_tables) (st : synth)
    (comp formula0 : string) (v : num) (rxn : string) :
  genfromtxt ["3"] = Some [v] ->
  isnan v = false ->
  py_float "3" = Some v ->
  rxn_name T 0 = Ok rxn ->
  Re.finditer Re.pattern "k1*S1/(k1+S1)" = ["k1"; "k1"]
  /\ rate_law T 0 [comp; "k1*S1/(k1+S1)"; "3"] formula0 st
     = Ok ("k1_1_1*S1/(k1_1_1+S1)", add_param "k1_1" v rxn 0 st).
Proof.
  intros Hgen Hnan Hv Hrxn. split; [reflexivity|].
  unfold rate_law.
  change (index [comp; "k1*S1/(k1+S1)"; "3"] 1) with (Ok "k1*S1/(k1+S1)").
  rewrite bind_ret.
  change (Py.contains "k" "k1*S1/(k1+S1)") with true. cbn [negb].
  change (drop 2 [comp; "k1*S1/(k1+S1)"; "3"]) with ["3"].
  rewrite Hgen. cbn [or_raise]. rewrite bind_ret.
  rewrite filter_cons, Hnan. cbn [negb]. rewrite decide_True by exact I.
  rewrite filter_nil. cbn [length Nat.eqb].
  change (index [comp; "k1*S1/(k1+S1)"; "3"] (1 + 1)) with (Ok "3").
  rewrite bind_ret, Hv. cbn [or_raise]. rewrite bind_ret, Hrxn, bind_ret.
  rewrite last_paramname_add.
  replace ("k" +:+ Py.str (0 + 1) +:+ "_" +:+ Py.str 1) with "k1_1"
    by (vm_compute; reflexivity).
  replace (substitute (Re.finditer Re.pattern "k1*S1/(k1+S1)") "k1_1"
             "k1*S1/(k1+S1)")
    with "k1_1_1*S1/(k1_1_1+S1)" by (vm_compute; reflexivity).
  reflexivity.
Qed.

(** The allocation itself is as described: a templated row that is
    processed gets one parameter per value that [genfromtxt] keeps and
    that is not NaN, named [k<rowNum+1>_<q+1>] with index [q] in
    order, valued by the trailing column at position [q]. *)
Lemma templated_allocation (T : reaction_tables) (rowNum : nat)
    (ratelaw : list string) (field formula0 : string) (st : synth)
    (formula : string) (st' : synth) :
  ratelaw !! 1 = Some field ->
  Py.contains "k" field = true ->
  rate_law T rowNum ratelaw formula0 st = Ok (formula, st') ->
  exists ps,
    grows st st' [] ps
    /\ (exists kept,
          genfromtxt (drop 2 ratelaw) = Some kept
          /\ length ps = length (filter (fun p => negb (isnan p)) kept))
    /\ forall q p, ps !! q = Some p ->
         pname p = "k" +:+ Py.str (rowNum + 1) +:+ "_" +:+ Py.str (q + 1)
         /\ pidx p = q
         /\ exists cell, ratelaw !! (q + 2) = Some cell /\ py_float cell = Some (pval p).
Proof.
  intros Hfield Hk H.
  apply rate_law_effect in H as (ps & (field' & Hfield' & Hall) & Hg).
  rewrite Hfield in Hfield'. injection Hfield' as <-. rewrite Hk in Hall.
  destruct Hall as [Hlen Hps]. exists ps. split; [exact Hg|].
  split; [exact Hlen|]. intros q p Hq.
  apply Hps in Hq as (cell & v & rxn & Hc & Hv & _ & ->).
  cbn. eauto.
Qed.

(** ** Further properties *)

(** *** The loader reads back what was written *)

Lemma rstrip_all_space (w : string) : all_space w = true -> Py.rstrip w = EmptyString.
Proof.
  induction w as [|c w IH]; [reflexivity|]. cbn [all_space Py.rstrip].
  intros H. apply andb_true_iff in H as [Hc Hw]. now rewrite (IH Hw), Hc.
Qed.

Lemma rstrip_app_space (s w : string) :
  all_space w = true -> Py.rstrip (s +:+ w) = Py.rstrip s.
Proof.
  intros Hw. induction s as [|c s IH].
  - rewrite app_nil_l_s. now apply rstrip_all_space.
  - rewrite app_cons_s. cbn [Py.rstrip]. now rewrite IH.
Qed.

Lemma rstrip_fixed (s : string) :
  (forall c, last_char s = Some c -> Py.isspace c = false) -> Py.rstrip s = s.
Proof.
  induction s as [|c s IH]; [reflexivity|]. intros H. cbn [Py.rstrip].
  destruct s as [|d s].
  - cbn [Py.rstrip]. now rewrite (H c eq_refl).
  - rewrite IH by (intros x Hx; apply H; exact Hx). reflexivity.
Qed.

Lemma trimmed_ends (s : string) :
  trimmed s = true ->
  (forall c, head_char s = Some c -> Py.isspace c = false)
  /\ (forall c, last_char s = Some c -> Py.isspace c = false).
Proof.
  unfold trimmed. destruct (head_char s) as [a|] eqn:Ha.
  - destruct (last_char s) as [b|] eqn:Hb.
    + intros H. apply andb_true_iff in H as [H1 H2].
      apply negb_true_iff in H1, H2.
      split; intros c Hc; injection Hc as <-; assumption.
    + destruct s as [|x [|y s]]; try discriminate.
      exfalso. clear Ha. revert x y Hb.
      induction s as [|z s IH]; intros x y Hb; [discriminate|].
      apply (IH y z). exact Hb.
  - intros _. destruct s; [|discriminate]. split; intros c Hc; discriminate.
Qed.

(** A trimmed text followed by whitespace strips to itself. *)
Lemma strip_trimmed (s w : string) :
  trimmed s = true -> all_space w = true -> Py.strip (s +:+ w) = s.
Proof.
  intros Hs Hw. apply trimmed_ends in Hs as [Hh Hl]. unfold Py.strip.
  destruct s as [|c s].
  - rewrite app_nil_l_s.
    assert (Hall : all_space (Py.lstrip w) = true).
    { clear -Hw. induction w as [|x w IH]; [reflexivity|].
      cbn [all_space] in Hw. apply andb_true_iff in Hw as [Hx Hw].
      cbn [Py.lstrip]. rewrite Hx. now apply IH. }
    now apply rstrip_all_space.
  - rewrite app_cons_s. cbn [Py.lstrip]. rewrite (Hh c eq_refl).
    rewrite <- app_cons_s, rstrip_app_space by exact Hw.
    now apply rstrip_fixed.
Qed.

Lemma split_no_sep (sep : ascii) (f : string) :
  Py.contains sep f = false -> Py.split sep f = [f].
Proof.
  induction f as [|c f IH]; [reflexivity|]. cbn [Py.contains Py.split].
  intros H. apply orb_false_elim in H as [Hc Hf]. rewrite Hc, (IH Hf). reflexivity.
Qed.

Lemma split_app_sep (sep : ascii) (f rest : string) :
  Py.contains sep f = false ->
  Py.split sep (f +:+ String sep rest) = f :: Py.split sep rest.
Proof.
  induction f as [|c f IH].
  - intros _. rewrite app_nil_l_s. cbn [Py.split]. now rewrite Ascii.eqb_refl.
  - cbn [Py.contains]. intros H. apply orb_false_elim in H as [Hc Hf].
    rewrite app_cons_s. cbn [Py.split]. rewrite Hc, (IH Hf). reflexivity.
Qed.

(** Splitting the tab-joined fields gives the fields back. *)
Lemma split_join (sep : ascii) (fields : list string) :
  fields <> [] ->
  Forall (fun f => Py.contains sep f = false) fields ->
  Py.split sep (Py.join (String sep EmptyString) fields) = fields.
Proof.
  induction fields as [|f fields IH]; [congruence|]. intros _ Hall.
  inversion Hall as [|? ? Hf Hrest]; subst.
  destruct fields as [|g fields].
  - cbn. now apply split_no_sep.
  - rewrite join_cons2, app_cons_s, app_nil_l_s, split_app_sep by exact Hf.
    rewrite IH; [reflexivity | discriminate | exact Hrest].
Qed.

(** X1.  A table written one row per line, the fields joined by tabs
    and the line ended by a newline, loads as exactly those rows,
    provided no row is empty, no field contains a tab or a newline, no
    line begins or ends with whitespace before its terminator, and the
    rows have one length or NumPy accepts ragged rows. *)
Theorem load_table_reads_back (rows : list (list string)) :
  Forall (fun row =>
            row <> []
            /\ Forall (fun f => Py.contains tab f = false
                                /\ Py.contains newline f = false) row
            /\ trimmed (Py.join (String tab EmptyString) row) = true) rows ->
  rectangular rows || numpy_ragged = true ->
  load_table (Lines (map Sample.line rows)) = Ok rows.
Proof.
  intros Hrows Hrect. unfold load_table. cbn [open_file].
  rewrite bind_ret, map_map.
  replace (map (fun x => Py.split tab (Py.strip (Sample.line x))) rows) with rows.
  - unfold np_array. now rewrite Hrect.
  - clear Hrect.
    induction Hrows as [|row rows (Hne & Htab & Htrim) _ IH]; [reflexivity|].
    cbn [map]. rewrite <- IH. f_equal. unfold Sample.line.
    rewrite strip_trimmed by (exact Htrim || reflexivity).
    symmetry. apply split_join; [exact Hne|].
    eapply Forall_impl; [exact Htab|]. intros f [Hf _]. exact Hf.
Qed.

Lemma load_table_Raise_inv (f : file) (e : exn) :
  load_table f = Raise e ->
  (f = Missing /\ e = OSError)
  \/ (f = Undecodable /\ e = ValueError)
  \/ (exists lines,
        f = Lines lines /\ e = ValueError /\ numpy_ragged = false
        /\ rectangular (map (fun line => Py.split tab (Py.strip line)) lines) = false).
Proof.
  unfold load_table, np_array. destruct f as [| |lines]; cbn [open_file].
  - intros H. injection H as <-. now left.
  - intros H. injection H as <-. right. now left.
  - rewrite bind_ret. destruct (rectangular _) eqn:Hr; cbn [orb]; [discriminate|].
    destruct numpy_ragged eqn:Hn; [discriminate|].
    intros H. injection H as <-. right. right. exists lines. auto.
Qed.

(** X2.  The loader raises in three cases only: [OSError] when the file
    cannot be opened; [ValueError] (a [UnicodeDecodeError]) when its
    bytes do not decode in the encoding it is read with; and
    [ValueError] when the lines split into different numbers of fields
    and NumPy refuses ragged rows. *)
Theorem load_table_raises (f : file) (e : exn) :
  load_table f = Raise e <->
  (f = Missing /\ e = OSError)
  \/ (f = Undecodable /\ e = ValueError)
  \/ (exists lines,
        f = Lines lines /\ e = ValueError /\ numpy_ragged = false
        /\ rectangular (map (fun line => Py.split tab (Py.strip line)) lines) = false).
Proof.
  split; [apply load_table_Raise_inv|].
  intros [[-> ->] | [[-> ->] | (lines & -> & -> & Hn & Hr)]]; [reflexivity..|].
  unfold load_table, np_array. cbn [open_file].
  now rewrite bind_ret, Hr, Hn.
Qed.

Lemma split_head_empty (sep : ascii) (t : string) (rest : list string) :
  Py.split sep t = EmptyString :: rest ->
  (t = EmptyString /\ rest = []) \/ head_char t = Some sep.
Proof.
  destruct t as [|c t]; cbn [Py.split].
  - intros H. injection H as <-. now left.
  - destruct (Ascii.eqb_spec c sep) as [->|Hne].
    + intros _. now right.
    + destruct (Py.split sep t); discriminate.
Qed.

Lemma split_last_empty (sep : ascii) (t : string) :
  last (Py.split sep t) = Some EmptyString ->
  t = EmptyString \/ last_char t = Some sep.
Proof.
  induction t as [|c t IH]; [now left|]. cbn [Py.split]. intros H. right.
  pose proof (split_nonempty sep t) as Hn.
  destruct (Ascii.eqb_spec c sep) as [->|Hne].
  - destruct (Py.split sep t) as [|g gs] eqn:Hs; [contradiction|].
    change (last (EmptyString :: g :: gs)) with (last (g :: gs)) in H.
    destruct (IH H) as [-> | Hl]; [reflexivity|].
    destruct t; [discriminate | exact Hl].
  - destruct (Py.split sep t) as [|g gs] eqn:Hs; [contradiction|].
    destruct gs as [|g' gs].
    + discriminate.
    + change (last (String c g :: g' :: gs)) with (last (g :: g' :: gs)) in H.
      destruct (IH H) as [-> | Hl]; [discriminate|].
      destruct t; [discriminate | exact Hl].
Qed.

(** X3.  No loaded row begins or ends with an empty field, a blank line
    apart (which loads as the one empty field): empty cells at either
    end of a line are lost with the whitespace around them. *)
Theorem loaded_rows_keep_no_empty_ends (f : file)
    (grid : list (list string)) (row : list string) :
  load_table f = Ok grid ->
  row ∈ grid ->
  row = [EmptyString]
  \/ (head row <> Some EmptyString /\ last row <> Some EmptyString).
Proof.
  unfold load_table. intros H Hin.
  apply bind_Ok in H as (lines & _ & H). apply np_array_Ok in H as [-> _].
  apply list_elem_of_fmap in Hin as (line & -> & _).
  destruct (strip_spec line) as (_ & _ & _ & _ & _ & Hh & Hl).
  destruct (Py.split tab (Py.strip line)) as [|a rest] eqn:Hs.
  { now apply split_nonempty in Hs. }
  destruct (decide (a = EmptyString)) as [->|Ha].
  - apply split_head_empty in Hs as [[_ ->] | Hs]; [now left|].
    apply Hh in Hs. discriminate.
  - right. split; [cbn; congruence|].
    intros Hlast. rewrite <- Hs in Hlast.
    apply split_last_empty in Hlast as [Ht | Ht].
    + rewrite Ht in Hs. injection Hs as <- _. congruence.
    + apply Hl in Ht. discriminate.
Qed.

(** *** The layout of the model text *)

Lemma grows_fold {A : Type} (g : A -> string) (l : list A) (st : synth) :
  grows st (fold_left (fun st x => write (g x) st) l st) (map g l) [].
Proof.
  revert st. induction l as [|a l IH]; intros st; cbn [fold_left map].
  - apply grows_refl.
  - apply (grows_trans _ _ _ [g a] (map g l) [] [] (grows_write _ st) (IH _)).
Qed.

(** A loop whose passes only write: the chunks of the passes, in order. *)
Lemma for_each_outputs {A : Type} (P : A -> list string -> Prop)
    (body : synth -> A -> result synth) :
  (forall st a st', body st a = Ok st' -> exists out, P a out /\ grows st st' out []) ->
  forall (l : list A) (st st' : synth),
  for_each body l st = Ok st' ->
  exists outs, Forall2 P l outs /\ grows st st' (concat outs) [].
Proof.
  intros Hbody l. induction l as [|a l IH]; intros st st' H.
  - injection H as <-. exists []. split; [constructor | apply grows_refl].
  - rewrite for_each_cons in H. apply bind_Ok in H as (st1 & Hb & H).
    apply Hbody in Hb as (out & HP & Hg). apply IH in H as (outs & Houts & Hgs).
    exists (out :: outs). split; [now constructor|].
    apply (grows_trans _ _ _ out (concat outs) [] [] Hg Hgs).
Qed.

Lemma Forall2_singletons {A : Type} (P : A -> string -> Prop) (l : list A)
    (outs : list (list string)) :
  Forall2 (fun a out => exists x, P a x /\ out = [x]) l outs ->
  exists xs, Forall2 P l xs /\ concat outs = xs.
Proof.
  induction 1 as [|a out l outs (x & Hx & ->) _ (xs & Hxs & Hc)].
  - exists []. split; [constructor | reflexivity].
  - exists (x :: xs). split; [now constructor|]. cbn. now rewrite Hc.
Qed.

(** The loop collecting compartment names and volumes. *)
Lemma compartments_collected (rows : list (list string)) :
  forall (cs0 vs0 comps vols : list string),
  for_each (fun '(cs, vs) row =>
              c ← index row 0; v ← index row 1; Ok (cs ++ [c], vs ++ [v]))
    rows (cs0, vs0) = Ok (comps, vols) ->
  exists cs vs,
    comps = cs0 ++ cs /\ vols = vs0 ++ vs /\ length cs = length vs
    /\ Forall2 (fun row cv => row !! 0 = Some cv.1 /\ row !! 1 = Some cv.2)
         rows (zip cs vs).
Proof.
  induction rows as [|row rows IH]; intros cs0 vs0 comps vols H.
  - injection H as <- <-. exists [], []. rewrite !app_nil_r.
    repeat split. constructor.
  - rewrite for_each_cons in H. apply bind_Ok in H as ([cs1 vs1] & Hb & H).
    apply bind_Ok in Hb as (c & Hc & Hb). apply index_Ok in Hc.
    apply bind_Ok in Hb as (v & Hv & Hb). apply index_Ok in Hv.
    injection Hb as <- <-.
    apply IH in H as (cs & vs & -> & -> & Hlen & Hall).
    exists (c :: cs), (v :: vs). rewrite <- !app_assoc.
    repeat split; [cbn; now rewrite Hlen|]. now constructor.
Qed.

(** The loop declaring the species. *)
Lemma species_declared (scs : list string) (rows : list (list string)) :
  forall (n : nat) (st st' : synth),
  (forall i row, rows !! i = Some row -> scs !! (n + i) = row !! 1) ->
  for_each (fun st '(idx, val) =>
              let st := write "  Species " st in
              name ← index val 0;
              comp ← index scs idx;
              let st := write (name +:+ " in " +:+ comp) st in
              Ok (write (";" +:+ nl) st))
    (enumerate_from n rows) st = Ok st' ->
  exists outs, Forall2 species_decl rows outs /\ grows st st' (concat outs) [].
Proof.
  induction rows as [|row rows IH]; intros n st st' Hscs H.
  - injection H as <-. exists []. split; [constructor | apply grows_refl].
  - cbn [enumerate_from] in H. rewrite for_each_cons in H.
    apply bind_Ok in H as (st1 & Hb & H).
    apply bind_Ok in Hb as (name & Hname & Hb). apply index_Ok in Hname.
    apply bind_Ok in Hb as (comp & Hcomp & Hb). apply index_Ok in Hcomp.
    injection Hb as <-.
    rewrite <- (Nat.add_0_r n), (Hscs 0 row eq_refl) in Hcomp.
    apply (IH (S n)) in H as (outs & Houts & Hg).
    2:{ intros i r Hi. replace (S n + i) with (n + S i) by lia.
        now apply (Hscs (S i)). }
    exists (["  Species "; name +:+ " in " +:+ comp; ";" +:+ nl] :: outs). split.
    + constructor; [|exact Houts]. exists name, comp. auto.
    + refine (grows_trans _ _ _ [_; _; _] (concat outs) [] [] _ Hg).
      refine (grows_trans _ _ _ [_; _] [_] [] [] _ (grows_write _ _)).
      apply (grows_trans _ _ _ [_] [_] [] [] (grows_write _ _) (grows_write _ _)).
Qed.

Lemma Forall2_lookup_eq {A B : Type} (g : A -> result B) (l : list A) (k : list B) :
  Forall2 (fun a b => g a = Ok b) l k ->
  forall i a, l !! i = Some a -> exists b, k !! i = Some b /\ g a = Ok b.
Proof.
  intros H i a Hi. destruct (Forall2_lookup_l _ _ _ _ _ H Hi) as (b & Hb & Hg).
  eauto.
Qed.

(** Header, compartment and species declarations. *)
Lemma declarations_layout (inp : inputs) (cs ss : list (list string))
    (comps vols : list string) (st : synth) :
  declarations inp = Ok (cs, ss, comps, vols, st) ->
  load_table (Compartments_txt inp) = Ok cs
  /\ load_table (latin_1 (Species_txt inp)) = Ok ss
  /\ length comps = length vols
  /\ Forall2 (fun row cv => row !! 0 = Some cv.1 /\ row !! 1 = Some cv.2)
       (tail cs) (zip comps vols)
  /\ exists species_decls,
       Forall2 species_decl (tail ss) species_decls
       /\ grows start st
            (["# PanCancer Model by Birtwistle Lab " +:+ nl;
              "model SPARCED()" +:+ nl;
              nl +:+ "  # Compartments and Species:" +:+ nl]
             ++ map (fun c => "  Compartment " +:+ c +:+ "; ") comps
             ++ [nl; nl] ++ concat species_decls) [].
Proof.
  unfold declarations. intros H.
  apply bind_Ok in H as (cs' & Hcs & H).
  apply bind_Ok in H as ([comps' vols'] & Hcv & H).
  apply bind_Ok in H as (ss' & Hss & H).
  apply bind_Ok in H as (scs & Hscs & H).
  apply bind_Ok in H as (st1 & Hsp & H). injection H as <- <- <- <- <-.
  apply compartments_collected in Hcv as (cs0 & vs0 & -> & -> & Hlen & Hall).
  cbn [app] in *.
  apply (for_each_collect (fun row => index row 1)) in Hscs
    as (scs' & -> & Hscs); [|reflexivity]. cbn [app] in Hsp.
  apply (species_declared scs' (tail ss') 0) in Hsp as (outs & Houts & Hg).
  2:{ intros i row Hi.
      destruct (Forall2_lookup_eq _ _ _ Hscs i row Hi) as (b & Hb & Hrow).
      apply index_Ok in Hrow. cbn. congruence. }
  split; [exact Hcs|]. split; [exact Hss|]. split; [exact Hlen|].
  split; [exact Hall|]. exists outs. split; [exact Houts|].
  pose proof (grows_fold (fun c => "  Compartment " +:+ c +:+ "; ") cs0
                (write (nl +:+ "  # Compartments and Species:" +:+ nl)
                   (write ("model SPARCED()" +:+ nl)
                      (write ("# PanCancer Model by Birtwistle Lab " +:+ nl)
                         start)))) as (Ff & Fn & Fv & Fr & Fi).
  destruct Hg as (Hf & Hn & Hv & Hr & Hi).
  cbn [write start fileModel paramnames paramvals paramrxns paramidxs map app]
    in Ff, Fn, Fv, Fr, Fi, Hf, Hn, Hv, Hr, Hi.
  rewrite Ff in Hf. rewrite Fn in Hn. rewrite Fv in Hv. rewrite Fr in Hr.
  rewrite Fi in Hi.
  unfold grows. cbn [start fileModel paramnames paramvals paramrxns paramidxs map app].
  rewrite Hf, Hn, Hv, Hr, Hi. rewrite <- !app_assoc. repeat split.
Qed.

(** The loop initialising the parameters: one line per parameter, in
    the order of the lists. *)
Lemma param_inits_layout (ps2 : list param) :
  forall (ps1 : list param) (st st' : synth),
  paramvals st = map pval (ps1 ++ ps2) ->
  for_each (fun st '(count, param) =>
              v ← index (paramvals st) count;
              Ok (write (init_line param v) st))
    (enumerate_from (length ps1) (map pname ps2)) st = Ok st' ->
  grows st st' (map (fun p => init_line (pname p) (pval p)) ps2) [].
Proof.
  induction ps2 as [|p ps2 IH]; intros ps1 st st' Hv H.
  - injection H as <-. apply grows_refl.
  - cbn [map enumerate_from] in H. rewrite for_each_cons in H.
    apply bind_Ok in H as (st1 & Hb & H).
    apply bind_Ok in Hb as (v & Hidx & Hb). apply index_Ok in Hidx.
    injection Hb as <-.
    rewrite Hv, list_lookup_fmap, lookup_app_r, Nat.sub_diag in Hidx by lia.
    injection Hidx as <-.
    specialize (IH (ps1 ++ [p]) (write (init_line (pname p) (pval p)) st) st').
    rewrite length_app, Nat.add_1_r, <- app_assoc in IH.
    specialize (IH Hv H).
    apply (grows_trans _ _ _ [_] _ [] [] (grows_write _ st) IH).
Qed.

(** Initial values of compartments, species and parameters. *)
Lemma initializations_layout (compartments volumes : list string)
    (species_sheet : list (list string)) (ps : list param) (st st' : synth) :
  paramnames st = map pname ps ->
  paramvals st = map pval ps ->
  initializations compartments volumes species_sheet st = Ok st' ->
  exists comp_inits species_inits,
    Forall2 (fun cv out =>
               exists x, np_double cv.2 = Some x
                         /\ out = [init_line cv.1 x;
                                   "  " +:+ cv.1 +:+ " has volume;" +:+ nl])
      (zip compartments volumes) comp_inits
    /\ Forall2 species_init (tail species_sheet) species_inits
    /\ grows st st'
         ([nl +:+ "  # Compartment initializations:" +:+ nl] ++ concat comp_inits
          ++ [nl +:+ "  # Species initializations:" +:+ nl] ++ species_inits
          ++ [nl +:+ "  # Parameter initializations:" +:+ nl]
          ++ map (fun p => init_line (pname p) (pval p)) ps) [].
Proof.
  unfold initializations. intros Hn Hv H.
  apply bind_Ok in H as (st1 & Hc & H). apply bind_Ok in H as (st2 & Hs & H).
  apply (for_each_outputs
           (fun cv out =>
              exists x, np_double cv.2 = Some x
                        /\ out = [init_line cv.1 x;
                                  "  " +:+ cv.1 +:+ " has volume;" +:+ nl]))
    in Hc as (comp_inits & Hci & Hg1).
  2:{ intros s [c v] s' Hb. apply bind_Ok in Hb as (x & Hx & Hb).
      apply or_raise_Ok in Hx. injection Hb as <-.
      eexists. split; [exists x; split; [exact Hx | reflexivity]|].
      apply (grows_trans _ _ _ [_] [_] [] [] (grows_write _ _) (grows_write _ _)). }
  apply (for_each_outputs (fun val out => exists x, species_init val x /\ out = [x]))
    in Hs as (outs & Hsi & Hg2).
  2:{ intros s val s' Hb. apply bind_Ok in Hb as (name & Hname & Hb).
      apply index_Ok in Hname. apply bind_Ok in Hb as (ic & Hic & Hb).
      apply index_Ok in Hic. apply bind_Ok in Hb as (x & Hx & Hb).
      apply or_raise_Ok in Hx. injection Hb as <-.
      exists [init_line name x]. split; [|apply grows_write].
      exists (init_line name x). split; [|reflexivity]. exists name, ic, x. auto. }
  apply Forall2_singletons in Hsi as (species_inits & Hsi & Hcat).
  rewrite Hcat in Hg2.
  destruct Hg1 as (Hf1 & Hn1 & Hv1 & Hr1 & Hi1).
  destruct Hg2 as (Hf2 & Hn2 & Hv2 & Hr2 & Hi2).
  cbn [write fileModel paramnames paramvals paramrxns paramidxs map app]
    in Hf1, Hn1, Hv1, Hr1, Hi1, Hf2, Hn2, Hv2, Hr2, Hi2.
  rewrite !app_nil_r in Hn1, Hv1, Hr1, Hi1, Hn2, Hv2, Hr2, Hi2.
  cbn [write paramnames] in H. rewrite Hn2, Hn1, Hn in H.
  apply (param_inits_layout ps []) in H.
  2:{ cbn [write paramvals app]. now rewrite Hv2, Hv1, Hv. }
  destruct H as (Hf3 & Hn3 & Hv3 & Hr3 & Hi3).
  cbn [write fileModel paramnames paramvals paramrxns paramidxs map app]
    in Hf3, Hn3, Hv3, Hr3, Hi3.
  rewrite !app_nil_r in Hn3, Hv3, Hr3, Hi3.
  exists comp_inits, species_inits. split; [exact Hci|]. split; [exact Hsi|].
  unfold grows. cbn [map]. rewrite !app_nil_r.
  rewrite Hf3, Hn3, Hv3, Hr3, Hi3, Hf2, Hn2, Hv2, Hr2, Hi2, Hf1, Hn1, Hv1, Hr1, Hi1.
  rewrite <- !app_assoc. repeat split.
Qed.

Lemma closing_layout (st : synth) : grows st (closing st) trailer [].
Proof.
  unfold grows, closing, trailer, constantVars.
  cbn [removelast List.last fold_left write fileModel paramnames paramvals
       paramrxns paramidxs map].
  rewrite !app_nil_r, <- !app_assoc. repeat split.
Qed.

(** X4.  The text of a model that the synthesis pass completes is, in
    this order: the two header lines; one declaration per row of the
    compartment table; one declaration per row of the species table,
    in the compartment of its second column; the reaction lines; the
    initial volume and the volume tag of every compartment; the initial
    value of every species (its third column); the initial value of
    every exported parameter, in the order of the export; and the fixed
    constants and unit definitions closed by [end]. *)
Theorem model_text_layout (inp : inputs) (syn : synthesis) :
  synthesize inp = Ok syn ->
  load_table (Compartments_txt inp) = Ok (compartment_sheet syn)
  /\ load_table (latin_1 (Species_txt inp)) = Ok (species_sheet syn)
  /\ exists comp_decls species_decls rxn_lines comp_inits species_inits,
       fileModel (model syn)
       = model_layout comp_decls species_decls rxn_lines comp_inits
           species_inits (params_all syn)
       /\ Forall2 compartment_decl (tail (compartment_sheet syn)) comp_decls
       /\ Forall2 species_decl (tail (species_sheet syn)) species_decls
       /\ Forall2 compartment_init (tail (compartment_sheet syn)) comp_inits
       /\ Forall2 species_init (tail (species_sheet syn)) species_inits.
Proof.
  unfold synthesize. intros H.
  apply bind_Ok in H as ([[[[cs ss] comps] vols] st0] & Hdecl & H).
  apply bind_Ok in H as ([T data] & Hload & H).
  apply bind_Ok in H as (st1 & Hloop & H).
  apply bind_Ok in H as (st2 & Hinit & H). injection H as <-.
  cbn [compartment_sheet species_sheet model params_all].
  apply declarations_layout in Hdecl
    as (Hcs & Hss & Hlen & Hrows & species_decls & Hsd & Hg0).
  split; [exact Hcs|]. split; [exact Hss|].
  unfold reactions in Hloop.
  apply reaction_loop_effect in Hloop as (effs & _ & Hg1).
  destruct Hg0 as (Hf0 & Hn0 & Hv0 & Hr0 & Hi0).
  destruct Hg1 as (Hf1 & Hn1 & Hv1 & Hr1 & Hi1).
  cbn [write start fileModel paramnames paramvals paramrxns paramidxs map app]
    in Hf0, Hn0, Hv0, Hr0, Hi0, Hf1, Hn1, Hv1, Hr1, Hi1.
  rewrite Hn0 in Hn1. rewrite Hv0 in Hv1. rewrite Hr0 in Hr1. rewrite Hi0 in Hi1.
  cbn [app] in Hn1, Hv1, Hr1, Hi1.
  assert (Hall : DataFrame st1 = concat effs.*2).
  { unfold DataFrame. rewrite Hn1, Hv1, Hr1, Hi1. apply zip_projections. }
  apply (initializations_layout comps vols ss (concat effs.*2)) in Hinit
    as (comp_inits & species_inits & Hci & Hsi & Hg2); [|exact Hn1|exact Hv1].
  destruct Hg2 as (Hf2 & _).
  destruct (closing_layout st2) as (Hf3 & _).
  exists (map (fun c => "  Compartment " +:+ c +:+ "; ") comps), species_decls,
    (concat effs.*1), comp_inits, species_inits.
  split.
  { rewrite Hf3, Hf2, Hf1, Hf0, Hall. unfold model_layout.
    repeat first [rewrite <- app_assoc | progress cbn [app]]. reflexivity. }
  split.
  { clear -Hrows Hlen. revert vols Hlen Hrows.
    generalize (tail cs) as rows.
    induction comps as [|c comps IH]; intros rows [|v vols] Hlen Hrows;
      try discriminate; cbn [zip zip_with map] in *.
    - inversion Hrows; subst. constructor.
    - inversion Hrows as [|row ? ? ? [Hc _] Hrest]; subst. constructor.
      + exists c. auto.
      + apply (IH _ vols); [cbn in Hlen; lia | exact Hrest]. }
  split; [exact Hsd|]. split; [|exact Hsi].
  eapply Forall2_compose; [|exact Hrows|exact Hci].
  intros row [c v] out [Hc Hv] (x & Hx & ->). cbn [fst snd] in *.
  exists c, v, x. auto.
Qed.

(** *** The exported parameters *)

(** X5.  The frame exported to [ParamsAll.txt] has one row per
    allocated parameter and its columns are the four lists, entry by
    entry: building it from lists drops or shifts nothing. *)
Theorem parameter_frame_columns (inp : inputs) (syn : synthesis) :
  synthesize inp = Ok syn ->
  paramnames (model syn) = map pname (params_all syn)
  /\ paramvals (model syn) = map pval (params_all syn)
  /\ paramrxns (model syn) = map prxn (params_all syn)
  /\ paramidxs (model syn) = map pidx (params_all syn).
Proof.
  unfold synthesize. intros H.
  apply bind_Ok in H as ([[[[cs ss] comps] vols] st0] & Hdecl & H).
  apply bind_Ok in H as ([T data] & Hload & H).
  apply bind_Ok in H as (st1 & Hloop & H).
  apply bind_Ok in H as (st2 & Hinit & H). injection H as <-.
  cbn [model params_all].
  apply declarations_writes in Hdecl.
  pose proof (writes_only_trans _ _ _ Hdecl
                (writes_only_write (nl +:+ nl +:+ "  # Reactions:" +:+ nl) st0))
    as Hw0.
  destruct (writes_only_params _ _ Hw0) as (Hn0 & Hv0 & Hr0 & Hi0).
  unfold reactions in Hloop.
  apply reaction_loop_effect in Hloop as (effs & _ & _ & Hn & Hv & Hr & Hi).
  rewrite Hn0 in Hn. rewrite Hv0 in Hv. rewrite Hr0 in Hr. rewrite Hi0 in Hi.
  cbn [start paramnames paramvals paramrxns paramidxs app] in Hn, Hv, Hr, Hi.
  apply initializations_effect in Hinit as [Hw2 _].
  pose proof (writes_only_trans _ _ _ Hw2 (closing_writes st2)) as Hw3.
  destruct (writes_only_params _ _ Hw3) as (-> & -> & -> & ->).
  unfold DataFrame. rewrite Hn, Hv, Hr, Hi, zip_projections. auto.
Qed.

Lemma rxn_name_Ok (T : reaction_tables) (rowNum : nat) (rxn : string) :
  rxn_name T rowNum = Ok rxn <->
  exists line, ratelaw_sheet T !! (rowNum + 1) = Some line /\ line !! 0 = Some rxn.
Proof.
  unfold rxn_name. rewrite bind_Ok. split.
  - intros (line & Hl & Hr). apply index_Ok in Hl, Hr. eauto.
  - intros (line & Hl & Hr). exists line. split; now apply index_Ok.
Qed.

(** X6.  Every exported parameter belongs to one reaction row: its
    [rxn] entry is the first column of that row of the rate-law sheet,
    and its name is either [k<row>] with index 0 (a mass-action row) or
    [k<row>_<index+1>] (a templated row), [row] counting from 1. *)
Theorem exported_parameter_owner (inp : inputs) (syn : synthesis)
    (T : reaction_tables) (ratelaw_data : list (list string)) (p : param) :
  synthesize inp = Ok syn ->
  load_reactions inp = Ok (T, ratelaw_data) ->
  p ∈ params_all syn ->
  exists rowNum line,
    rowNum < length ratelaw_data
    /\ ratelaw_sheet T !! (rowNum + 1) = Some line
    /\ line !! 0 = Some (prxn p)
    /\ ((pname p = "k" +:+ Py.str (rowNum + 1) /\ pidx p = 0)
        \/ pname p = "k" +:+ Py.str (rowNum + 1) +:+ "_" +:+ Py.str (pidx p + 1)).
Proof.
  intros Hsyn Hload Hp.
  apply synthesize_structure in Hsyn
    as (T' & data' & effs & _ & _ & Hload' & Heffs & _ & _ & _ & Hall & _).
  rewrite Hload in Hload'. injection Hload' as <- <-.
  rewrite Hall in Hp. apply list_elem_of_In, in_concat in Hp as (ps & Hps & Hp).
  apply list_elem_of_In, list_elem_of_fmap in Hps as ([out ps'] & -> & Heff).
  apply list_elem_of_lookup in Heff as [rowNum Heff].
  destruct (Forall2_lookup_r _ _ _ _ _ Heffs Heff) as ([n ratelaw] & Hx & Hrow).
  unfold enumerate in Hx. rewrite enumerate_from_lookup in Hx.
  destruct (ratelaw_data !! rowNum) as [r|] eqn:Hr; [|discriminate].
  injection Hx as <- <-.
  destruct Hrow as (_ & _ & _ & _ & (field & _ & Halloc) & _).
  cbn [fst snd] in Halloc. apply list_elem_of_In in Hp.
  apply lookup_lt_Some in Hr.
  destruct (Py.contains "k" field).
  - destruct Halloc as [_ Hq]. apply list_elem_of_lookup in Hp as [q Hp].
    destruct (Hq _ _ Hp) as (cell & v & rxn & _ & _ & Hrxn & Heq). rewrite Heq.
    apply rxn_name_Ok in Hrxn as (line & Hl & Hrxn).
    exists rowNum, line. split; [exact Hr|]. split; [exact Hl|].
    split; [exact Hrxn|]. right. reflexivity.
  - destruct Halloc as (v & rxn & _ & Hrxn & Heq). rewrite Heq in Hp.
    apply list_elem_of_singleton in Hp. rewrite Hp.
    apply rxn_name_Ok in Hrxn as (line & Hl & Hrxn).
    exists rowNum, line. split; [exact Hr|]. split; [exact Hl|].
    split; [exact Hrxn|]. left. auto.
Qed.

(** *** How the reaction tables are cut from the sheets *)

Lemma lookup_drop_1 (l : list string) (i : nat) : drop 1 l !! i = l !! (i + 1).
Proof. rewrite lookup_drop. f_equal. lia. Qed.

Lemma lookup_tail {A : Type} (l : list A) (i : nat) : tail l !! i = l !! (i + 1).
Proof. destruct l; [reflexivity|]. rewrite Nat.add_1_r. reflexivity. Qed.

(** X7.  The rate-law and stoichiometry tables of the reaction loop
    are the loaded sheets without their first row and first column:
    entry [(i, c)] of the data is cell [(i+1, c+1)] of the sheet, and
    the row names are the first column.  The column names however are
    the whole first row of the stoichiometry sheet: column [c] of the
    data is named by cell [(0, c)], not [(0, c+1)]. *)
Theorem reaction_tables_indexing (inp : inputs) (T : reaction_tables)
    (ratelaw_data : list (list string)) :
  load_reactions inp = Ok (T, ratelaw_data) ->
  load_table (Ratelaws_txt inp) = Ok (ratelaw_sheet T)
  /\ exists stoic_sheet,
       load_table (StoicMat_txt inp) = Ok stoic_sheet
       /\ stoic_sheet !! 0 = Some (stoic_columnnames T)
       /\ length ratelaw_data = length (ratelaw_sheet T) - 1
       /\ length (stoic_rownames T) = length stoic_sheet - 1
       /\ length (stoic_data T) = length stoic_sheet - 1
       /\ (forall i c,
             ratelaw_data !! i ≫= (fun r => r !! c)
             = ratelaw_sheet T !! (i + 1) ≫= (fun r => r !! (c + 1)))
       /\ (forall i c,
             stoic_data T !! i ≫= (fun r => r !! c)
             = stoic_sheet !! (i + 1) ≫= (fun r => r !! (c + 1)))
       /\ (forall i name,
             stoic_rownames T !! i = Some name ->
             stoic_sheet !! (i + 1) ≫= (fun r => r !! 0) = Some name).
Proof.
  unfold load_reactions. intros H.
  apply bind_Ok in H as (stoic_sheet & Hstoic & H).
  apply bind_Ok in H as (rsheet & Hrate & H).
  apply bind_Ok in H as (data & Hdata & H). apply np_array_Ok in Hdata as [-> _].
  apply bind_Ok in H as (cols & Hcols & H). apply index_Ok in Hcols.
  apply bind_Ok in H as (names & Hnames & H).
  apply bind_Ok in H as (sdata & Hsdata & H). apply np_array_Ok in Hsdata as [-> _].
  injection H as <- <-. cbn [ratelaw_sheet stoic_columnnames stoic_rownames stoic_data].
  apply (for_each_collect (fun line => index line 0)) in Hnames
    as (ns & -> & Hns); [|reflexivity]. cbn [app].
  split; [exact Hrate|]. exists stoic_sheet.
  split; [exact Hstoic|]. split; [exact Hcols|].
  assert (Htl : forall A (l : list A), length (tail l) = length l - 1).
  { intros A [|a l]; cbn; lia. }
  split; [now rewrite length_map, Htl|].
  split; [now rewrite <- (Forall2_length _ _ _ Hns), Htl|].
  split; [now rewrite length_map, Htl|].
  split; [|split].
  - intros i c. rewrite list_lookup_fmap, lookup_tail.
    destruct (rsheet !! (i + 1)) as [r|]; [|reflexivity]. cbn.
    apply lookup_drop_1.
  - intros i c. rewrite list_lookup_fmap, lookup_tail.
    destruct (stoic_sheet !! (i + 1)) as [r|]; [|reflexivity]. cbn.
    apply lookup_drop_1.
  - intros i name Hi.
    destruct (Forall2_lookup_r _ _ _ _ _ Hns Hi) as (line & Hline & Hidx).
    apply index_Ok in Hidx. rewrite lookup_tail in Hline. now rewrite Hline.
Qed.

(** *** What the synthesis pass can raise *)

Lemma bind_Raise {A B : Type} (r : result A) (k : A -> result B) (e : exn) :
  r ≫= k = Raise e <-> r = Raise e \/ exists a, r = Ok a /\ k a = Raise e.
Proof.
  destruct r as [a|e']; simpl; split.
  - intros H. right. eauto.
  - intros [H | (a' & Ha & H)]; [discriminate|]. injection Ha as Ha. subst a'.
    exact H.
  - intros H. left. congruence.
  - intros [H | (a' & Ha & _)]; [congruence | discriminate].
Qed.

Lemma for_each_Raise {A S : Type} (body : S -> A -> result S) (l : list A) (e : exn) :
  forall s, for_each body l s = Raise e ->
  exists s' a, a ∈ l /\ body s' a = Raise e.
Proof.
  induction l as [|a l IH]; intros s H; [discriminate|].
  rewrite for_each_cons in H. apply bind_Raise in H as [H | (s1 & _ & H)].
  - exists s, a. split; [left | exact H].
  - apply IH in H as (s' & a' & Hin & H). exists s', a'. split; [now right | exact H].
Qed.

Lemma index_Raise {A : Type} (l : list A) (i : nat) (e : exn) :
  index l i = Raise e -> e = IndexError.
Proof. unfold index, or_raise. destruct (l !! i); congruence. Qed.

Lemma or_raise_Raise {A : Type} (e0 e : exn) (o : option A) :
  or_raise e0 o = Raise e -> e = e0.
Proof. unfold or_raise. destruct o; congruence. Qed.

Lemma np_array_Raise {A : Type} (g : list (list A)) (e : exn) :
  np_array g = Raise e -> e = ValueError.
Proof. unfold np_array. destruct (_ || _); congruence. Qed.

Lemma load_table_Raise (f : file) (e : exn) :
  load_table f = Raise e -> e = OSError \/ cell_error e.
Proof.
  intros H.
  apply load_table_Raise_inv in H as [[_ ->] | [[_ ->] | (_ & _ & -> & _)]];
    [now left | right; now right..].
Qed.

(** Splits a hypothesis [_ = Raise e] along the binds, the pairs and
    the tests of the code. *)
Ltac raise_cases H :=
  repeat match type of H with
    | _ ≫= _ = Raise _ =>
        let a := fresh "a" in apply bind_Raise in H as [H | (a & _ & H)]
    | (let '(_, _) := ?x in _) = Raise _ => destruct x
    | (if ?b then _ else _) = Raise _ => destruct b
    | Ok _ = Raise _ => discriminate H
    end.

Ltac raise_leaf H :=
  first
    [ apply index_Raise in H; subst; now left
    | apply or_raise_Raise in H; subst; now right
    | apply np_array_Raise in H; subst; now right ].

Lemma rxn_name_Raise (T : reaction_tables) (rowNum : nat) (e : exn) :
  rxn_name T rowNum = Raise e -> cell_error e.
Proof. unfold rxn_name. intros H. raise_cases H; raise_leaf H. Qed.

Lemma expand_stoic_Raise (T : reaction_tables) (rowNum : nat) (e : exn) :
  expand_stoic T rowNum = Raise e -> cell_error e.
Proof.
  unfold expand_stoic. intros H.
  apply for_each_Raise in H as ([[r p] f] & [i name] & _ & H).
  unfold stoic_step in H. raise_cases H; raise_leaf H.
Qed.

Lemma rate_law_Raise (T : reaction_tables) (rowNum : nat) (ratelaw : list string)
    (f : string) (st : synth) (e : exn) :
  rate_law T rowNum ratelaw f st = Raise e -> cell_error e.
Proof.
  unfold rate_law. intros H. raise_cases H;
    try (raise_leaf H); try (now apply rxn_name_Raise in H).
  apply for_each_Raise in H as ([[f' st'] j] & [q x] & _ & H).
  unfold param_step in H.
  raise_cases H; try (raise_leaf H); now apply rxn_name_Raise in H.
Qed.

Lemma reaction_row_Raise (T : reaction_tables) (st : synth) (x : nat * list string)
    (e : exn) :
  reaction_row T st x = Raise e -> cell_error e.
Proof.
  destruct x as [rowNum ratelaw]. unfold reaction_row. intros H.
  raise_cases H; try (raise_leaf H).
  - now apply expand_stoic_Raise in H.
  - now apply rate_law_Raise in H.
Qed.

(** X8.  However the input tables are malformed, the synthesis pass
    ends in one of three ways only: it completes, a file is missing
    ([OSError]), or a cell is missing ([IndexError]) or a file, a row
    or a cell is not what can be read ([ValueError]).  It raises
    [OSError] only when one of the four table files is missing. *)
Theorem synthesize_raises (inp : inputs) (e : exn) :
  synthesize inp = Raise e ->
  (e = OSError
   /\ (Compartments_txt inp = Missing \/ Species_txt inp = None
       \/ StoicMat_txt inp = Missing \/ Ratelaws_txt inp = Missing))
  \/ cell_error e.
Proof.
  assert (Hload : forall f, load_table f = Raise e ->
                            (e = OSError /\ f = Missing) \/ cell_error e).
  { intros f H.
    apply load_table_Raise_inv in H as [[-> ->] | [[_ ->] | (_ & _ & -> & _)]];
      [now left | right; now right..]. }
  assert (Hlatin : forall o, latin_1 o = Missing -> o = None).
  { intros [l|]; [discriminate | reflexivity]. }
  unfold synthesize. intros H.
  apply bind_Raise in H as [H | ([[[[cs ss] comps] vols] st0] & _ & H)].
  { unfold declarations in H.
    apply bind_Raise in H as [H | (cs & _ & H)].
    { apply Hload in H as [[-> ->] | H]; [left | right]; auto. }
    apply bind_Raise in H as [H | ([comps vols] & _ & H)].
    { apply for_each_Raise in H as ([a b] & row & _ & H).
      right. raise_cases H; raise_leaf H. }
    apply bind_Raise in H as [H | (ss & _ & H)].
    { apply Hload in H as [[-> Hs] | H]; [left | right]; auto. }
    apply bind_Raise in H as [H | (scs & _ & H)].
    { apply for_each_Raise in H as (a & row & _ & H).
      right. raise_cases H; raise_leaf H. }
    apply bind_Raise in H as [H | (st & _ & H)]; [|discriminate].
    apply for_each_Raise in H as (s & [idx val] & _ & H).
    right. raise_cases H; raise_leaf H. }
  apply bind_Raise in H as [H | ([T data] & _ & H)].
  { unfold load_reactions in H.
    apply bind_Raise in H as [H | (stoic & _ & H)].
    { apply Hload in H as [[-> ->] | H]; [left | right]; auto. }
    apply bind_Raise in H as [H | (rsheet & _ & H)].
    { apply Hload in H as [[-> ->] | H]; [left | right]; auto. }
    right. raise_cases H; try (raise_leaf H).
    apply for_each_Raise in H as (a' & row & _ & H).
    raise_cases H; raise_leaf H. }
  right.
  apply bind_Raise in H as [H | (st1 & _ & H)].
  { unfold reactions in H. apply for_each_Raise in H as (s & x & _ & H).
    now apply reaction_row_Raise in H. }
  apply bind_Raise in H as [H | (st2 & _ & H)]; [|discriminate].
  unfold initializations in H.
  apply bind_Raise in H as [H | (s1 & _ & H)].
  { apply for_each_Raise in H as (s & [c v] & _ & H).
    raise_cases H; raise_leaf H. }
  apply bind_Raise in H as [H | (s2 & _ & H)].
  { apply for_each_Raise in H as (s & val & _ & H).
    raise_cases H; raise_leaf H. }
  apply for_each_Raise in H as (s & [count param] & _ & H).
  raise_cases H; raise_leaf H.
Qed.

(** *** The expansion of a stoichiometry column *)

Lemma stoic_step_Ok (T : reaction_tables) (rowNum i : nat) (name : string)
    (acc acc' : list string * list string * string) :
  stoic_step T rowNum acc (i, name) = Ok acc' ->
  exists v, stoic_entry T rowNum i v.
Proof.
  destruct acc as [[r p] f]. unfold stoic_step. intros H.
  apply bind_Ok in H as (line & Hl & H). apply index_Ok in Hl.
  apply bind_Ok in H as (cell & Hc & H). apply index_Ok in Hc.
  apply bind_Ok in H as (v & Hv & _). apply or_raise_Ok in Hv.
  exists v, line, cell. auto.
Qed.

Lemma expand_from_Ok (T : reaction_tables) (rowNum : nat) (names : list string) :
  forall (i : nat) (acc acc' : list string * list string * string),
  for_each (stoic_step T rowNum) (enumerate_from i names) acc = Ok acc' ->
  exists col,
    length col = length names
    /\ forall j v, col !! j = Some v -> stoic_entry T rowNum (i + j) v.
Proof.
  induction names as [|name names IH]; intros i acc acc' H.
  - exists []. split; [reflexivity|]. intros j v Hj. discriminate.
  - cbn [enumerate_from] in H. rewrite for_each_cons in H.
    apply bind_Ok in H as (acc1 & Hstep & H).
    apply stoic_step_Ok in Hstep as [v Hv].
    apply IH in H as (col & Hlen & Hcol).
    exists (v :: col). split; [cbn; now rewrite Hlen|].
    intros [|j] w Hj.
    + injection Hj as <-. now rewrite Nat.add_0_r.
    + replace (i + S j) with (S i + j) by lia. now apply Hcol.
Qed.

Lemma expand_stoic_Ok_column (T : reaction_tables) (rowNum : nat)
    (r : list string * list string * string) :
  expand_stoic T rowNum = Ok r -> exists col, is_column T rowNum col.
Proof.
  unfold expand_stoic, enumerate. intros H.
  apply expand_from_Ok in H as (col & Hlen & Hcol).
  exists col. split; [exact Hlen | exact Hcol].
Qed.

(** X9.  The expansion of a reaction's stoichiometry column succeeds
    exactly when every species row has a cell in that column and each
    cell parses as an integer; it then is the expansion of the parsed
    column. *)
Theorem expand_stoic_iff_column (T : reaction_tables) (rowNum : nat) :
  (exists r, expand_stoic T rowNum = Ok r) <-> exists col, is_column T rowNum col.
Proof.
  split.
  - intros [r H]. now apply expand_stoic_Ok_column in H.
  - intros [col Hcol]. eexists. apply (expand_stoic_column T rowNum col Hcol).
Qed.

Lemma elem_of_repeat {A : Type} (x y : A) (n : nat) :
  x ∈ repeat y n -> x = y /\ 0 < n.
Proof.
  induction n as [|n IH]; cbn [repeat]; intros H.
  - now apply elem_of_nil in H.
  - apply elem_of_cons in H as [-> | H]; [split; [reflexivity | lia]|].
    apply IH in H as [-> _]. split; [reflexivity | lia].
Qed.

Lemma elem_of_expansion (g : Z -> nat) (names : list string) :
  forall (col : list Z) (name : string),
  name ∈ concat (zip_with (fun n v => repeat n (g v)) names col) ->
  exists i v, names !! i = Some name /\ col !! i = Some v /\ 0 < g v.
Proof.
  induction names as [|n names IH]; intros [|v col] name H;
    cbn [zip_with concat] in H; try (now apply elem_of_nil in H).
  apply elem_of_app in H as [H | H].
  - apply elem_of_repeat in H as [-> Hpos]. exists 0, v. auto.
  - apply IH in H as (i & w & Hn & Hc & Hpos). exists (S i), w. auto.
Qed.

(** X10.  When the species names of the stoichiometry table are
    pairwise distinct, no species is both a reactant and a product of
    one reaction: a coefficient puts its species on one side only. *)
Theorem reactant_or_product (T : reaction_tables) (rowNum : nat)
    (reactants products : list string) (formula0 : string) :
  NoDup (stoic_rownames T) ->
  expand_stoic T rowNum = Ok (reactants, products, formula0) ->
  Forall (fun name => name ∉ products) reactants.
Proof.
  intros Hnd H. apply Forall_forall. intros name Hre Hpr.
  destruct (expand_stoic_Ok_column T rowNum _ H) as [col Hcol].
  rewrite (expand_stoic_column T rowNum col Hcol) in H.
  injection H as <- <- _.
  apply (elem_of_expansion (fun v => Z.to_nat (- v))) in Hre
    as (i & v & Hi & Hv & Hneg).
  apply (elem_of_expansion Z.to_nat) in Hpr as (j & w & Hj & Hw & Hpos).
  pose proof (NoDup_lookup _ _ _ _ Hnd Hi Hj) as <-.
  rewrite Hv in Hw. injection Hw as <-. lia.
Qed.

(** *** What the annotator leaves alone, and when it fails *)

Lemma annotate_species_dom (doc doc' : sbml_doc_t) (row : list string) :
  annotate_species doc row = Ok doc' ->
  dom (doc_species doc') = dom (doc_species doc)
  /\ doc_compartments doc' = doc_compartments doc.
Proof.
  unfold annotate_species. intros H.
  apply bind_Ok in H as (id & _ & H). apply bind_Ok in H as (old & Hold & H).
  apply or_raise_Ok in Hold. injection H as <-. cbn. split; [|reflexivity].
  apply dom_insert_lookup_L. eauto.
Qed.

Lemma annotate_compartment_dom (doc doc' : sbml_doc_t) (row : list string) :
  annotate_compartment doc row = Ok doc' ->
  dom (doc_compartments doc') = dom (doc_compartments doc)
  /\ doc_species doc' = doc_species doc.
Proof.
  unfold annotate_compartment. intros H.
  apply bind_Ok in H as (id & _ & H). apply bind_Ok in H as (old & Hold & H).
  apply or_raise_Ok in Hold. apply bind_Ok in H as (a & _ & H).
  injection H as <-. cbn. split; [|reflexivity].
  apply dom_insert_lookup_L. eauto.
Qed.

(** X11.  The annotator neither adds nor removes an entry of the
    document, and it leaves the annotation of every species and
    compartment that no table row names as it was. *)
Theorem annotate_keeps_entries (syn : synthesis) (doc doc' : sbml_doc_t) :
  annotate syn doc = Ok doc' ->
  dom (doc_species doc') = dom (doc_species doc)
  /\ dom (doc_compartments doc') = dom (doc_compartments doc)
  /\ (forall id,
        Forall (fun r => r !! 0 <> Some id) (tail (species_sheet syn)) ->
        doc_species doc' !! id = doc_species doc !! id)
  /\ (forall id,
        Forall (fun r => r !! 0 <> Some id) (tail (compartment_sheet syn)) ->
        doc_compartments doc' !! id = doc_compartments doc !! id).
Proof.
  unfold annotate. intros H. apply bind_Ok in H as (doc1 & Hsp & Hco).
  assert (Hsd : dom (doc_species doc1) = dom (doc_species doc)
                /\ doc_compartments doc1 = doc_compartments doc).
  { apply (for_each_rel
             (fun d d' => dom (doc_species d') = dom (doc_species d)
                          /\ doc_compartments d' = doc_compartments d))
      in Hsp; [exact Hsp | auto | intros ? ? ? [? ?] [? ?]; split; congruence |].
    intros d row d' _ Hstep. now apply annotate_species_dom in Hstep. }
  assert (Hcd : dom (doc_compartments doc') = dom (doc_compartments doc1)
                /\ doc_species doc' = doc_species doc1).
  { apply (for_each_rel
             (fun d d' => dom (doc_compartments d') = dom (doc_compartments d)
                          /\ doc_species d' = doc_species d))
      in Hco; [exact Hco | auto | intros ? ? ? [? ?] [? ?]; split; congruence |].
    intros d row d' _ Hstep. now apply annotate_compartment_dom in Hstep. }
  destruct Hsd as [Hs1 Hc1]. destruct Hcd as [Hc2 Hs2].
  split; [now rewrite Hs2|]. split; [now rewrite Hc2, Hc1|]. split.
  - intros id Hall. rewrite Hs2.
    destruct (species_loop_other _ id _ _ Hsp) as [_ Hsame]. now apply Hsame.
  - intros id Hall. rewrite <- Hc1.
    destruct (compartment_loop_other _ id _ _ Hco) as [_ Hsame]. now apply Hsame.
Qed.

Lemma annotate_species_outcome (doc : sbml_doc_t) (row : list string) :
  row <> [] ->
  (exists doc', annotate_species doc row = Ok doc')
  \/ annotate_species doc row = Raise AttributeError.
Proof.
  destruct row as [|id row]; [congruence|]. intros _. unfold annotate_species.
  change (index (id :: row) 0) with (Ok id). rewrite bind_ret.
  destruct (doc_species doc !! id); cbn; eauto.
Qed.

(** X12.  When a row of the species table names a species that the
    document does not have, the annotator stops with an
    [AttributeError] (no species row being empty): it does not skip
    the row, and no annotation is written back. *)
Theorem annotate_missing_species (syn : synthesis) (doc : sbml_doc_t)
    (row : list string) (id : string) :
  Forall (fun r => r <> []) (tail (species_sheet syn)) ->
  row ∈ tail (species_sheet syn) ->
  row !! 0 = Some id ->
  doc_species doc !! id = None ->
  annotate syn doc = Raise AttributeError.
Proof.
  unfold annotate. generalize (tail (species_sheet syn)) as rows.
  intros rows Hne Hin Hid Hmiss.
  assert (H : for_each annotate_species rows doc = Raise AttributeError);
    [|now rewrite H].
  revert doc Hmiss. induction rows as [|r rows IH]; intros doc Hmiss.
  - now apply elem_of_nil in Hin.
  - inversion Hne as [|? ? Hr Hrest]; subst. rewrite for_each_cons.
    destruct (annotate_species_outcome doc r Hr) as [[doc1 Hstep] | Hstep];
      [|now rewrite Hstep].
    rewrite Hstep, bind_ret.
    apply elem_of_cons in Hin as [<- | Hin].
    + unfold annotate_species in Hstep. unfold index in Hstep.
      rewrite Hid in Hstep. cbn in Hstep. rewrite Hmiss in Hstep. discriminate.
    + apply IH; [exact Hrest | exact Hin|].
      apply annotate_species_dom in Hstep as [Hdom _].
      apply not_elem_of_dom. rewrite Hdom. now apply not_elem_of_dom.
Qed.

Lemma annot_loop_stops (a : list string) :
  forall (blank : string) (b : list string) (Annot : string),
  String.eqb (Py.strip blank) "nan" || String.eqb (Py.strip blank) EmptyString = true ->
  annot_loop (a ++ blank :: b) Annot = annot_loop a Annot.
Proof.
  induction a as [|c a IH]; intros blank b Annot Hb.
  - cbn [app annot_loop]. now rewrite Hb.
  - cbn [app annot_loop].
    destruct (String.eqb (Py.strip c) "nan" || String.eqb (Py.strip c) EmptyString);
      [reflexivity | now apply IH].
Qed.

(** X13.  The annotation of a species row ends at the first column
    (from the fifth on) that is empty or ["nan"] once stripped:
    whatever follows such a column is ignored; and a row of at most
    four columns gets the empty annotation. *)
Theorem species_annotation_ends_at_blank (row : list string) (blank : string)
    (b : list string) :
  (4 <= length row ->
   String.eqb (Py.strip blank) "nan" || String.eqb (Py.strip blank) EmptyString = true ->
   species_annotation (row ++ blank :: b) = species_annotation row)
  /\ (length row <= 4 -> species_annotation row = EmptyString).
Proof.
  unfold species_annotation. split.
  - intros Hlen Hb. rewrite drop_app_le by exact Hlen. now apply annot_loop_stops.
  - intros Hlen. now rewrite drop_ge by exact Hlen.
Qed.

(** *** The observable dictionary and the cytoplasm volume *)

Lemma fold_insert_other (l : list (string * string)) :
  forall (d : gmap string string) (k : string),
  k ∉ l.*1 ->
  fold_left (fun d '(n, f) => <[n := f]> d) l d !! k = d !! k.
Proof.
  induction l as [|[n f] l IH]; intros d k Hk; [reflexivity|].
  cbn [fold_left]. cbn in Hk. apply not_elem_of_cons in Hk as [Hne Hk].
  rewrite IH by exact Hk. now apply lookup_insert_ne.
Qed.

Lemma fold_insert_lookup (l : list (string * string)) :
  forall (d : gmap string string) (k f : string),
  NoDup l.*1 -> (k, f) ∈ l ->
  fold_left (fun d '(n, f) => <[n := f]> d) l d !! k = Some f.
Proof.
  induction l as [|[n g] l IH]; intros d k f Hnd Hin.
  - now apply elem_of_nil in Hin.
  - cbn in Hnd. apply NoDup_cons in Hnd as [Hn Hnd]. cbn [fold_left].
    apply elem_of_cons in Hin as [Heq | Hin].
    + injection Heq as -> ->. rewrite fold_insert_other by exact Hn.
      apply lookup_insert_eq.
    + now apply IH.
Qed.

(** X14.  The dictionary of observables handed to the compiler maps
    the name of every column of the observable matrix to the formula
    built for that column (the column names being distinct), and has
    no other key. *)
Theorem observables_dictionary (syn : synthesis) (ObsMat : ObsMat_t num)
    (formula_obs : list string) (observables : gmap string string) :
  build_observables syn ObsMat = Ok (formula_obs, observables) ->
  NoDup (map fst (ObsMat_columns ObsMat)) ->
  (forall j name col,
     ObsMat_columns ObsMat !! j = Some (name, col) ->
     exists f, formula_obs !! j = Some f /\ observables !! name = Some f)
  /\ (forall name,
        name ∉ map fst (ObsMat_columns ObsMat) -> observables !! name = None).
Proof.
  unfold build_observables. intros H Hnd.
  apply bind_Ok in H as (vc & _ & H). apply bind_Ok in H as (Vc & _ & H).
  apply bind_Ok in H as (species_names & _ & H).
  apply bind_Ok in H as (Vol_names & _ & H).
  apply bind_Ok in H as (Vol_species & _ & H).
  apply bind_Ok in H as ([fo fi] & Hloop & H). injection H as <- <-.
  apply obs_loop_formulas in Hloop as (fs & -> & Hlen & _). cbn [app].
  assert (Hfst : (zip (map fst (ObsMat_columns ObsMat)) fs).*1
                 = map fst (ObsMat_columns ObsMat)).
  { apply fst_zip. rewrite length_map. lia. }
  split.
  - intros j name col Hj.
    destruct (lookup_lt_is_Some_2 fs j) as [f Hf].
    { rewrite Hlen. now apply lookup_lt_Some in Hj. }
    exists f. split; [exact Hf|].
    apply fold_insert_lookup; [now rewrite Hfst|].
    apply list_elem_of_lookup. exists j. apply lookup_zip_with_Some.
    exists name, f. split; [reflexivity|]. split; [|exact Hf].
    now rewrite list_lookup_fmap, Hj.
  - intros name Hname. rewrite fold_insert_other by now rewrite Hfst.
    apply lookup_empty.
Qed.

Lemma rectangular_lengths {A : Type} (r : list A) (g : list (list A)) :
  rectangular (r :: g) = true -> Forall (fun row => length row = length r) (r :: g).
Proof.
  cbn [rectangular]. intros H. constructor; [reflexivity|].
  apply Forall_forall. intros row Hin. rewrite forallb_forall in H.
  apply Nat.eqb_eq, H. now apply list_elem_of_In.
Qed.

Lemma length_omap_second (rows : list (list string)) :
  Forall (fun row => 2 <= length row) rows ->
  length (omap (fun row => row !! 1) rows) = length rows.
Proof.
  induction 1 as [|row rows Hrow _ IH]; [reflexivity|]. cbn [omap list_omap].
  destruct (lookup_lt_is_Some_2 row 1) as [x Hx]; [lia|].
  rewrite Hx. cbn. now rewrite IH.
Qed.

(** X15.  The observable stage needs a two-dimensional compartment
    sheet with exactly one row named [Cytoplasm].  On an empty or
    ragged sheet, or one with a single column, it raises
    [IndexError]; on a rectangular sheet with no such row, or with
    several, it raises [TypeError]. *)
Theorem cytoplasm_row_required (syn : synthesis) (ObsMat : ObsMat_t num) :
  (compartment_sheet syn = []
   \/ rectangular (compartment_sheet syn) = false
   \/ (exists r, head (compartment_sheet syn) = Some r /\ length r < 2) ->
   build_observables syn ObsMat = Raise IndexError)
  /\ (rectangular (compartment_sheet syn) = true ->
      (exists r, head (compartment_sheet syn) = Some r /\ 2 <= length r) ->
      length (filter (fun row => row !! 0 = Some "Cytoplasm") (compartment_sheet syn))
      <> 1 ->
      build_observables syn ObsMat = Raise TypeError).
Proof.
  unfold build_observables, select_volume. split.
  - intros [Hnil | [Hrag | (r & Hr & Hlen)]].
    + now rewrite Hnil.
    + destruct (compartment_sheet syn) as [|r g]; [reflexivity|].
      now rewrite Hrag.
    + destruct (compartment_sheet syn) as [|r' g]; [reflexivity|].
      injection Hr as ->. destruct (rectangular (r :: g)); [|reflexivity].
      cbn [negb]. apply Nat.ltb_lt in Hlen. now rewrite Hlen.
  - intros Hrect (r & Hr & Hlen) Hcount.
    destruct (compartment_sheet syn) as [|r' g] eqn:Hsheet; [discriminate|].
    injection Hr as ->. rewrite Hrect. cbn [negb].
    destruct (Nat.ltb_spec (length r) 2) as [Hlt|_]; [lia|].
    rewrite bind_ret.
    assert (Hl : length (omap (fun row => row !! 1)
                           (filter (fun row => row !! 0 = Some "Cytoplasm") (r :: g)))
                 = length (filter (fun row => row !! 0 = Some "Cytoplasm") (r :: g))).
    { apply length_omap_second.
      apply rectangular_lengths in Hrect.
      apply Forall_forall. intros row Hin.
      apply list_elem_of_filter in Hin as [_ Hin].
      rewrite Forall_forall in Hrect. rewrite (Hrect row Hin). exact Hlen. }
    rewrite <- Hl in Hcount.
    destruct (omap _ _) as [|x [|y l]]; [reflexivity | | reflexivity].
    now contradiction Hcount.
Qed.

(** *** A row's contribution does not depend on the rows before it *)

Lemma param_loop_frame (T : reaction_tables) (rowNum : nat) (ratelaw : list string)
    (params : list num) :
  forall (q j : nat) (f : string) (st : synth) (f' : string) (st' : synth) (j' : nat),
  for_each (param_step T rowNum ratelaw) (enumerate_from q params) (f, st, j)
  = Ok (f', st', j') ->
  exists ps,
    grows st st' [] ps
    /\ forall st2, exists st2',
         for_each (param_step T rowNum ratelaw) (enumerate_from q params) (f, st2, j)
         = Ok (f', st2', j')
         /\ grows st2 st2' [] ps.
Proof.
  induction params as [|x params IH]; intros q j f st f' st' j' H.
  - injection H as <- <- <-. exists []. split; [apply grows_refl|].
    intros st2. exists st2. split; [reflexivity | apply grows_refl].
  - cbn [enumerate_from] in H. rewrite for_each_cons in H.
    apply bind_Ok in H as ([[f1 st1] j1] & Hstep & Hrest).
    unfold param_step in Hstep.
    apply bind_Ok in Hstep as (cell & Hcell & Hstep).
    apply bind_Ok in Hstep as (v & Hv & Hstep).
    apply bind_Ok in Hstep as (rxn & Hrxn & Hstep).
    injection Hstep as <- <- <-. rewrite last_paramname_add in Hrest.
    apply IH in Hrest as (ps & Hg & Hall).
    exists (("k" +:+ Py.str (rowNum + 1) +:+ "_" +:+ Py.str j, v, rxn, q) :: ps).
    split.
    + apply (grows_trans _ _ _ [] [] [_] ps (grows_add_param _ v rxn q st) Hg).
    + intros st2.
      destruct (Hall (add_param ("k" +:+ Py.str (rowNum + 1) +:+ "_" +:+ Py.str j)
                        v rxn q st2)) as (st2' & Hrun & Hg2).
      exists st2'. split.
      * cbn [enumerate_from]. rewrite for_each_cons.
        replace (param_step T rowNum ratelaw (f, st2, j) (q, x))
          with (Ok (substitute (Re.finditer (Re.pattern1 j) f)
                      ("k" +:+ Py.str (rowNum + 1) +:+ "_" +:+ Py.str j) f,
                    add_param ("k" +:+ Py.str (rowNum + 1) +:+ "_" +:+ Py.str j)
                      v rxn q st2, j + 1) : result (string * synth * nat)).
        -- rewrite bind_ret. exact Hrun.
        -- unfold param_step. rewrite Hcell, bind_ret, Hv, bind_ret, Hrxn, bind_ret.
           now rewrite last_paramname_add.
      * apply (grows_trans _ _ _ [] [] [_] ps (grows_add_param _ v rxn q st2) Hg2).
Qed.

Lemma rate_law_frame (T : reaction_tables) (rowNum : nat) (ratelaw : list string)
    (f : string) (st : synth) (f' : string) (st' : synth) :
  rate_law T rowNum ratelaw f st = Ok (f', st') ->
  exists ps,
    grows st st' [] ps
    /\ forall st2, exists st2',
         rate_law T rowNum ratelaw f st2 = Ok (f', st2') /\ grows st2 st2' [] ps.
Proof.
  unfold rate_law. intros H.
  apply bind_Ok in H as (field & Hfield & H).
  destruct (negb (Py.contains "k" field)) eqn:Hk.
  - apply bind_Ok in H as (v & Hv & H). apply bind_Ok in H as (rxn & Hrxn & H).
    injection H as <- <-. eexists. split; [apply grows_add_param|].
    intros st2. eexists. split; [|apply grows_add_param].
    now rewrite Hfield, bind_ret, Hk, Hv, bind_ret, Hrxn, bind_ret.
  - apply bind_Ok in H as (kept & Hkept & H).
    destruct (length (filter _ kept) =? 1)%nat eqn:Hone.
    + apply bind_Ok in H as (cell & Hcell & H). apply bind_Ok in H as (v & Hv & H).
      apply bind_Ok in H as (rxn & Hrxn & H). injection H as <- <-.
      eexists. split; [apply grows_add_param|].
      intros st2. eexists. split; [|apply grows_add_param].
      rewrite Hfield, bind_ret, Hk. cbv zeta. rewrite Hkept, bind_ret, Hone.
      rewrite Hcell, bind_ret, Hv, bind_ret, Hrxn, bind_ret.
      now rewrite !last_paramname_add.
    + apply bind_Ok in H as ([[f1 st1] j1] & Hloop & H). injection H as <- <-.
      apply param_loop_frame in Hloop as (ps & Hg & Hall).
      exists ps. split; [exact Hg|]. intros st2.
      destruct (Hall st2) as (st2' & Hrun & Hg2). exists st2'.
      split; [|exact Hg2].
      rewrite Hfield, bind_ret, Hk. cbv zeta. rewrite Hkept, bind_ret, Hone.
      unfold enumerate in *. now rewrite Hrun, bind_ret.
Qed.

(** X18.  What a reaction row contributes does not depend on the rows
    processed before it, although the parameter lists are shared and
    the substitution reads the last name of [paramnames]: the row,
    processed after any earlier rows, writes the chunks and appends
    the parameters that it writes and appends when processed first. *)
Theorem reaction_row_frame (T : reaction_tables) (st st' : synth)
    (x : nat * list string) :
  reaction_row T st x = Ok st' ->
  exists st0,
    reaction_row T start x = Ok st0
    /\ grows st st' (fileModel st0) (DataFrame st0).
Proof.
  destruct x as [rowNum ratelaw]. unfold reaction_row. intros H.
  apply bind_Ok in H as ([[reactants products] f0] & Hexp & H). rewrite Hexp.
  apply bind_Ok in H as ([f st1] & Hrate & H).
  apply rate_law_frame in Hrate as (ps & Hg & Hall).
  destruct (Hall start) as (s0 & Hrun & Hg0).
  rewrite bind_ret. cbv beta iota. rewrite Hrun, bind_ret. cbv beta iota.
  assert (Hframe : forall out s s', grows start s out ps -> grows st s' out ps ->
                                    grows st s' (fileModel s) (DataFrame s)).
  { intros out s s' (Hf & Hn & Hv & Hr & Hi) Hs. unfold DataFrame.
    rewrite Hf, Hn, Hv, Hr, Hi. cbn [start fileModel paramnames paramvals
                                      paramrxns paramidxs app].
    now rewrite zip_projections. }
  destruct (both_empty reactants products).
  - injection H as <-. exists s0. split; [reflexivity|].
    now apply (Hframe []).
  - apply bind_Ok in H as (name & Hname & H). rewrite Hname.
    apply bind_Ok in H as (comp & Hcomp & H). rewrite Hcomp.
    injection H as <-. eexists. split; [reflexivity|].
    apply (Hframe [reaction_line name reactants products f comp]).
    + rewrite <- (app_nil_r ps).
      apply (grows_trans _ _ _ [] [_] ps [] Hg0 (grows_write _ s0)).
    + rewrite <- (app_nil_r ps).
      apply (grows_trans _ _ _ [] [_] ps [] Hg (grows_write _ st1)).
Qed.

(** *** Templates with one token *)

Lemma match_star_cons (cls : ascii -> bool) (r : list Re.atom) (c : ascii)
    (s : string) :
  Re.match_here (Re.Star cls :: r) (String c s)
  = if cls c
    then match String c <$> Re.match_here (Re.Star cls :: r) s with
         | Some m => Some m
         | None => Re.match_here r (String c s)
         end
    else Re.match_here r (String c s).
Proof. reflexivity. Qed.

Lemma match_star_nil (cls : ascii -> bool) (r : list Re.atom) :
  Re.match_here (Re.Star cls :: r) EmptyString = Re.match_here r EmptyString.
Proof. reflexivity. Qed.

Lemma match_lit_cons (c : ascii) (r : list Re.atom) (c' : ascii) (s : string) :
  Re.match_here (Re.Lit c :: r) (String c' s)
  = if Ascii.eqb c' c then String c' <$> Re.match_here r s else None.
Proof. reflexivity. Qed.

(** The digits of a run followed by no digit are what the last atom
    of the pattern takes. *)
Lemma match_digit_run (ds post : string) :
  all_digits ds = true ->
  (forall c, head_char post = Some c -> Py.isdigit c = false) ->
  Re.match_here [Re.Star Py.isdigit] (ds +:+ post) = Some ds.
Proof.
  intros Hds Hpost. induction ds as [|d ds IH].
  - rewrite app_nil_l_s. destruct post as [|c post]; [reflexivity|].
    rewrite match_star_cons, (Hpost c eq_refl). reflexivity.
  - cbn [all_digits] in Hds. apply andb_true_iff in Hds as [Hd Hds].
    rewrite app_cons_s, match_star_cons, Hd, (IH Hds). reflexivity.
Qed.

Lemma match_token (d : ascii) (ds post : string) :
  all_digits (String d ds) = true ->
  (forall c, head_char post = Some c -> Py.isdigit c = false) ->
  Re.match_here Re.pattern (String "k" (String d ds +:+ post))
  = Some (String "k" (String d ds)).
Proof.
  intros Hds Hpost. unfold Re.pattern.
  rewrite match_lit_cons. change (Ascii.eqb "k" "k") with true. cbv iota.
  rewrite app_cons_s, match_star_cons.
  pose proof Hds as Hd. cbn [all_digits] in Hd. apply andb_true_iff in Hd as [Hd _].
  unfold Re.nondigit at 1. rewrite Hd. cbn [negb].
  rewrite <- app_cons_s, (match_digit_run _ _ Hds Hpost). reflexivity.
Qed.

Lemma finditer_no_k (s : string) :
  Py.contains "k" s = false -> Re.finditer_from Re.pattern 0 s = [].
Proof.
  induction s as [|c s IH]; [reflexivity|]. cbn [Py.contains].
  intros H. apply orb_false_elim in H as [Hc Hs].
  cbn [Re.finditer_from]. unfold Re.pattern at 1.
  rewrite match_lit_cons, Hc. now apply IH.
Qed.

Lemma finditer_skip (r : list Re.atom) (a s : string) :
  Re.finditer_from r (String.length a) (a +:+ s) = Re.finditer_from r 0 s.
Proof.
  induction a as [|c a IH]; [reflexivity|].
  rewrite app_cons_s. cbn [String.length Re.finditer_from]. exact IH.
Qed.

Lemma finditer_token (pre : string) (d : ascii) (ds post : string) :
  Py.contains "k" pre = false ->
  all_digits (String d ds) = true ->
  (forall c, head_char post = Some c -> Py.isdigit c = false) ->
  Py.contains "k" post = false ->
  Re.finditer Re.pattern (pre +:+ String "k" (String d ds) +:+ post)
  = [String "k" (String d ds)].
Proof.
  intros Hpre Hds Hhead Hpost. unfold Re.finditer.
  induction pre as [|c pre IH].
  - rewrite app_nil_l_s, app_cons_s. cbn [Re.finditer_from].
    rewrite (match_token d ds post Hds Hhead).
    change (String.length (String "k" (String d ds)) - 1)
      with (String.length (String d ds)).
    now rewrite finditer_skip, finditer_no_k.
  - cbn [Py.contains] in Hpre. apply orb_false_elim in Hpre as [Hc Hpre].
    rewrite app_cons_s. cbn [Re.finditer_from]. unfold Re.pattern at 1.
    rewrite match_lit_cons, Hc. now apply IH.
Qed.

Lemma startswith_app (old s : string) : Py.startswith old (old +:+ s) = true.
Proof.
  induction old as [|c old IH]; [reflexivity|].
  rewrite app_cons_s. cbn [Py.startswith]. now rewrite Ascii.eqb_refl, IH.
Qed.

Lemma replace_no_k (o new s : string) :
  Py.contains "k" s = false -> Py.replace_from (String "k" o) new 0 s = s.
Proof.
  induction s as [|c s IH]; [reflexivity|]. cbn [Py.contains].
  intros H. apply orb_false_elim in H as [Hc Hs].
  cbn [Py.replace_from Py.startswith]. rewrite Ascii.eqb_sym, Hc. cbn [andb].
  now rewrite (IH Hs).
Qed.

Lemma replace_skip (old new a s : string) :
  Py.replace_from old new (String.length a) (a +:+ s) = Py.replace_from old new 0 s.
Proof.
  induction a as [|c a IH]; [reflexivity|].
  rewrite app_cons_s. cbn [String.length Py.replace_from]. exact IH.
Qed.

Lemma replace_token (pre o post new : string) :
  Py.contains "k" pre = false ->
  Py.contains "k" post = false ->
  Py.replace (String "k" o) new (pre +:+ String "k" o +:+ post)
  = pre +:+ new +:+ post.
Proof.
  intros Hpre Hpost. unfold Py.replace. induction pre as [|c pre IH].
  - rewrite !app_nil_l_s.
    pose proof (startswith_app (String "k" o) post) as Hs.
    rewrite app_cons_s in Hs |- *. cbn [Py.replace_from]. rewrite Hs.
    replace (String.length (String "k" o) - 1) with (String.length o)
      by (cbn [String.length]; lia).
    now rewrite replace_skip, replace_no_k.
  - cbn [Py.contains] in Hpre. apply orb_false_elim in Hpre as [Hc Hpre].
    rewrite !(app_cons_s c). cbn [Py.replace_from Py.startswith].
    rewrite Ascii.eqb_sym, Hc. cbn [andb]. now rewrite (IH Hpre).
Qed.

(** X16.  A one-parameter template in which the parameter token occurs
    once, as [k] followed by digits, and which has no other [k], is
    substituted as intended: the reaction's formula is the template
    with the token replaced by the allocated name [k<row>_1], and that
    one parameter is appended with index 0 and the value of the first
    trailing column. *)
Theorem single_token_substituted (T : reaction_tables) (rowNum : nat)
    (comp pre : string) (d : ascii) (ds post cell : string)
    (trailing : list string) (formula0 : string) (st : synth) (p v : num)
    (rxn : string) :
  Py.contains "k" pre = false ->
  all_digits (String d ds) = true ->
  (forall c, head_char post = Some c -> Py.isdigit c = false) ->
  Py.contains "k" post = false ->
  filter (fun p => negb (isnan p)) <$> genfromtxt (cell :: trailing) = Some [p] ->
  py_float cell = Some v ->
  rxn_name T rowNum = Ok rxn ->
  let name := "k" +:+ Py.str (rowNum + 1) +:+ "_" +:+ Py.str 1 in
  rate_law T rowNum
    (comp :: (pre +:+ String "k" (String d ds) +:+ post) :: cell :: trailing)
    formula0 st
  = Ok (pre +:+ name +:+ post, add_param name v rxn 0 st).
Proof.
  intros Hpre Hds Hhead Hpost Hparams Hv Hrxn name. unfold rate_law.
  set (formula := pre +:+ String "k" (String d ds) +:+ post).
  change (index (comp :: formula :: cell :: trailing) 1) with (Ok formula).
  rewrite bind_ret.
  assert (Hk : Py.contains "k" formula = true).
  { unfold formula. rewrite contains_app. apply orb_true_iff. right.
    rewrite app_cons_s. reflexivity. }
  rewrite Hk. cbn [negb].
  change (drop 2 (comp :: formula :: cell :: trailing)) with (cell :: trailing).
  destruct (genfromtxt (cell :: trailing)) as [kept|]; [|discriminate].
  injection Hparams as Hparams. cbn [or_raise]. rewrite bind_ret.
  rewrite Hparams. cbn [length Nat.eqb].
  change (index (comp :: formula :: cell :: trailing) (1 + 1)) with (Ok cell).
  rewrite bind_ret, Hv. cbn [or_raise]. rewrite bind_ret, Hrxn, bind_ret.
  rewrite last_paramname_add. fold name. unfold formula.
  rewrite (finditer_token pre d ds post Hpre Hds Hhead Hpost).
  unfold substitute. cbn [fold_left].
  now rewrite (replace_token pre (String d ds) post name Hpre Hpost).
Qed.

(** X17.  A templated row for which [genfromtxt] keeps no number
    allocates no parameter and leaves the template as it is: the
    tokens of its formula stay unresolved. *)
Theorem templated_without_values (T : reaction_tables) (rowNum : nat)
    (comp field : string) (trailing : list string) (formula0 : string)
    (st : synth) :
  Py.contains "k" field = true ->
  filter (fun p => negb (isnan p)) <$> genfromtxt trailing = Some [] ->
  rate_law T rowNum (comp :: field :: trailing) formula0 st = Ok (field, st).
Proof.
  intros Hk Hparams. unfold rate_law.
  change (index (comp :: field :: trailing) 1) with (Ok field).
  rewrite bind_ret, Hk. cbn [negb].
  change (drop 2 (comp :: field :: trailing)) with trailing.
  destruct (genfromtxt trailing) as [kept|]; [|discriminate].
  injection Hparams as Hparams. cbn [or_raise]. rewrite bind_ret.
  rewrite Hparams. reflexivity.
Qed.

End CreateModel.

(** ** The theorems at the sample network *)

Lemma sample_column_R1 : is_column Sample.py_int Sample.T 0 [(-1)%Z; 0%Z].
Proof.
  split; [reflexivity|].
  intros [|[|i]] v Hv; try discriminate; injection Hv as <-.
  - exists ["-1"; "-2"; "0"], "-1". repeat split.
  - exists ["0"; "1"; "0"], "0". repeat split.
Defined.

Lemma mass_action_row_witness :
  Py.contains "k" "2" = false
  /\ Sample.py_float "2" = Some (Some 2%Z)
  /\ rxn_name Sample.T 0 = Ok "R1"
  /\ is_column Sample.py_int Sample.T 0 [(-1)%Z; 0%Z]
  /\ exists st1,
       paramnames st1 = ["k1"] /\ paramvals st1 = [Some 2%Z]
       /\ paramidxs st1 = [0]
       /\ reaction_row Sample.num Sample.py_float Sample.py_float Sample.py_int
            Sample.genfromtxt Sample.isnan Sample.T (start Sample.num)
            (0, ["Cytoplasm"; "2"])
          = Ok (write Sample.num ("  R1: S1 => ; (k1*S1)*Cytoplasm;" +:+ nl) st1).
Proof.
  split; [reflexivity|]. split; [reflexivity|]. split; [reflexivity|].
  split; [exact sample_column_R1|].
  destruct (mass_action_row Sample.num Sample.py_float Sample.py_float
              Sample.py_int Sample.genfromtxt Sample.isnan Sample.T
              (start Sample.num) 0 "Cytoplasm" "2" [] (Some 2%Z) "R1"
              [(-1)%Z; 0%Z] eq_refl eq_refl eq_refl sample_column_R1)
    as (st1 & Hn & Hv & Hr & Hi & Hf & Hrow).
  exists st1. split; [exact Hn|]. split; [exact Hv|]. split; [exact Hi|].
  exact Hrow.
Defined.

Lemma templated_formula_twice_replaced_witness :
  Sample.genfromtxt ["3"] = Some [Some 3%Z]
  /\ Sample.isnan (Some 3%Z) = false
  /\ Sample.py_float "3" = Some (Some 3%Z)
  /\ rxn_name Sample.T 0 = Ok "R1"
  /\ rate_law Sample.num Sample.py_float Sample.py_float Sample.genfromtxt
       Sample.isnan Sample.T 0 ["Cytoplasm"; "k1*S1/(k1+S1)"; "3"] "k1*"
       (start Sample.num)
     = Ok ("k1_1_1*S1/(k1_1_1+S1)",
           add_param Sample.num "k1_1" (Some 3%Z) "R1" 0 (start Sample.num)).
Proof.
  split; [reflexivity|]. split; [reflexivity|]. split; [reflexivity|].
  split; [reflexivity|].
  exact (proj2 (templated_formula_twice_replaced Sample.num Sample.py_float
                  Sample.py_float Sample.genfromtxt Sample.isnan Sample.T
                  (start Sample.num) "Cytoplasm" "k1*" (Some 3%Z) "R1"
                  eq_refl eq_refl eq_refl eq_refl)).
Defined.

Lemma observable_formula_witness :
  exists formula_obs observables,
    build_observables Sample.num Sample.py_float Sample.float_str Sample.fdiv
      Sample.fmul Sample.gt0 Sample.sheets
      {| ObsMat_index := ["S1"; "S2"];
         ObsMat_columns := [("total", [Some 1%Z; Some 2%Z]);
                            ("first", [Some 1%Z; Some 0%Z])] |}
    = Ok (formula_obs, observables)
    /\ formula_obs = ["S1*1+S2*6"; "S1*1"]
    /\ length formula_obs = 2.
Proof.
  eexists _, _. split; [vm_compute; reflexivity|]. split; [reflexivity|].
  match goal with
  | |- length ?fo = _ =>
      destruct (observable_formula Sample.num Sample.py_float Sample.float_str
                  Sample.fdiv Sample.fmul Sample.gt0 Sample.sheets
                  {| ObsMat_index := ["S1"; "S2"];
                     ObsMat_columns := [("total", [Some 1%Z; Some 2%Z]);
                                        ("first", [Some 1%Z; Some 0%Z])] |}
                  fo _ ltac:(vm_compute; reflexivity))
        as (x & Vc & Vol & _ & _ & _ & Hlen & _)
  end.
  exact Hlen.
Defined.

Lemma reaction_line_iff_nonempty_witness :
  exists st',
    reactions Sample.num Sample.py_float Sample.py_float Sample.py_int
      Sample.genfromtxt Sample.isnan Sample.T Sample.ratelaw_data
      (start Sample.num) = Ok st'
    /\ exists outs, fileModel st' = concat outs /\ length outs = 3.
Proof.
  eexists. split; [reflexivity|].
  destruct (reaction_line_iff_nonempty Sample.num Sample.py_float Sample.py_float
              Sample.py_int Sample.genfromtxt Sample.isnan Sample.T
              Sample.ratelaw_data (start Sample.num) _ eq_refl)
    as (outs & Hf & Hlen & _).
  exists outs. split; [exact Hf | exact Hlen].
Defined.

Lemma paramnames_unique_witness :
  exists syn,
    synthesize Sample.num Sample.py_float Sample.py_float Sample.py_int
      Sample.genfromtxt Sample.isnan Sample.float_str true Sample.inp = Ok syn
    /\ paramnames (model syn) = ["k1"; "k2_1"; "k2_2"; "k3_1"]
    /\ NoDup (paramnames (model syn)).
Proof.
  eexists. split; [vm_compute; reflexivity|]. split; [reflexivity|].
  refine (paramnames_unique Sample.num Sample.py_float Sample.py_float
            Sample.py_int Sample.genfromtxt Sample.isnan Sample.float_str true
            Sample.inp _ _).
  vm_compute. reflexivity.
Defined.

Lemma load_table_strips_whitespace_witness :
  let lines := [Sample.line [""; "R1"; "R2"]; Sample.line ["S1"; "-1"; "0"]] in
  let grid := [["R1"; "R2"]; ["S1"; "-1"; "0"]] in
  load_table true (Lines lines) = Ok grid
  /\ length grid = length lines
  /\ exists row pre post,
       grid !! 0 = Some row
       /\ Forall (fun field => Py.contains tab field = false) row
       /\ Py.join (String tab EmptyString) row = Py.strip (Sample.line [""; "R1"; "R2"])
       /\ Sample.line [""; "R1"; "R2"]
          = pre +:+ Py.strip (Sample.line [""; "R1"; "R2"]) +:+ post
       /\ all_space pre = true /\ all_space post = true.
Proof.
  intros lines grid. split; [reflexivity|].
  destruct (proj2 (proj2 (load_table_strips_whitespace true (Lines lines) lines grid))
              eq_refl) as [_ Hgrid].
  destruct (Hgrid eq_refl) as (Hlen & _ & Hrows).
  split; [exact Hlen|].
  destruct (Hrows 0 (Sample.line [""; "R1"; "R2"]) eq_refl)
    as (row & pre & post & Hrow & _ & Htab & Hjoin & Hline & Hpre & Hpost & _).
  exists row, pre, post. repeat split; assumption.
Defined.

Lemma annotations_from_rows_witness :
  exists doc',
    annotate Sample.num Sample.sheets Sample.doc = Ok doc'
    /\ doc_species doc' !! "S1" = Some " HGNC:1 P1"
    /\ doc_species doc' !! "S2" = Some " HGNC:2"
    /\ exists a, doc_compartments doc' !! "Nucleus" = Some a /\ a = "GO:0005634".
Proof.
  eexists. split; [reflexivity|].
  destruct (annotations_from_rows Sample.num Sample.sheets Sample.doc _ eq_refl)
    as [Hsp Hco].
  split; [|split].
  - exact (Hsp [] ["S1"; "Cytoplasm"; "100"; "x"; "HGNC:1"; "P1"]
             [["S2"; "Nucleus"; "0"; "y"; "HGNC:2"; "nan"]] "S1" eq_refl eq_refl
             ltac:(repeat constructor; discriminate)).
  - exact (Hsp [["S1"; "Cytoplasm"; "100"; "x"; "HGNC:1"; "P1"]]
             ["S2"; "Nucleus"; "0"; "y"; "HGNC:2"; "nan"] [] "S2" eq_refl eq_refl
             ltac:(constructor)).
  - destruct (Hco [["Cytoplasm"; "5"; "GO:0005737"]]
                ["Nucleus"; "15"; "GO:0005634"] [] "Nucleus" eq_refl eq_refl
                ltac:(constructor)) as (a & Ha & Hdoc).
    exists a. split; [exact Hdoc|]. injection Ha as <-. reflexivity.
Defined.

Lemma empty_row_params_recorded_witness :
  exists syn,
    synthesize Sample.num Sample.py_float Sample.py_float Sample.py_int
      Sample.genfromtxt Sample.isnan Sample.float_str true Sample.inp = Ok syn
    /\ load_reactions Sample.num true Sample.inp = Ok (Sample.T, Sample.ratelaw_data)
    /\ Sample.ratelaw_data !! 2 = Some ["Nucleus"; "k1*S1"; "5"]
    /\ expand_stoic Sample.py_int Sample.T 2 = Ok ([], [], "k3*")
    /\ exists st st' ps,
         reaction_row Sample.num Sample.py_float Sample.py_float Sample.py_int
           Sample.genfromtxt Sample.isnan Sample.T st (2, ["Nucleus"; "k1*S1"; "5"])
         = Ok st'
         /\ fileModel st' = fileModel st
         /\ paramnames st' = paramnames st ++ map (pname Sample.num) ps
         /\ allocates Sample.num Sample.py_float Sample.py_float Sample.genfromtxt
              Sample.isnan Sample.T 2 ["Nucleus"; "k1*S1"; "5"] ps
         /\ forall p, p ∈ ps ->
              p ∈ params_all syn
              /\ init_line Sample.num Sample.float_str (pname Sample.num p)
                   (pval Sample.num p) ∈ fileModel (model syn).
Proof.
  eexists. split; [vm_compute; reflexivity|].
  split; [vm_compute; reflexivity|]. split; [reflexivity|].
  split; [vm_compute; reflexivity|].
  match goal with
  | |- context [params_all ?syn] =>
      destruct (empty_row_params_recorded Sample.num Sample.py_float
                  Sample.py_float Sample.py_int Sample.genfromtxt Sample.isnan
                  Sample.float_str true Sample.inp syn Sample.T
                  Sample.ratelaw_data 2 ["Nucleus"; "k1*S1"; "5"] "k3*")
        as (st & st' & st1 & ps & Hpass & Hf & Hn & _ & _ & _ & Hall & Hps);
        [vm_compute; reflexivity..|]
  end.
  destruct Hpass as (cs & ss & comps & vols & st0 & st2 & _ & _ & Hrow & _).
  exists st, st', ps. split; [exact Hrow|]. split; [exact Hf|].
  split; [exact Hn|]. split; [exact Hall|]. intros p Hp.
  destruct (Hps p Hp) as (_ & _ & Hin & Hline). auto.
Defined.

Lemma empty_observable_column_witness :
  length [Some 10%Z; Some 20%Z] = length [Some 0%Z; Some 0%Z]
  /\ positive_rows Sample.num Sample.gt0 ["S1"; "S2"] [Some 10%Z; Some 20%Z]
       [Some 0%Z; Some 0%Z] = []
  /\ for_each (obs_step Sample.num Sample.float_str Sample.fdiv Sample.fmul
                 Sample.gt0 ["S1"; "S2"] [Some 10%Z; Some 20%Z] (Some 5%Z))
       [("none", [Some 0%Z; Some 0%Z]); ("total", [Some 1%Z; Some 2%Z])]
       ([], None)
     = Raise NameError
  /\ exists f,
       f = "S1*2+S2*8"
       /\ for_each (obs_step Sample.num Sample.float_str Sample.fdiv Sample.fmul
                      Sample.gt0 ["S1"; "S2"] [Some 10%Z; Some 20%Z] (Some 5%Z))
            ([("total", [Some 1%Z; Some 2%Z])] ++ [("none", [Some 0%Z; Some 0%Z])])
            ([], None)
          = Ok (["S1*2+S2*8"] ++ [f], Some f).
Proof.
  split; [reflexivity|]. split; [reflexivity|].
  destruct (empty_observable_column Sample.num Sample.float_str Sample.fdiv
              Sample.fmul Sample.gt0 ["S1"; "S2"] [Some 10%Z; Some 20%Z]
              [Some 0%Z; Some 0%Z] (Some 5%Z) "none" eq_refl eq_refl)
    as [Hfirst Hlater].
  split; [exact (Hfirst [("total", [Some 1%Z; Some 2%Z])])|].
  destruct (Hlater [("total", [Some 1%Z; Some 2%Z])] ["S1*2+S2*8"]
              (Some "S1*2+S2*8") ltac:(discriminate) eq_refl)
    as (f & Hlast & Hrun).
  exists f. split; [|exact Hrun]. injection Hlast as <-. reflexivity.
Defined.

(** ** Where the code departs from the specification's wording *)

(** C3, as the specification words it, fails when the observable matrix
    lists the species in another order than the species table.  The
    row labelled [S2] comes first; the species [S2] is in the nucleus,
    of volume 15, so that the specification's term is [S2*3]; the code
    pairs the label with the volume of the first species of the table,
    [S1] in the cytoplasm, of volume 5, and writes [S2*1]. *)
Lemma observable_volume_by_position :
  let ObsMat := {| ObsMat_index := ["S2"; "S1"];
                   ObsMat_columns := [("first", [Some 1%Z; Some 0%Z])] |} in
  build_observables Sample.num Sample.py_float Sample.float_str
    Sample.fdiv Sample.fmul Sample.gt0 Sample.sheets ObsMat
  = Ok (["S2*1"], {[ "first" := "S2*1" ]})
  /\ spec_per_species Sample.num Sample.py_float Sample.float_str Sample.fdiv
       Sample.fmul Sample.sheets (Some 5%Z) "S2" (Some 1%Z)
     = Ok "S2*3"
  /\ select_volume Sample.sheets.(compartment_sheet) "Cytoplasm" = Ok ["5"]
  /\ "S2*1" <> "S2*3".
Proof.
  split; [vm_compute; reflexivity|]. split; [vm_compute; reflexivity|].
  split; [reflexivity | discriminate].
Qed.

(** C6, as the specification words it, fails on a header line with an
    empty first field: the code takes the leading tab off with the line
    terminator, so the row has two fields, not three. *)
Lemma load_table_strips_more_than_terminators :
  load_table true (Lines [Sample.line [""; "R1"; "R2"]]) = Ok [["R1"; "R2"]]
  /\ load_table false (Lines [Sample.line [""; "R1"; "R2"]]) = Ok [["R1"; "R2"]]
  /\ spec_load_table (Lines [Sample.line [""; "R1"; "R2"]]) = Ok [[""; "R1"; "R2"]]
  /\ load_table true (Lines [Sample.line [""; "R1"; "R2"]])
     <> spec_load_table (Lines [Sample.line [""; "R1"; "R2"]]).
Proof. repeat split. discriminate. Qed.

(** C7, as the specification words it, fails on a species row with two
    columns after the initial value: the code starts at the fifth
    column, so the fourth is not part of the annotation. *)
Lemma species_annotation_skips_fourth_column :
  species_annotation ["S1"; "Cytoplasm"; "100"; "HGNC:1"; "P1"] = " P1"
  /\ spec_species_annotation ["S1"; "Cytoplasm"; "100"; "HGNC:1"; "P1"]
     = " HGNC:1 P1"
  /\ species_annotation ["S1"; "Cytoplasm"; "100"; "HGNC:1"; "P1"]
     <> spec_species_annotation ["S1"; "Cytoplasm"; "100"; "HGNC:1"; "P1"].
Proof. repeat split. discriminate. Qed.

(** ** The further properties at sample inputs *)

Lemma load_table_reads_back_witness :
  Forall (fun row =>
            row <> []
            /\ Forall (fun f => Py.contains tab f = false
                                /\ Py.contains newline f = false) row
            /\ trimmed (Py.join (String tab EmptyString) row) = true)
    [["S1"; "-1"; "0"]; ["S2"; ""; "1"]]
  /\ rectangular [["S1"; "-1"; "0"]; ["S2"; ""; "1"]] || false = true
  /\ load_table false
       (Lines (map Sample.line [["S1"; "-1"; "0"]; ["S2"; ""; "1"]]))
     = Ok [["S1"; "-1"; "0"]; ["S2"; ""; "1"]].
Proof.
  assert (H : Forall (fun row =>
                        row <> []
                        /\ Forall (fun f => Py.contains tab f = false
                                /\ Py.contains newline f = false) row
                        /\ trimmed (Py.join (String tab EmptyString) row) = true)
                [["S1"; "-1"; "0"]; ["S2"; ""; "1"]]).
  { repeat constructor; discriminate. }
  split; [exact H|]. split; [reflexivity|].
  exact (load_table_reads_back false _ H eq_refl).
Defined.

Lemma loaded_rows_keep_no_empty_ends_witness :
  load_table true (Lines [Sample.line [""; "R1"; ""; "R3"; ""]; nl])
  = Ok [["R1"; ""; "R3"]; [""]]
  /\ ["R1"; ""; "R3"] ∈ [["R1"; ""; "R3"]; [""]]
  /\ (["R1"; ""; "R3"] = [EmptyString]
      \/ (head ["R1"; ""; "R3"] <> Some EmptyString
          /\ last ["R1"; ""; "R3"] <> Some EmptyString)).
Proof.
  split; [reflexivity|]. split; [left|].
  apply (loaded_rows_keep_no_empty_ends true
           (Lines [Sample.line [""; "R1"; ""; "R3"; ""]; nl])
           [["R1"; ""; "R3"]; [""]] ["R1"; ""; "R3"] eq_refl).
  left.
Defined.

Lemma model_text_layout_witness :
  exists syn,
    synthesize Sample.num Sample.py_float Sample.py_float Sample.py_int
      Sample.genfromtxt Sample.isnan Sample.float_str true Sample.inp = Ok syn
    /\ exists comp_decls species_decls rxn_lines comp_inits species_inits,
         fileModel (model syn)
         = model_layout Sample.num Sample.float_str comp_decls species_decls
             rxn_lines comp_inits species_inits (params_all syn)
         /\ length comp_decls = 2 /\ length species_decls = 2
         /\ length comp_inits = 2 /\ length species_inits = 2.
Proof.
  eexists. split; [vm_compute; reflexivity|].
  match goal with
  | |- context [params_all ?syn] =>
      destruct (model_text_layout Sample.num Sample.py_float Sample.py_float
                  Sample.py_int Sample.genfromtxt Sample.isnan Sample.float_str
                  true Sample.inp syn)
        as (_ & _ & cd & sd & rl & ci & si & Hf & Hcd & Hsd & Hci & Hsi);
        [vm_compute; reflexivity|]
  end.
  exists cd, sd, rl, ci, si. split; [exact Hf|].
  apply Forall2_length in Hcd, Hsd, Hci, Hsi. cbn in Hcd, Hsd, Hci, Hsi. auto.
Defined.

Lemma parameter_frame_columns_witness :
  exists syn,
    synthesize Sample.num Sample.py_float Sample.py_float Sample.py_int
      Sample.genfromtxt Sample.isnan Sample.float_str true Sample.inp = Ok syn
    /\ paramnames (model syn) = map (pname Sample.num) (params_all syn)
    /\ paramidxs (model syn) = map (pidx Sample.num) (params_all syn).
Proof.
  eexists. split; [vm_compute; reflexivity|].
  match goal with
  | |- context [params_all ?syn] =>
      destruct (parameter_frame_columns Sample.num Sample.py_float Sample.py_float
                  Sample.py_int Sample.genfromtxt Sample.isnan Sample.float_str
                  true Sample.inp syn)
        as (Hn & _ & _ & Hi); [vm_compute; reflexivity|]
  end.
  split; [exact Hn | exact Hi].
Defined.

Lemma exported_parameter_owner_witness :
  exists syn,
    synthesize Sample.num Sample.py_float Sample.py_float Sample.py_int
      Sample.genfromtxt Sample.isnan Sample.float_str true Sample.inp = Ok syn
    /\ load_reactions Sample.num true Sample.inp = Ok (Sample.T, Sample.ratelaw_data)
    /\ ("k2_2", Some 4%Z, "R2", 1) ∈ params_all syn
    /\ exists rowNum line,
         rowNum < 3
         /\ ratelaw_sheet Sample.T !! (rowNum + 1) = Some line
         /\ line !! 0 = Some "R2".
Proof.
  eexists. split; [vm_compute; reflexivity|].
  split; [vm_compute; reflexivity|].
  assert (Hin : ("k2_2", Some 4%Z, "R2", 1)
                ∈ [("k1", Some 2%Z, "R1", 0); ("k2_1", Some 3%Z, "R2", 0);
                   ("k2_2", Some 4%Z, "R2", 1); ("k3_1", Some 5%Z, "R3", 0)]).
  { do 2 right. left. }
  split; [exact Hin|].
  match goal with
  | |- context [ratelaw_sheet] =>
      destruct (exported_parameter_owner Sample.num Sample.py_float Sample.py_float
                  Sample.py_int Sample.genfromtxt Sample.isnan Sample.float_str
                  true Sample.inp _ Sample.T Sample.ratelaw_data
                  ("k2_2", Some 4%Z, "R2", 1)
                  ltac:(vm_compute; reflexivity) ltac:(vm_compute; reflexivity) Hin)
        as (rowNum & line & Hlt & Hl & Hr & _)
  end.
  exists rowNum, line. auto.
Defined.

Lemma reaction_tables_indexing_witness :
  load_reactions Sample.num true Sample.inp = Ok (Sample.T, Sample.ratelaw_data)
  /\ exists stoic_sheet : list (list string),
       stoic_sheet !! 0 = Some ["R1"; "R2"; "R3"]
       /\ stoic_data Sample.T !! 0 ≫= (fun r => r !! 1)
          = stoic_sheet !! 1 ≫= (fun r => r !! 2).
Proof.
  assert (H : load_reactions Sample.num true Sample.inp
              = Ok (Sample.T, Sample.ratelaw_data)) by (vm_compute; reflexivity).
  split; [exact H|].
  destruct (reaction_tables_indexing Sample.num true Sample.inp Sample.T
              Sample.ratelaw_data H)
    as (_ & sheet & _ & Hcols & _ & _ & _ & _ & Hdata & _).
  exists sheet. split; [exact Hcols | exact (Hdata 0 1)].
Defined.

Lemma synthesize_raises_witness :
  let inp :=
    {| Compartments_txt := Compartments_txt Sample.inp;
       Species_txt := Species_txt Sample.inp;
       StoicMat_txt := Missing;
       Ratelaws_txt := Ratelaws_txt Sample.inp;
       Observables_txt := Observables_txt Sample.inp |} in
  synthesize Sample.num Sample.py_float Sample.py_float Sample.py_int
    Sample.genfromtxt Sample.isnan Sample.float_str true inp = Raise OSError
  /\ ((OSError = OSError
       /\ (Compartments_txt inp = Missing \/ Species_txt inp = None
           \/ StoicMat_txt inp = Missing \/ Ratelaws_txt inp = Missing))
      \/ cell_error OSError).
Proof.
  intros inp.
  assert (H : synthesize Sample.num Sample.py_float Sample.py_float Sample.py_int
                Sample.genfromtxt Sample.isnan Sample.float_str true inp
              = Raise OSError) by (vm_compute; reflexivity).
  split; [exact H|].
  exact (synthesize_raises Sample.num Sample.py_float Sample.py_float
           Sample.py_int Sample.genfromtxt Sample.isnan Sample.float_str true
           inp OSError H).
Defined.

Lemma reactant_or_product_witness :
  NoDup (stoic_rownames Sample.T)
  /\ expand_stoic Sample.py_int Sample.T 1 = Ok (["S1"; "S1"], ["S2"], "k2*S1*S1*")
  /\ Forall (fun name => name ∉ ["S2"]) ["S1"; "S1"].
Proof.
  assert (Hnd : NoDup (stoic_rownames Sample.T)).
  { apply NoDup_cons. split; [|apply NoDup_singleton].
    intros H. apply list_elem_of_singleton in H. discriminate. }
  split; [exact Hnd|]. split; [reflexivity|].
  exact (reactant_or_product Sample.py_int Sample.T 1 _ _ _ Hnd eq_refl).
Defined.

Lemma annotate_keeps_entries_witness :
  exists doc',
    annotate Sample.num Sample.sheets Sample.doc = Ok doc'
    /\ dom (doc_species doc') = dom (doc_species Sample.doc)
    /\ dom (doc_compartments doc') = dom (doc_compartments Sample.doc).
Proof.
  eexists. split; [vm_compute; reflexivity|].
  match goal with
  | |- dom (doc_species ?d) = _ /\ _ =>
      destruct (annotate_keeps_entries Sample.num Sample.sheets Sample.doc d)
        as (Hs & Hc & _); [vm_compute; reflexivity|]
  end.
  split; [exact Hs | exact Hc].
Defined.

Lemma annotate_missing_species_witness :
  let doc :=
    {| doc_species := {[ "S1" := EmptyString ]};
       doc_compartments := doc_compartments Sample.doc |} in
  Forall (fun r => r <> []) (tail (species_sheet Sample.sheets))
  /\ ["S2"; "Nucleus"; "0"; "y"; "HGNC:2"; "nan"] ∈ tail (species_sheet Sample.sheets)
  /\ doc_species doc !! "S2" = None
  /\ annotate Sample.num Sample.sheets doc = Raise AttributeError.
Proof.
  intros doc.
  assert (Hne : Forall (fun r : list string => r <> [])
                  (tail (species_sheet Sample.sheets))).
  { repeat constructor; discriminate. }
  assert (Hin : ["S2"; "Nucleus"; "0"; "y"; "HGNC:2"; "nan"]
                ∈ tail (species_sheet Sample.sheets)).
  { right. left. }
  split; [exact Hne|]. split; [exact Hin|]. split; [reflexivity|].
  exact (annotate_missing_species Sample.num Sample.sheets doc _ "S2" Hne Hin
           eq_refl eq_refl).
Defined.

Lemma species_annotation_ends_at_blank_witness :
  4 <= length ["S1"; "Cytoplasm"; "100"; "x"; "HGNC:1"]
  /\ String.eqb (Py.strip " ") "nan" || String.eqb (Py.strip " ") EmptyString = true
  /\ species_annotation (["S1"; "Cytoplasm"; "100"; "x"; "HGNC:1"] ++ " " :: ["P1"])
     = species_annotation ["S1"; "Cytoplasm"; "100"; "x"; "HGNC:1"]
  /\ length ["S1"; "Cytoplasm"; "100"; "x"] <= 4
  /\ species_annotation ["S1"; "Cytoplasm"; "100"; "x"] = EmptyString.
Proof.
  assert (Hlen : 4 <= length ["S1"; "Cytoplasm"; "100"; "x"; "HGNC:1"])
    by (cbn; lia).
  assert (Hlen' : length ["S1"; "Cytoplasm"; "100"; "x"] <= 4) by (cbn; lia).
  split; [exact Hlen|]. split; [reflexivity|]. split.
  - exact (proj1 (species_annotation_ends_at_blank
                    ["S1"; "Cytoplasm"; "100"; "x"; "HGNC:1"] " " ["P1"])
             Hlen eq_refl).
  - split; [exact Hlen'|].
    exact (proj2 (species_annotation_ends_at_blank
                    ["S1"; "Cytoplasm"; "100"; "x"] " " []) Hlen').
Defined.

Lemma observables_dictionary_witness :
  exists formula_obs observables,
    build_observables Sample.num Sample.py_float Sample.float_str Sample.fdiv
      Sample.fmul Sample.gt0 Sample.sheets
      {| ObsMat_index := ["S1"; "S2"];
         ObsMat_columns := [("total", [Some 1%Z; Some 2%Z]);
                            ("first", [Some 1%Z; Some 0%Z])] |}
    = Ok (formula_obs, observables)
    /\ NoDup ["total"; "first"]
    /\ exists f, formula_obs !! 1 = Some f /\ observables !! "first" = Some f.
Proof.
  assert (Hnd : NoDup ["total"; "first"]).
  { apply NoDup_cons. split; [|apply NoDup_singleton].
    intros H. apply list_elem_of_singleton in H. discriminate. }
  eexists _, _. split; [vm_compute; reflexivity|]. split; [exact Hnd|].
  match goal with
  | |- exists f, ?fo !! 1 = Some f /\ ?d !! _ = Some f =>
      destruct (observables_dictionary Sample.num Sample.py_float Sample.float_str
                  Sample.fdiv Sample.fmul Sample.gt0 Sample.sheets
                  {| ObsMat_index := ["S1"; "S2"];
                     ObsMat_columns := [("total", [Some 1%Z; Some 2%Z]);
                                        ("first", [Some 1%Z; Some 0%Z])] |}
                  fo d ltac:(vm_compute; reflexivity) Hnd) as [Hcols _]
  end.
  exact (Hcols 1 "first" [Some 1%Z; Some 0%Z] eq_refl).
Defined.

Lemma cytoplasm_row_required_witness :
  let syn :=
    {| compartment_sheet := [["name"; "volume"]; ["Nucleus"; "15"]];
       species_sheet := species_sheet Sample.sheets;
       model := model Sample.sheets;
       params_all := params_all Sample.sheets |} in
  let ObsMat := {| ObsMat_index := ["S1"; "S2"]; ObsMat_columns := [] |} in
  rectangular (compartment_sheet syn) = true
  /\ (exists r, head (compartment_sheet syn) = Some r /\ 2 <= length r)
  /\ length (filter (fun row => row !! 0 = Some "Cytoplasm") (compartment_sheet syn))
     <> 1
  /\ build_observables Sample.num Sample.py_float Sample.float_str Sample.fdiv
       Sample.fmul Sample.gt0 syn ObsMat = Raise TypeError.
Proof.
  intros syn ObsMat.
  assert (Hhead : exists r, head (compartment_sheet syn) = Some r /\ 2 <= length r).
  { exists ["name"; "volume"]. split; [reflexivity | cbn; lia]. }
  assert (Hcount : length (filter (fun row => row !! 0 = Some "Cytoplasm")
                             (compartment_sheet syn)) <> 1)
    by (vm_compute; discriminate).
  split; [reflexivity|]. split; [exact Hhead|]. split; [exact Hcount|].
  exact (proj2 (cytoplasm_row_required Sample.num Sample.py_float Sample.float_str
                  Sample.fdiv Sample.fmul Sample.gt0 syn ObsMat)
           eq_refl Hhead Hcount).
Defined.

Lemma single_token_substituted_witness :
  Py.contains "k" EmptyString = false
  /\ all_digits "1" = true
  /\ Py.contains "k" "*S1" = false
  /\ filter (fun p => negb (Sample.isnan p)) <$> Sample.genfromtxt ["5"]
     = Some [Some 5%Z]
  /\ Sample.py_float "5" = Some (Some 5%Z)
  /\ rxn_name Sample.T 2 = Ok "R3"
  /\ rate_law Sample.num Sample.py_float Sample.py_float Sample.genfromtxt
       Sample.isnan Sample.T 2 ["Nucleus"; "k1*S1"; "5"] "k3*" (start Sample.num)
     = Ok ("k3_1*S1", add_param Sample.num "k3_1" (Some 5%Z) "R3" 0 (start Sample.num)).
Proof.
  split; [reflexivity|]. split; [reflexivity|]. split; [reflexivity|].
  split; [reflexivity|]. split; [reflexivity|]. split; [reflexivity|].
  exact (single_token_substituted Sample.num Sample.py_float Sample.py_float
           Sample.genfromtxt Sample.isnan Sample.T 2 "Nucleus" EmptyString
           "1" EmptyString "*S1" "5" [] "k3*" (start Sample.num) (Some 5%Z)
           (Some 5%Z) "R3" eq_refl eq_refl
           ltac:(intros c Hc; injection Hc as <-; reflexivity)
           eq_refl eq_refl eq_refl eq_refl).
Defined.

Lemma templated_without_values_witness :
  Py.contains "k" "k1*S1" = true
  /\ filter (fun p => negb (Sample.isnan p)) <$> Sample.genfromtxt [] = Some []
  /\ rate_law Sample.num Sample.py_float Sample.py_float Sample.genfromtxt
       Sample.isnan Sample.T 2 ["Nucleus"; "k1*S1"] "k3*" (start Sample.num)
     = Ok ("k1*S1", start Sample.num).
Proof.
  split; [reflexivity|]. split; [reflexivity|].
  exact (templated_without_values Sample.num Sample.py_float Sample.py_float
           Sample.genfromtxt Sample.isnan Sample.T 2 "Nucleus" "k1*S1" [] "k3*"
           (start Sample.num) eq_refl eq_refl).
Defined.

Lemma reaction_row_frame_witness :
  exists st',
    reaction_row Sample.num Sample.py_float Sample.py_float Sample.py_int
      Sample.genfromtxt Sample.isnan Sample.T
      (add_param Sample.num "k1" (Some 2%Z) "R1" 0 (start Sample.num))
      (1, ["Nucleus"; "k1_1*S1/(k1_2+S1)"; "3"; "4"])
    = Ok st'
    /\ exists st0,
         reaction_row Sample.num Sample.py_float Sample.py_float Sample.py_int
           Sample.genfromtxt Sample.isnan Sample.T (start Sample.num)
           (1, ["Nucleus"; "k1_1*S1/(k1_2+S1)"; "3"; "4"])
         = Ok st0
         /\ grows Sample.num
              (add_param Sample.num "k1" (Some 2%Z) "R1" 0 (start Sample.num))
              st' (fileModel st0) (DataFrame Sample.num st0).
Proof.
  eexists. split; [vm_compute; reflexivity|].
  apply (reaction_row_frame Sample.num Sample.py_float Sample.py_float
           Sample.py_int Sample.genfromtxt Sample.isnan Sample.T).
  vm_compute; reflexivity.
Defined.
